(** * Yahoo Finance MCP server: credential cache, authenticated fetch and
      the data-shaping tool functions.

    The development embeds the two API clients of the repository
    ([src/yahoo-finance-api.ts], whose credential routine is [getCrumb], and
    the second client, whose credential routine is [getCookieAndCrumb]), the
    part of the JavaScript runtime they rely on, and the table of the tools
    as the agent registers them and as [src/server.ts] lists them.

    Conventions of the embedding.
    - A JavaScript string is a [string]: a sequence of 8-bit characters.
      Header values are byte strings in the Fetch API, so this is exact for
      them; body texts and URLs are read as their UTF-8 bytes, every
      search performed by the code looks for ASCII needles, and [slice]
      counts the UTF-16 code units of the text the bytes encode.
    - A JavaScript number is a [number]: an exact rational or one of
      [NaN], [+Infinity], [-Infinity].  The arithmetic is exact, which is
      the arithmetic of the language on binary64 operands whose exact
      result is a binary64 number; the properties that hold an arithmetic
      result are stated on integers for which this is so.  The sign of
      zero is outside the embedding.
    - An object is the list of its own properties in enumeration order.
      Of the prototype the embedding keeps what an assignment to the key
      ["__proto__"] depends on: such an assignment reaches the accessor of
      [Object.prototype] and adds no property (see [Js.set] and
      [Js.assign]).
    - The module-level variables [cachedCrumb], [cachedCookie] and
      [cacheExpiry] are fields of the [World] that every computation threads;
      the network and the clock are oracles of the [Env]; an exception is the
      [Throw] result. *)

From Stdlib Require Import ZArith QArith Qround Qabs List String Ascii Bool Lia.
From Stdlib Require Import Permutation Sorted DecimalString.
Import ListNotations.

Set Warnings "-register-all".

Local Open Scope string_scope.
Local Open Scope Z_scope.

(* ================================================================== *)
(** ** Strings *)

Module Str.

(** [s.includes(needle)] *)
Fixpoint includes (needle s : string) : bool :=
  String.prefix needle s
  || match s with
     | EmptyString => false
     | String _ s' => includes needle s'
     end.

(** [s.split(sep)] for a one-character separator. *)
Fixpoint split (sep : ascii) (s : string) : list string :=
  match s with
  | EmptyString => [EmptyString]
  | String c s' =>
      if Ascii.eqb c sep then EmptyString :: split sep s'
      else match split sep s' with
           | x :: xs => String c x :: xs
           | [] => [String c EmptyString]
           end
  end.

(** [parts.join(sep)] *)
Fixpoint join (sep : string) (parts : list string) : string :=
  match parts with
  | [] => EmptyString
  | [x] => x
  | x :: rest => x ++ sep ++ join sep rest
  end.

(** White space and line terminators of ECMAScript that fit in 8 bits:
    TAB, LF, VT, FF, CR, SP and NBSP. *)
Definition is_space (c : ascii) : bool :=
  let n := N_of_ascii c in
  (((9 <=? n) && (n <=? 13)) || (n =? 32) || (n =? 160))%N.

Fixpoint trim_start (s : string) : string :=
  match s with
  | EmptyString => EmptyString
  | String c s' => if is_space c then trim_start s' else s
  end.

Fixpoint trim_end (s : string) : string :=
  match s with
  | EmptyString => EmptyString
  | String c s' =>
      match trim_end s' with
      | EmptyString => if is_space c then EmptyString else String c EmptyString
      | t => String c t
      end
  end.

(** [s.trim()] *)
Definition trim (s : string) : string := trim_end (trim_start s).

(** The first UTF-16 code unit of a code point beyond U+FFFF, the high
    surrogate, written as three bytes in the way of UTF-8, from the first
    three of the four bytes [b0 b1 b2 _] of the code point. *)
Definition high_surrogate (b0 b1 b2 : ascii) : string :=
  let top := (N.land (N_of_ascii b0) 7 * 256
              + N.land (N_of_ascii b1) 63 * 4
              + N.land (N_of_ascii b2) 63 / 16)%N in
  let unit := (55232 + top)%N in   (* 0xD800 + (top - 0x40) *)
  String (ascii_of_N (224 + unit / 4096))
    (String (ascii_of_N (128 + (unit / 64) mod 64))
       (String (ascii_of_N (128 + unit mod 64)) EmptyString)).

(** The bytes of the first [n] UTF-16 code units of the text whose UTF-8
    bytes are [s], a well-formed sequence as [response.text()] decodes it;
    [pending] bytes of the code point under way are still to be copied.  A code point of one, two or three bytes is one code unit,
    one of four bytes is two: when one unit is left before it, the cut
    falls inside it and leaves its high surrogate. *)
Fixpoint take_units (n pending : nat) (s : string) : string :=
  match s with
  | EmptyString => EmptyString
  | String c s' =>
      match pending with
      | S p => String c (take_units n p s')
      | O =>
          match n with
          | O => EmptyString
          | S n' =>
              let b := N_of_ascii c in
              if (b <? 192)%N then String c (take_units n' 0 s')
              else if (b <? 224)%N then String c (take_units n' 1 s')
              else if (b <? 240)%N then String c (take_units n' 2 s')
              else match n', s' with
                   | O, String b1 (String b2 _) => high_surrogate c b1 b2
                   | O, _ => EmptyString
                   | S n'', _ => String c (take_units n'' 3 s')
                   end
          end
      end
  end.

(** [s.slice(0, n)] on a text held as its UTF-8 bytes: [slice] counts
    UTF-16 code units. *)
Definition slice0 (n : nat) (s : string) : string := take_units n 0 s.

(** Truthiness of a string: [Boolean(s)]. *)
Definition nonempty (s : string) : bool :=
  match s with EmptyString => false | _ => true end.

(** Decimal rendering of an integer, as a template literal renders an
    integral number. *)
Definition of_Z (z : Z) : string := NilZero.string_of_int (Z.to_int z).


End Str.

(* ================================================================== *)
(** ** [encodeURIComponent] *)

Module Uri.

Definition is_alnum (c : ascii) : bool :=
  let n := N_of_ascii c in
  (((48 <=? n) && (n <=? 57)) || ((65 <=? n) && (n <=? 90))
   || ((97 <=? n) && (n <=? 122)))%N.

(** The marks left alone by [encodeURIComponent]: [- _ . ! ~ * ' ( )]. *)
Definition is_mark (c : ascii) : bool :=
  existsb (Ascii.eqb c)
    ["-"; "_"; "."; "!"; "~"; "*"; "'"; "("; ")"]%char.

Definition unreserved (c : ascii) : bool := is_alnum c || is_mark c.

Definition hex_digit (n : N) : ascii :=
  if (n <? 10)%N then ascii_of_N (48 + n) else ascii_of_N (55 + n).

Definition percent (c : ascii) : string :=
  let n := N_of_ascii c in
  String "%" (String (hex_digit (n / 16)) (String (hex_digit (n mod 16)) EmptyString)).

Fixpoint encodeURIComponent (s : string) : string :=
  match s with
  | EmptyString => EmptyString
  | String c s' =>
      (if unreserved c then String c EmptyString else percent c)
      ++ encodeURIComponent s'
  end.

End Uri.

(* ================================================================== *)
(** ** Numbers *)

(** A number of the language: [NaN], the two infinities, or a finite
    number, held as the rational it denotes.  The arithmetic of [Num] is
    exact: it is the binary64 arithmetic of the language whenever the
    operands and the exact result are binary64 numbers, as they are for
    integers below [2 ^ 53] in absolute value, and the properties that
    hold an arithmetic result are stated on such numbers.  The two zeros
    are not told apart. *)
Inductive number : Type :=
| NaN
| Fin (q : Q)
| PInf
| NInf.

Module Num.

Definition of_Z (z : Z) : number := Fin (inject_Z z).

Definition sgn (q : Q) : Z := Z.sgn (Qnum q).

Definition inf (negative : bool) : number := if negative then NInf else PInf.

Definition neg (a : number) : number :=
  match a with
  | NaN => NaN
  | Fin q => Fin (Qred (- q))
  | PInf => NInf
  | NInf => PInf
  end.

Definition add (a b : number) : number :=
  match a, b with
  | NaN, _ | _, NaN => NaN
  | Fin x, Fin y => Fin (Qred (x + y))
  | PInf, NInf | NInf, PInf => NaN
  | PInf, _ | _, PInf => PInf
  | NInf, _ | _, NInf => NInf
  end.

(** [a - b] *)
Definition sub (a b : number) : number := add a (neg b).

Definition mul_inf (negative : bool) (q : Q) : number :=
  match sgn q with
  | 0 => NaN
  | Zpos _ => inf negative
  | Zneg _ => inf (negb negative)
  end.

(** [a * b] *)
Definition mul (a b : number) : number :=
  match a, b with
  | NaN, _ | _, NaN => NaN
  | Fin x, Fin y => Fin (Qred (x * y))
  | PInf, Fin y | Fin y, PInf => mul_inf false y
  | NInf, Fin y | Fin y, NInf => mul_inf true y
  | PInf, PInf | NInf, NInf => PInf
  | PInf, NInf | NInf, PInf => NInf
  end.

(** [a / b] *)
Definition div (a b : number) : number :=
  match a, b with
  | NaN, _ | _, NaN => NaN
  | Fin x, Fin y =>
      match sgn y with
      | 0 => match sgn x with
             | 0 => NaN
             | Zpos _ => PInf
             | Zneg _ => NInf
             end
      | _ => Fin (Qred (x / y))
      end
  | Fin _, (PInf | NInf) => Fin 0
  | PInf, Fin y => inf (sgn y <? 0)
  | NInf, Fin y => inf (negb (sgn y <? 0))
  | (PInf | NInf), (PInf | NInf) => NaN
  end.

(** [a >= b] *)
Definition geb (a b : number) : bool :=
  match a, b with
  | NaN, _ | _, NaN => false
  | Fin x, Fin y => Qle_bool y x
  | PInf, _ => true
  | _, NInf => true
  | _, _ => false
  end.

(** [a === b] on numbers. *)
Definition eqb (a b : number) : bool :=
  match a, b with
  | Fin x, Fin y => Qeq_bool x y
  | PInf, PInf | NInf, NInf => true
  | _, _ => false
  end.

(** [Boolean(a)] *)
Definition truthy (a : number) : bool :=
  match a with
  | NaN => false
  | Fin q => negb (Qeq_bool q 0)
  | _ => true
  end.

(** [Math.floor(a)] *)
Definition floor (a : number) : number :=
  match a with
  | Fin q => of_Z (Qfloor q)
  | _ => a
  end.

(** Truncation toward zero of a rational. *)
Definition trunc (q : Q) : Z :=
  if Qle_bool 0 q then Qfloor q else Qceiling q.

(** The sign a comparator result is read for by [Array.prototype.sort]:
    [NaN] counts as [+0]. *)
Definition sign (a : number) : Z :=
  match a with
  | NaN => 0
  | Fin q => sgn q
  | PInf => 1
  | NInf => -1
  end.

End Num.

(* ================================================================== *)
(** ** Values, errors and results *)

(** The values the clients handle: what [JSON.parse] produces, plus
    [undefined]. The fields of an object are listed in the order in which
    [Object.entries] enumerates them. *)
Inductive value : Type :=
| VUndefined
| VNull
| VBool (b : bool)
| VNum (n : number)
| VStr (s : string)
| VArr (items : list value)
| VObj (fields : list (string * value)).

(** An exception object: [name] and [message] of an [Error]. *)
Record JsError : Type := MkError { err_name : string; err_message : string }.

Inductive Result (A : Type) : Type :=
| Ok (a : A)
| Throw (e : JsError).
Arguments Ok {A} a.
Arguments Throw {A} e.

(** The functions of the runtime the embedding leaves open: the string
    to number conversion, the rendering of a finite number that is not a
    small integer, and what [Date.parse] makes of a string that is not in
    the ISO format. *)
Record Runtime : Type := {
  StringToNumber : string -> number;
  NumberToString : Q -> string;
  DateParseLegacy : string -> option Z
}.

Module Js.

Definition Error (msg : string) : JsError := MkError "Error" msg.
Definition TypeError (msg : string) : JsError := MkError "TypeError" msg.
Definition RangeError (msg : string) : JsError := MkError "RangeError" msg.
Definition SyntaxError (msg : string) : JsError := MkError "SyntaxError" msg.

(** [String(e)] for an error object ([Error.prototype.toString]). *)
Definition error_to_string (e : JsError) : string :=
  match err_name e, err_message e with
  | EmptyString, m => m
  | n, EmptyString => n
  | n, m => n ++ ": " ++ m
  end.

(** [Boolean(v)] *)
Definition truthy (v : value) : bool :=
  match v with
  | VUndefined | VNull => false
  | VBool b => b
  | VNum n => Num.truthy n
  | VStr s => Str.nonempty s
  | VArr _ | VObj _ => true
  end.

Definition nullish (v : value) : bool :=
  match v with
  | VUndefined | VNull => true
  | _ => false
  end.

(** [typeof v === "object"] *)
Definition typeof_object (v : value) : bool :=
  match v with
  | VNull | VArr _ | VObj _ => true
  | _ => false
  end.

(** [a || b] *)
Definition or (a b : value) : value := if truthy a then a else b.

(** [a ?? b] *)
Definition coalesce (a b : value) : value := if nullish a then b else a.

(** [Number.prototype.toString] *)
Definition number_to_string (rt : Runtime) (n : number) : string :=
  match n with
  | NaN => "NaN"
  | PInf => "Infinity"
  | NInf => "-Infinity"
  | Fin q =>
      let r := Qred q in
      if (Pos.eqb (Qden r) 1 && (Z.abs (Qnum r) <? 10 ^ 21))%bool
      then Str.of_Z (Qnum r)
      else NumberToString rt q
  end.

(** [String(v)], as a template literal converts [v]. *)
Fixpoint ToString (rt : Runtime) (v : value) : string :=
  match v with
  | VUndefined => "undefined"
  | VNull => "null"
  | VBool true => "true"
  | VBool false => "false"
  | VNum n => number_to_string rt n
  | VStr s => s
  | VArr items =>
      Str.join ","
        (map (fun x => match x with
                       | VUndefined | VNull => EmptyString
                       | _ => ToString rt x
                       end) items)
  | VObj _ => "[object Object]"
  end.

(** [Number(v)] *)
Definition ToNumber (rt : Runtime) (v : value) : number :=
  match v with
  | VUndefined => NaN
  | VNull => Fin 0
  | VBool true => Fin 1
  | VBool false => Fin 0
  | VNum n => n
  | VStr s => StringToNumber rt s
  | VArr _ => StringToNumber rt (ToString rt v)
  | VObj _ => NaN
  end.

(** ** Property keys and objects *)

Definition digit_of (c : ascii) : option N :=
  let n := N_of_ascii c in
  if ((48 <=? n) && (n <=? 57))%N then Some (n - 48)%N else None.

Fixpoint digits_value (acc : N) (s : string) : option N :=
  match s with
  | EmptyString => Some acc
  | String c s' =>
      match digit_of c with
      | Some d => digits_value (10 * acc + d)%N s'
      | None => None
      end
  end.

(** An array index: the canonical decimal form of an integer in
    [0, 2^32 - 2]. *)
Definition array_index (k : string) : option N :=
  match k with
  | EmptyString => None
  | _ =>
      match digits_value 0 k with
      | Some n =>
          if (String.eqb (Str.of_Z (Z.of_N n)) k && (n <? 4294967295)%N)%bool
          then Some n else None
      | None => None
      end
  end.

Fixpoint lookup (k : string) (fields : list (string * value)) : option value :=
  match fields with
  | [] => None
  | (k', v) :: rest => if String.eqb k k' then Some v else lookup k rest
  end.

Definition has_key (k : string) (fields : list (string * value)) : bool :=
  match lookup k fields with Some _ => true | None => false end.

Fixpoint replace (k : string) (v : value) (fields : list (string * value))
  : list (string * value) :=
  match fields with
  | [] => []
  | (k', v') :: rest =>
      if String.eqb k k' then (k, v) :: rest else (k', v') :: replace k v rest
  end.

(** A new index key goes before the first key that is not an index or is
    a larger index. *)
Fixpoint insert_index (n : N) (k : string) (v : value)
         (fields : list (string * value)) : list (string * value) :=
  match fields with
  | [] => [(k, v)]
  | (k', v') :: rest =>
      match array_index k' with
      | Some n' =>
          if (n <? n')%N then (k, v) :: fields
          else (k', v') :: insert_index n k v rest
      | None => (k, v) :: fields
      end
  end.

(** [CreateDataProperty(obj, k, v)], the way an object literal, a spread
    and an assignment that finds no accessor give [obj] the field [k]: an
    existing key keeps its place; a new key is enumerated after the others,
    except that array indices come first, in ascending order. *)
Definition define (k : string) (v : value) (fields : list (string * value))
  : list (string * value) :=
  if has_key k fields then replace k v fields
  else match array_index k with
       | Some n => insert_index n k v fields
       | None => fields ++ [(k, v)]
       end.

(** [obj[k] = v] on an object made by [{}], in a loop over
    [Object.entries], where no key comes twice: the key ["__proto__"]
    reaches the accessor of [Object.prototype], which changes the prototype
    or does nothing and gives [obj] no field; every other key is defined,
    whatever the prototype has become. *)
Definition set (k : string) (v : value) (fields : list (string * value))
  : list (string * value) :=
  if String.eqb k "__proto__" then fields else define k v fields.

Definition index_key (i : nat) : string := Str.of_Z (Z.of_nat i).

Fixpoint indexed {A : Type} (i : nat) (l : list A) : list (string * A) :=
  match l with
  | [] => []
  | x :: rest => (index_key i, x) :: indexed (S i) rest
  end.

Fixpoint chars (s : string) : list value :=
  match s with
  | EmptyString => []
  | String c s' => VStr (String c EmptyString) :: chars s'
  end.

(** Own enumerable string-keyed properties of [ToObject(v)]. *)
Definition own_entries (v : value) : list (string * value) :=
  match v with
  | VObj fields => fields
  | VArr items => indexed 0 items
  | VStr s => indexed 0 (chars s)
  | _ => []
  end.

Definition cannot_read (k : string) (v : value) : JsError :=
  TypeError ("Cannot read properties of "
             ++ (match v with VNull => "null" | _ => "undefined" end)
             ++ " (reading '" ++ k ++ "')").

Definition length_of (n : nat) : value := VNum (Num.of_Z (Z.of_nat n)).

(** Own data property [k] of a value that is not [null] or [undefined]. *)
Definition own_prop (v : value) (k : string) : value :=
  match v with
  | VObj fields =>
      match lookup k fields with Some x => x | None => VUndefined end
  | VArr items =>
      match array_index k with
      | Some n => nth (N.to_nat n) items VUndefined
      | None => if String.eqb k "length" then length_of (List.length items)
                else VUndefined
      end
  | VStr s =>
      match array_index k with
      | Some n => nth (N.to_nat n) (chars s) VUndefined
      | None => if String.eqb k "length" then length_of (String.length s)
                else VUndefined
      end
  | _ => VUndefined
  end.

(** [v.k] and [v[k]] *)
Definition get (v : value) (k : string) : Result value :=
  if nullish v then Throw (cannot_read k v) else Ok (own_prop v k).

(** [v?.k] and [v?.[k]] *)
Definition opt_get (v : value) (k : string) : value :=
  if nullish v then VUndefined else own_prop v k.

(** ["k" in v] for a [v] that passed [typeof v === "object"] and is
    truthy. *)
Definition has_in (k : string) (v : value) : bool :=
  match v with
  | VObj fields => has_key k fields
  | VArr items =>
      match array_index k with
      | Some n => (N.to_nat n <? List.length items)%nat
      | None => String.eqb k "length"
      end
  | _ => false
  end.

(** [Object.entries(v)] *)
Definition Object_entries (v : value) : Result (list (string * value)) :=
  if nullish v
  then Throw (TypeError "Cannot convert undefined or null to object")
  else Ok (own_entries v).

(** [Object.values(v)] *)
Definition Object_values (v : value) : Result (list value) :=
  if nullish v
  then Throw (TypeError "Cannot convert undefined or null to object")
  else Ok (map snd (own_entries v)).

(** An object made by [{}] that is assigned to many times: its own
    fields, and whether an assignment to ["__proto__"] that finds no own
    field of that name still ends at the accessor of [Object.prototype].
    It does until the accessor has made the prototype [null] or an object
    with a field ["__proto__"] of its own. *)
Record Target : Type := {
  proto_accessor : bool;
  own : list (string * value)
}.

Definition fresh : Target := {| proto_accessor := true; own := [] |}.

(** [target[k] = v]: [Set(target, k, v, true)].  The prototypes that the
    accessor installs are parsed JSON, whose fields are plain data, so no
    assignment throws and every key but ["__proto__"] is defined on
    [target] itself. *)
Definition assign (t : Target) (kv : string * value) : Target :=
  let k := fst kv in
  let v := snd kv in
  if String.eqb k "__proto__" && negb (has_key k (own t)) && proto_accessor t
  then match v with
       | VObj fields =>
           {| proto_accessor := negb (has_key "__proto__" fields); own := own t |}
       | VNull => {| proto_accessor := false; own := own t |}
       | _ => t   (* an array becomes the prototype, a primitive is ignored *)
       end
  else {| proto_accessor := proto_accessor t; own := define k v (own t) |}.

(** [Object.assign(target, source)] *)
Definition Object_assign (target : Target) (source : value) : Target :=
  fold_left assign (own_entries source) target.

End Js.

(* ================================================================== *)
(** ** The network, the clock and the computations that use them *)

Inductive Redirect : Type := RedirectFollow | RedirectManual.

(** What [fetch(url, { headers, redirect })] sends. *)
Record Request : Type := {
  req_url : string;
  req_headers : list (string * string);
  req_redirect : Redirect
}.

(** What the clients read from a [Response]: the status line, the
    [set-cookie] header ([None] when [headers.get] gives [null]), the body as
    [text()] gives it and as [json()] gives it. *)
Record Response : Type := {
  status : Z;
  statusText : string;
  set_cookie : option string;
  body_text : string;
  body_json : Result value
}.

(** [response.ok] *)
Definition ok (r : Response) : bool := (200 <=? status r) && (status r <=? 299).

Inductive FetchOutcome : Type :=
| Responded (r : Response)
| Rejected (e : JsError).

(** What a computation does to the outside, most recent first. *)
Inductive Event : Type :=
| EvNow
| EvFetch (r : Request)
| EvLog (line : string).

Record Env : Type := {
  runtime : Runtime;
  net : list Event -> Request -> FetchOutcome;
  clock : list Event -> Z
}.

(** The module-level variables of a client and the events so far. *)
Record World : Type := {
  cachedCrumb : option string;
  cachedCookie : option string;
  cacheExpiry : Z;
  events : list Event
}.

Definition record_event (e : Event) (w : World) : World :=
  {| cachedCrumb := cachedCrumb w; cachedCookie := cachedCookie w;
     cacheExpiry := cacheExpiry w; events := e :: events w |}.

(** The state of a freshly loaded module. *)
Definition initial_world : World :=
  {| cachedCrumb := None; cachedCookie := None; cacheExpiry := 0; events := [] |}.

(** The requests sent so far, most recent first. *)
Definition requests (w : World) : list Request :=
  flat_map (fun e => match e with EvFetch r => [r] | _ => [] end) (events w).

Definition M (A : Type) : Type := Env -> World -> Result A * World.

Definition ret {A : Type} (a : A) : M A := fun _ w => (Ok a, w).

Definition bind {A B : Type} (m : M A) (k : A -> M B) : M B :=
  fun env w =>
    match m env w with
    | (Ok a, w') => k a env w'
    | (Throw e, w') => (Throw e, w')
    end.

Definition throw {A : Type} (e : JsError) : M A := fun _ w => (Throw e, w).

(** [try { m } catch (error) { handler error }] *)
Definition try_catch {A : Type} (m : M A) (handler : JsError -> M A) : M A :=
  fun env w =>
    match m env w with
    | (Ok a, w') => (Ok a, w')
    | (Throw e, w') => handler e env w'
    end.

(** A step that cannot touch the world. *)
Definition lift {A : Type} (r : Result A) : M A := fun _ w => (r, w).

Declare Scope js_scope.
Delimit Scope js_scope with js.
Notation "x <- m ;; k" := (bind m (fun x => k))
  (at level 61, m at next level, right associativity) : js_scope.
Notation "m ;; k" := (bind m (fun _ => k))
  (at level 61, right associativity) : js_scope.
Local Open Scope js_scope.

(** [Date.now()] *)
Definition Date_now : M Z :=
  fun env w => (Ok (clock env (events w)), record_event EvNow w).

(** [await fetch(...)] *)
Definition fetch (r : Request) : M Response :=
  fun env w =>
    match net env (events w) r with
    | Responded resp => (Ok resp, record_event (EvFetch r) w)
    | Rejected e => (Throw e, record_event (EvFetch r) w)
    end.

(** [console.log(...)] *)
Definition console_log (line : string) : M unit :=
  fun _ w => (Ok tt, record_event (EvLog line) w).

Definition read_world : M World := fun _ w => (Ok w, w).

Definition read_runtime : M Runtime := fun env w => (Ok (runtime env), w).

(** The three assignments [cachedCrumb = ...; cachedCookie = ...;
    cacheExpiry = ...]. *)
Definition store_credentials (crumb cookie : string) (expiry : Z) : M unit :=
  fun _ w =>
    (Ok tt, {| cachedCrumb := Some crumb; cachedCookie := Some cookie;
               cacheExpiry := expiry; events := events w |}).

Record Credentials : Type := { crumb : string; cookie : string }.

Definition BASE_URL : string := "https://query1.finance.yahoo.com".
Definition BASE_URL_V2 : string := "https://query2.finance.yahoo.com".

Definition HEADERS : list (string * string) :=
  [("User-Agent", "Mozilla/5.0 (Macintosh; Intel Mac OS X 10_15_7) AppleWebKit/537.36 (KHTML, like Gecko) Chrome/120.0.0.0 Safari/537.36");
   ("Accept", "text/html,application/xhtml+xml,application/xml;q=0.9,image/webp,*/*;q=0.8");
   ("Accept-Language", "en-US,en;q=0.5")].

(** [headers[k] = v] on a record of strings. *)
Fixpoint set_header (k v : string) (headers : list (string * string))
  : list (string * string) :=
  match headers with
  | [] => [(k, v)]
  | (k', v') :: rest =>
      if String.eqb k k' then (k, v) :: rest else (k', v') :: set_header k v rest
  end.

(** The cache test both clients start with:
    [cachedCrumb && cachedCookie && now < cacheExpiry]. *)
Definition cached (w : World) (now : Z) : option Credentials :=
  match cachedCrumb w, cachedCookie w with
  | Some cr, Some ck =>
      if Str.nonempty cr && Str.nonempty ck && (now <? cacheExpiry w)
      then Some {| crumb := cr; cookie := ck |}
      else None
  | _, _ => None
  end.

(** [url + (url.includes("?") ? "&" : "?") + `crumb=${encodeURIComponent(crumb)}`] *)
Definition with_crumb (url crumb : string) : string :=
  url ++ (if Str.includes "?" url then "&" else "?")
      ++ "crumb=" ++ Uri.encodeURIComponent crumb.

(** [fetch(finalUrl, { headers })], for the pair of [finalUrl] and
    [headers]. *)
Definition data_request (target : string * list (string * string)) : Request :=
  {| req_url := fst target; req_headers := snd target;
     req_redirect := RedirectFollow |}.

(* ------------------------------------------------------------------ *)
(** ** The client of [src/yahoo-finance-api.ts] *)

Module Api.

(** [setCookie.split(",").map(c => c.split(";")[0].trim())
      .filter(Boolean).join("; ")] *)
Definition cookies_of (setCookie : string) : string :=
  Str.join "; "
    (filter Str.nonempty
       (map (fun c => Str.trim (hd EmptyString (Str.split ";" c)))
            (Str.split "," setCookie))).

(** The [if (setCookie) { cookies = ... }] of both cookie steps. *)
Definition read_cookies (resp : Response) (cookies : string) : string :=
  match set_cookie resp with
  | Some sc => if Str.nonempty sc then cookies_of sc else cookies
  | None => cookies
  end.

Definition fc_request : Request :=
  {| req_url := "https://fc.yahoo.com"; req_headers := HEADERS;
     req_redirect := RedirectManual |}.

Definition finance_request : Request :=
  {| req_url := "https://finance.yahoo.com"; req_headers := HEADERS;
     req_redirect := RedirectFollow |}.

Definition crumb_request (cookies : string) : Request :=
  {| req_url := BASE_URL ++ "/v1/test/getcrumb";
     req_headers := HEADERS ++ [("Cookie", cookies)];
     req_redirect := RedirectFollow |}.

(** Step 1 of the [try] block and its fallback: the value of [cookies]
    when the block reaches [if (!cookies)]. *)
Definition obtain_cookies : M string :=
  fcResponse <- fetch fc_request;;
  let cookies := read_cookies fcResponse EmptyString in
  if negb (Str.nonempty cookies)
  then financeResponse <- fetch finance_request;;
       ret (read_cookies financeResponse cookies)
  else ret cookies.

(** Step 2 of the [try] block. *)
Definition obtain_crumb (now : Z) (cookies : string) : M (option Credentials) :=
  crumbResponse <- fetch (crumb_request cookies);;
  if negb (ok crumbResponse)
  then console_log ("Crumb request failed: " ++ Str.of_Z (status crumbResponse));;
       ret None
  else
    let crumb := body_text crumbResponse in
    if negb (Str.nonempty crumb) || Str.includes "<" crumb
       || Str.includes "error" crumb
    then console_log ("Invalid crumb: " ++ Str.slice0 50 crumb);; ret None
    else
      store_credentials crumb cookies (now + 30 * 60 * 1000);;
      ret (Some {| crumb := crumb; cookie := cookies |}).

(** The body of the [try] block of [getCrumb]. *)
Definition handshake (now : Z) : M (option Credentials) :=
  cookies <- obtain_cookies;;
  if negb (Str.nonempty cookies)
  then console_log "No cookies obtained";; ret None
  else obtain_crumb now cookies.

Definition getCrumb : M (option Credentials) :=
  now <- Date_now;;
  w <- read_world;;
  match cached w now with
  | Some auth => ret (Some auth)
  | None =>
      try_catch (handshake now)
        (fun error =>
           console_log ("getCrumb error: " ++ Js.error_to_string error);;
           ret None)
  end.

(** The first half of [fetchYahoo]: [finalUrl] and [headers] when the
    request is about to be sent. *)
Definition outgoing (url : string) (needsCrumb : bool)
  : M (string * list (string * string)) :=
  if needsCrumb
  then auth <- getCrumb;;
       match auth with
       | Some a => ret (with_crumb url (crumb a),
                        set_header "Cookie" (cookie a) HEADERS)
       | None => ret (url, HEADERS)
       end
  else ret (url, HEADERS).

(** [new Error(`HTTP ${response.status}: ${text.slice(0, 200)}`)] for
    [text = await response.text()]. *)
Definition http_error (response : Response) : JsError :=
  Js.Error ("HTTP " ++ Str.of_Z (status response) ++ ": "
            ++ Str.slice0 200 (body_text response)).

Definition fetchYahoo (url : string) (needsCrumb : bool) : M Response :=
  target <- outgoing url needsCrumb;;
  response <- fetch (data_request target);;
  if negb (ok response)
  then throw (http_error response)
  else ret response.

End Api.

(* ------------------------------------------------------------------ *)
(** ** The second client, with [getCookieAndCrumb] *)

Module Api2.

(** [setCookieHeader.split(",").map(c => c.split(";")[0].trim()).join("; ")] *)
Definition cookies_of (setCookieHeader : string) : string :=
  Str.join "; "
    (map (fun c => Str.trim (hd EmptyString (Str.split ";" c)))
         (Str.split "," setCookieHeader)).

Definition home_request : Request :=
  {| req_url := "https://finance.yahoo.com"; req_headers := HEADERS;
     req_redirect := RedirectFollow |}.

Definition crumb_request (cookies : string) : Request :=
  {| req_url := BASE_URL_V2 ++ "/v1/test/getcrumb";
     req_headers := HEADERS ++ [("Cookie", cookies)];
     req_redirect := RedirectFollow |}.

(** Step 1: [cookies], from [homeResponse.headers.get("set-cookie") || ""]. *)
Definition home_cookies (homeResponse : Response) : string :=
  cookies_of (match set_cookie homeResponse with
              | Some sc => if Str.nonempty sc then sc else EmptyString
              | None => EmptyString
              end).

(** What [getCookieAndCrumb] does past the cache test. *)
Definition handshake (now : Z) : M Credentials :=
  homeResponse <- fetch home_request;;
  let cookies := home_cookies homeResponse in
  if negb (Str.nonempty cookies)
  then throw (Js.Error "Failed to get Yahoo cookie")
  else
    crumbResponse <- fetch (crumb_request cookies);;
    let crumb := body_text crumbResponse in
    if negb (Str.nonempty crumb) || Str.includes "error" crumb
    then throw (Js.Error "Failed to get Yahoo crumb")
    else
      store_credentials crumb cookies (now + 30 * 60 * 1000);;
      ret {| crumb := crumb; cookie := cookies |}.

Definition getCookieAndCrumb : M Credentials :=
  now <- Date_now;;
  w <- read_world;;
  match cached w now with
  | Some auth => ret auth
  | None => handshake now
  end.

(** The first half of [fetchYahoo]: [finalUrl] and [headers] when the
    request is about to be sent. *)
Definition outgoing (url : string) (useCrumb : bool)
  : M (string * list (string * string)) :=
  if useCrumb
  then auth <- getCookieAndCrumb;;
       ret (with_crumb url (crumb auth), set_header "Cookie" (cookie auth) HEADERS)
  else ret (url, HEADERS).

(** [new Error(`HTTP ${response.status}: ${response.statusText}`)] *)
Definition http_error (response : Response) : JsError :=
  Js.Error ("HTTP " ++ Str.of_Z (status response) ++ ": " ++ statusText response).

Definition fetchYahoo (url : string) (useCrumb : bool) : M Response :=
  target <- outgoing url useCrumb;;
  response <- fetch (data_request target);;
  if negb (ok response)
  then throw (http_error response)
  else ret response.

End Api2.

(* ------------------------------------------------------------------ *)
(** ** The two clients side by side *)

Inductive Client : Type :=
| CrumbClient        (* src/yahoo-finance-api.ts: getCrumb *)
| CookieCrumbClient. (* the second client: getCookieAndCrumb *)

(** The credential routine of a client; a failure of [getCrumb] is the
    result [None], a failure of [getCookieAndCrumb] is an exception. *)
Definition acquire (c : Client) : M (option Credentials) :=
  match c with
  | CrumbClient => Api.getCrumb
  | CookieCrumbClient => auth <- Api2.getCookieAndCrumb;; ret (Some auth)
  end.

Definition fetchYahoo (c : Client) : string -> bool -> M Response :=
  match c with
  | CrumbClient => Api.fetchYahoo
  | CookieCrumbClient => Api2.fetchYahoo
  end.

Definition outgoing (c : Client) : string -> bool -> M (string * list (string * string)) :=
  match c with
  | CrumbClient => Api.outgoing
  | CookieCrumbClient => Api2.outgoing
  end.

(** The error [fetchYahoo] throws on a response that is not [ok]. *)
Definition http_error (c : Client) : Response -> JsError :=
  match c with
  | CrumbClient => Api.http_error
  | CookieCrumbClient => Api2.http_error
  end.

(** The cache variables of a world. *)
Definition cache_of (w : World) : option string * option string * Z :=
  (cachedCrumb w, cachedCookie w, cacheExpiry w).

(* ================================================================== *)
(** ** Steps that can throw *)

Module Res.

Definition bind {A B : Type} (r : Result A) (k : A -> Result B) : Result B :=
  match r with
  | Ok a => k a
  | Throw e => Throw e
  end.

(** [items.map(f)], [f] receiving the element and its index. *)
Fixpoint mapi {A B : Type} (f : A -> nat -> Result B) (i : nat) (items : list A)
  : Result (list B) :=
  match items with
  | [] => Ok []
  | x :: rest =>
      bind (f x i) (fun y =>
      bind (mapi f (S i) rest) (fun ys => Ok (y :: ys)))
  end.

Definition map {A B : Type} (f : A -> Result B) (items : list A) : Result (list B) :=
  mapi (fun x _ => f x) 0 items.

(** [items.filter(f)] *)
Fixpoint filter {A : Type} (f : A -> Result bool) (items : list A)
  : Result (list A) :=
  match items with
  | [] => Ok []
  | x :: rest =>
      bind (f x) (fun keep =>
      bind (filter f rest) (fun ys => Ok (if keep then x :: ys else ys)))
  end.

End Res.

Declare Scope res_scope.
Delimit Scope res_scope with res.
Notation "'let*' x ':=' r 'in' k" := (Res.bind r (fun x => k))
  (at level 10, x name, r at level 100, k at level 200) : res_scope.

(* ================================================================== *)
(** ** [Array.prototype.sort] *)

Module Sort.

Section Sorting.

Context {A : Type}.
Variable compare : A -> A -> number.

(** [x] goes before the first element it does not compare greater than. *)
Fixpoint insert (x : A) (sorted : list A) : list A :=
  match sorted with
  | [] => [x]
  | y :: rest =>
      if Num.sign (compare x y) <=? 0 then x :: sorted
      else y :: insert x rest
  end.

(** The stable sort the language requires of [items.sort(compare)]; a
    comparator result of [NaN] is read as [+0]. *)
Fixpoint sort (items : list A) : list A :=
  match items with
  | [] => []
  | x :: rest => insert x (sort rest)
  end.

End Sorting.

End Sort.

(* ================================================================== *)
(** ** [Date] *)

Module Date.

Definition msPerDay : Z := 86400000.

(** The largest time value: 8.64e15 milliseconds on either side of the
    epoch. *)
Definition maxTime : Z := 8640000000000000.

(** [TimeClip]: the time value of [new Date(n)], [None] for an invalid
    date. *)
Definition TimeClip (n : number) : option Z :=
  match n with
  | Fin q =>
      if Qle_bool (Qabs q) (inject_Z maxTime) then Some (Num.trunc q) else None
  | _ => None
  end.

(** Year, month (1 to 12) and day of the month of a day number, in the
    proleptic Gregorian calendar; day 0 is 1970-01-01. *)
Definition civil_from_days (day : Z) : Z * Z * Z :=
  let z := day + 719468 in
  let era := z / 146097 in
  let doe := z - era * 146097 in
  let yoe := (doe - doe / 1460 + doe / 36524 - doe / 146096) / 365 in
  let doy := doe - (365 * yoe + yoe / 4 - yoe / 100) in
  let mp := (5 * doy + 2) / 153 in
  let d := doy - (153 * mp + 2) / 5 + 1 in
  let m := if mp <? 10 then mp + 3 else mp - 9 in
  (if m <=? 2 then yoe + era * 400 + 1 else yoe + era * 400, m, d).

(** The day number of a year, month (1 to 12) and day of the month. *)
Definition days_from_civil (year month d : Z) : Z :=
  let y := if month <=? 2 then year - 1 else year in
  let era := y / 400 in
  let yoe := y - era * 400 in
  let mp := if 2 <? month then month - 3 else month + 9 in
  let doy := (153 * mp + 2) / 5 + d - 1 in
  let doe := yoe * 365 + yoe / 4 - yoe / 100 + doy in
  era * 146097 + doe - 719468.

Definition digit_char (n : Z) : ascii := ascii_of_N (48 + Z.to_N n).

(** The last [width] decimal digits of [n], zero padded. *)
Fixpoint pad (width : nat) (n : Z) : string :=
  match width with
  | O => EmptyString
  | S width' =>
      String (digit_char ((n / 10 ^ Z.of_nat width') mod 10)) (pad width' n)
  end.

Definition year_string (y : Z) : string :=
  if (0 <=? y) && (y <=? 9999) then pad 4 y
  else (if y <? 0 then "-" else "+") ++ pad 6 (Z.abs y).

(** The text of [toISOString] for a time value:
    [YYYY-MM-DDTHH:mm:ss.sssZ], the year on six signed digits outside
    0 to 9999. *)
Definition iso_of_time (t : Z) : string :=
  let ms := t mod msPerDay in
  match civil_from_days (t / msPerDay) with
  | (y, m, d) =>
      year_string y ++ "-" ++ pad 2 m ++ "-" ++ pad 2 d
      ++ "T" ++ pad 2 (ms / 3600000) ++ ":" ++ pad 2 (ms / 60000 mod 60)
      ++ ":" ++ pad 2 (ms / 1000 mod 60) ++ "." ++ pad 3 (ms mod 1000) ++ "Z"
  end.

(** [date.toISOString()] *)
Definition toISOString (date : option Z) : Result string :=
  match date with
  | Some t => Ok (iso_of_time t)
  | None => Throw (Js.RangeError "Invalid time value")
  end.

(** [date.getTime()] *)
Definition getTime (date : option Z) : number :=
  match date with
  | Some t => Num.of_Z t
  | None => NaN
  end.

(** Reading [width] decimal digits. *)
Fixpoint take_digits (width : nat) (acc : Z) (s : string) : option (Z * string) :=
  match width with
  | O => Some (acc, s)
  | S width' =>
      match s with
      | String c s' =>
          match Js.digit_of c with
          | Some d => take_digits width' (10 * acc + Z.of_N d) s'
          | None => None
          end
      | EmptyString => None
      end
  end.

Definition expect (c : ascii) (s : string) : option string :=
  match s with
  | String c' s' => if Ascii.eqb c c' then Some s' else None
  | EmptyString => None
  end.

(** A year: four digits, or a sign and six digits other than [-000000]. *)
Definition take_year (s : string) : option (Z * string) :=
  match s with
  | String "+"%char s' => take_digits 6 0 s'
  | String "-"%char s' =>
      match take_digits 6 0 s' with
      | Some (0, _) => None
      | Some (y, rest) => Some (- y, rest)
      | None => None
      end
  | _ => take_digits 4 0 s
  end.

(** [YYYY-MM-DD], when it names a day of the calendar. *)
Definition take_date (s : string) : option (Z * string) :=
  match take_year s with
  | Some (y, s1) =>
      match expect "-" s1 with
      | Some s2 =>
          match take_digits 2 0 s2 with
          | Some (m, s3) =>
              match expect "-" s3 with
              | Some s4 =>
                  match take_digits 2 0 s4 with
                  | Some (d, s5) =>
                      let day := days_from_civil y m d in
                      match civil_from_days day with
                      | (y', m', d') =>
                          if (y' =? y) && (m' =? m) && (d' =? d)
                          then Some (day, s5) else None
                      end
                  | None => None
                  end
              | None => None
              end
          | None => None
          end
      | None => None
      end
  | None => None
  end.

(** [THH:mm:ss.sssZ] with [HH] up to 23: milliseconds into the day. *)
Definition take_time (s : string) : option (Z * string) :=
  match expect "T" s with
  | Some s1 =>
      match take_digits 2 0 s1 with
      | Some (h, s2) =>
          match expect ":" s2 with
          | Some s3 =>
              match take_digits 2 0 s3 with
              | Some (mi, s4) =>
                  match expect ":" s4 with
                  | Some s5 =>
                      match take_digits 2 0 s5 with
                      | Some (sec, s6) =>
                          match expect "." s6 with
                          | Some s7 =>
                              match take_digits 3 0 s7 with
                              | Some (ms, s8) =>
                                  match expect "Z" s8 with
                                  | Some s9 =>
                                      if (h <=? 23) && (mi <=? 59) && (sec <=? 59)
                                      then Some (h * 3600000 + mi * 60000
                                                 + sec * 1000 + ms, s9)
                                      else None
                                  | None => None
                                  end
                              | None => None
                              end
                          | None => None
                          end
                      | None => None
                      end
                  | None => None
                  end
              | None => None
              end
          | None => None
          end
      | None => None
      end
  | None => None
  end.

Definition in_range (t : Z) : option Z :=
  if Z.abs t <=? maxTime then Some t else None.

(** The two forms of the date-time format this embedding reads itself: the
    date alone (midnight UTC) and the full form [toISOString] writes. *)
Definition parse_iso (s : string) : option (option Z) :=
  match take_date s with
  | Some (day, EmptyString) => Some (in_range (day * msPerDay))
  | Some (day, rest) =>
      match take_time rest with
      | Some (ms, EmptyString) => Some (in_range (day * msPerDay + ms))
      | _ => None
      end
  | None => None
  end.

(** [Date.parse(s)]: the format of the language first, the runtime's own
    reading for every other string. *)
Definition parse (rt : Runtime) (s : string) : option Z :=
  match parse_iso s with
  | Some t => t
  | None => DateParseLegacy rt s
  end.

(** [new Date(v)] *)
Definition make (rt : Runtime) (v : value) : option Z :=
  match v with
  | VStr s => parse rt s
  | _ => TimeClip (Js.ToNumber rt v)
  end.

(** [new Date(n)] for a number. *)
Definition of_number (n : number) : option Z := TimeClip n.

(** [date.setMonth(date.getMonth() - monthsBack)], the local time zone
    being UTC. *)
Definition months_back (t : Z) (monthsBack : number) : option Z :=
  match civil_from_days (t / msPerDay) with
  | (y, m, d) =>
      match Num.sub (Num.of_Z (m - 1)) monthsBack with
      | Fin q =>
          let mo := Num.trunc q in
          let day := days_from_civil (y + mo / 12) (mo mod 12 + 1) 1 + d - 1 in
          in_range (day * msPerDay + t mod msPerDay)
      | _ => None
      end
  end.

End Date.

(* ================================================================== *)
(** ** The data-shaping tool functions *)

(** What a tool function returns: a text written by the function itself, or
    the text [JSON.stringify] makes of a value. *)
Inductive Payload : Type :=
| Text (s : string)
| Json (v : value).

Inductive FinancialType : Type :=
| income_stmt | quarterly_income_stmt
| balance_sheet | quarterly_balance_sheet
| cashflow | quarterly_cashflow.

Inductive HolderType : Type :=
| major_holders | institutional_holders | mutualfund_holders
| insider_transactions | insider_purchases | insider_roster_holders.

Inductive RecommendationType : Type := recommendations | upgrades_downgrades.

Inductive OptionType : Type := calls | puts.

Local Open Scope res_scope.

Module Shape.

(** [items.map], [items.filter] and the like exist on arrays only. *)
Definition array_items (callee : string) (v : value) : Result (list value) :=
  match v with
  | VArr items => Ok items
  | _ => Throw (Js.TypeError (callee ++ " is not a function"))
  end.

(** [new Date(v * 1000).toISOString()] *)
Definition iso_of_seconds (rt : Runtime) (v : value) : Result string :=
  Date.toISOString (Date.of_number (Num.mul (Js.ToNumber rt v) (Fin 1000))).

(** The three lines most tools start with once the body is parsed:
    [if (data.root?.error) return `Error: ${data.root.error.description}`;
     const result = data.root?.result?.[0];
     if (!result) return `Ticker ${ticker} not found.`;]
    The outcome is the text to return, or [result]. *)
Definition unwrap (rt : Runtime) (root ticker : string) (data : value)
  : Result (Payload + value) :=
  let* top := Js.get data root in
  if Js.truthy (Js.opt_get top "error")
  then
    let* error := Js.get top "error" in
    let* description := Js.get error "description" in
    Ok (inl (Text ("Error: " ++ Js.ToString rt description)))
  else
    let result := Js.opt_get (Js.opt_get top "result") "0" in
    if negb (Js.truthy result)
    then Ok (inl (Text ("Ticker " ++ ticker ++ " not found.")))
    else Ok (inr result).

(** *** getHistoricalStockPrices *)

Definition price_record (rt : Runtime) (quotes adjClose : value)
           (ts : value) (i : nat) : Result value :=
  let at_i (column : string) : Result value :=
    let* col := Js.get quotes column in
    Ok (Js.opt_get col (Js.index_key i)) in
  let* date := iso_of_seconds rt ts in
  let* o := at_i "open" in
  let* h := at_i "high" in
  let* l := at_i "low" in
  let* c := at_i "close" in
  let* v := at_i "volume" in
  let* c' := at_i "close" in
  Ok (VObj [("Date", VStr date);
            ("Open", Js.coalesce o VNull);
            ("High", Js.coalesce h VNull);
            ("Low", Js.coalesce l VNull);
            ("Close", Js.coalesce c VNull);
            ("Volume", Js.coalesce v VNull);
            ("Adj Close",
             Js.coalesce (Js.coalesce (Js.opt_get adjClose (Js.index_key i)) c')
                         VNull)]).

Definition prices (rt : Runtime) (ticker : string) (data : value) : Result Payload :=
  let* u := unwrap rt "chart" ticker data in
  match u with
  | inl text => Ok text
  | inr result =>
      let* ts := Js.get result "timestamp" in
      let timestamps := Js.or ts (VArr []) in
      let* indicators := Js.get result "indicators" in
      let quotes := Js.or (Js.opt_get (Js.opt_get indicators "quote") "0") (VObj []) in
      let adjClose :=
        Js.opt_get (Js.opt_get (Js.opt_get indicators "adjclose") "0") "adjclose" in
      let* items := array_items "timestamps.map" timestamps in
      let* records := Res.mapi (price_record rt quotes adjClose) 0 items in
      Ok (Json (VArr records))
  end.

(** *** getStockInfo *)

(** One turn of the loop of [getStockInfo]:
    [if (value && typeof value === "object") Object.assign(info, value)]. *)
Definition merge_step (info : Js.Target) (kv : string * value) : Js.Target :=
  if Js.truthy (snd kv) && Js.typeof_object (snd kv)
  then Js.Object_assign info (snd kv)
  else info.

(** The loop [for (const [, value] of Object.entries(result)) ...], from
    [info = {}], and the fields of [info] after it. *)
Definition merge_modules (entries : list (string * value)) : list (string * value) :=
  Js.own (fold_left merge_step entries Js.fresh).

Definition stock_info (rt : Runtime) (ticker : string) (data : value) : Result Payload :=
  let* u := unwrap rt "quoteSummary" ticker data in
  match u with
  | inl text => Ok text
  | inr result =>
      let* entries := Js.Object_entries result in
      Ok (Json (VObj (merge_modules entries)))
  end.

(** *** getYahooFinanceNews *)

Definition lf : string := String "010"%char EmptyString.

Definition news_block (rt : Runtime) (item : value) : Result string :=
  let* title := Js.get item "title" in
  let* publisher := Js.get item "publisher" in
  let* time := Js.get item "providerPublishTime" in
  let* published :=
    (if Js.truthy time then iso_of_seconds rt time else Ok EmptyString) in
  let* link := Js.get item "link" in
  Ok ("Title: " ++ Js.ToString rt (Js.or title (VStr EmptyString)) ++ lf
      ++ "Publisher: " ++ Js.ToString rt (Js.or publisher (VStr EmptyString)) ++ lf
      ++ "Published: " ++ published ++ lf
      ++ "URL: " ++ Js.ToString rt (Js.or link (VStr EmptyString))).

Definition is_zero (v : value) : bool :=
  match v with
  | VNum n => Num.eqb n (Fin 0)
  | _ => false
  end.

Definition news_of (rt : Runtime) (ticker : string) (data : value) : Result Payload :=
  let* n := Js.get data "news" in
  let news := Js.or n (VArr []) in
  let* len := Js.get news "length" in
  if is_zero len then Ok (Text ("No news found for " ++ ticker ++ "."))
  else
    let* items := array_items "news.map" news in
    let* blocks := Res.map (news_block rt) items in
    Ok (Text (Str.join (lf ++ lf) blocks)).

(** *** getStockActions *)

(** [{ Date: new Date(div.date * 1000).toISOString(),
       Dividends: div.amount, "Stock Splits": 0 }] *)
Definition dividend_action (rt : Runtime) (div : value) : Result value :=
  let* date := Js.get div "date" in
  let* iso := iso_of_seconds rt date in
  let* amount := Js.get div "amount" in
  Ok (VObj [("Date", VStr iso); ("Dividends", amount);
            ("Stock Splits", VNum (Fin 0))]).

(** [{ Date: new Date(split.date * 1000).toISOString(), Dividends: 0,
       "Stock Splits": split.numerator / split.denominator }] *)
Definition split_action (rt : Runtime) (split : value) : Result value :=
  let* date := Js.get split "date" in
  let* iso := iso_of_seconds rt date in
  let* numerator := Js.get split "numerator" in
  let* denominator := Js.get split "denominator" in
  Ok (VObj [("Date", VStr iso); ("Dividends", VNum (Fin 0));
            ("Stock Splits",
             VNum (Num.div (Js.ToNumber rt numerator) (Js.ToNumber rt denominator)))]).

(** [new Date(a.Date).getTime()] *)
Definition action_time (rt : Runtime) (a : value) : number :=
  Date.getTime (Date.make rt (Js.own_prop a "Date")).

(** [(a, b) => new Date(a.Date).getTime() - new Date(b.Date).getTime()] *)
Definition by_date (rt : Runtime) (a b : value) : number :=
  Num.sub (action_time rt a) (action_time rt b).

Definition actions (rt : Runtime) (ticker : string) (data : value) : Result Payload :=
  let* u := unwrap rt "chart" ticker data in
  match u with
  | inl text => Ok text
  | inr result =>
      let* ev := Js.get result "events" in
      let events := Js.or ev (VObj []) in
      let* dividends := Js.get events "dividends" in
      let* divs := Js.Object_values (Js.or dividends (VObj [])) in
      let* from_dividends := Res.map (dividend_action rt) divs in
      let* splits := Js.get events "splits" in
      let* spl := Js.Object_values (Js.or splits (VObj [])) in
      let* from_splits := Res.map (split_action rt) spl in
      Ok (Json (VArr (Sort.sort (by_date rt) (from_dividends ++ from_splits))))
  end.

(** *** getFinancialStatement *)

Definition financial_type_name (t : FinancialType) : string :=
  match t with
  | income_stmt => "income_stmt"
  | quarterly_income_stmt => "quarterly_income_stmt"
  | balance_sheet => "balance_sheet"
  | quarterly_balance_sheet => "quarterly_balance_sheet"
  | cashflow => "cashflow"
  | quarterly_cashflow => "quarterly_cashflow"
  end.

Definition financial_module (t : FinancialType) : string :=
  match t with
  | income_stmt => "incomeStatementHistory"
  | quarterly_income_stmt => "incomeStatementHistoryQuarterly"
  | balance_sheet => "balanceSheetHistory"
  | quarterly_balance_sheet => "balanceSheetHistoryQuarterly"
  | cashflow => "cashflowStatementHistory"
  | quarterly_cashflow => "cashflowStatementHistoryQuarterly"
  end.

(** One turn of the loop over [Object.entries(stmt)]. *)
Definition flatten_entry (obj : list (string * value)) (kv : string * value)
  : list (string * value) :=
  let key := fst kv in
  let value := snd kv in
  if Js.truthy value && Js.typeof_object value && Js.has_in "raw" value
  then Js.set key (Js.own_prop value "raw") obj
  else if String.eqb key "endDate" && Js.truthy value
          && Js.typeof_object value && Js.has_in "fmt" value
       then Js.set "date" (Js.own_prop value "fmt") obj
       else Js.set key value obj.

(** The callback of [statements.map]: the flattening of one statement. *)
Definition flatten_statement (stmt : value) : Result value :=
  let* entries := Js.Object_entries stmt in
  Ok (VObj (fold_left flatten_entry entries [])).

(** The [if / else if] chain that picks [statements] out of [result]. *)
Definition statements_of (name : string) (result : value) : Result value :=
  let quarterly := Str.includes "quarterly" name in
  if Str.includes "income" name
  then
    let* section := Js.get result (if quarterly then "incomeStatementHistoryQuarterly"
                                   else "incomeStatementHistory") in
    Ok (Js.or (Js.opt_get section "incomeStatementHistory") (VArr []))
  else if Str.includes "balance" name
  then
    let* section := Js.get result (if quarterly then "balanceSheetHistoryQuarterly"
                                   else "balanceSheetHistory") in
    Ok (Js.or (Js.opt_get section "balanceSheetStatements") (VArr []))
  else if Str.includes "cashflow" name
  then
    let* section := Js.get result (if quarterly then "cashflowStatementHistoryQuarterly"
                                   else "cashflowStatementHistory") in
    Ok (Js.or (Js.opt_get section "cashflowStatements") (VArr []))
  else Ok (VArr []).

Definition statements (rt : Runtime) (ticker : string) (t : FinancialType)
           (data : value) : Result Payload :=
  let* u := unwrap rt "quoteSummary" ticker data in
  match u with
  | inl text => Ok text
  | inr result =>
      let* found := statements_of (financial_type_name t) result in
      let* items := array_items "statements.map" found in
      let* flattened := Res.map flatten_statement items in
      Ok (Json (VArr flattened))
  end.

(** *** getHolderInfo *)

Definition holder_type_name (t : HolderType) : string :=
  match t with
  | major_holders => "major_holders"
  | institutional_holders => "institutional_holders"
  | mutualfund_holders => "mutualfund_holders"
  | insider_transactions => "insider_transactions"
  | insider_purchases => "insider_purchases"
  | insider_roster_holders => "insider_roster_holders"
  end.

Definition holder_module (t : HolderType) : string :=
  match t with
  | major_holders => "majorHoldersBreakdown"
  | institutional_holders => "institutionOwnership"
  | mutualfund_holders => "fundOwnership"
  | insider_transactions => "insiderTransactions"
  | insider_purchases => "netSharePurchaseActivity"
  | insider_roster_holders => "insiderHolders"
  end.

(** The [switch (holderType)]. *)
Definition holders_of (t : HolderType) (result : value) : Result value :=
  let listed (section list : string) : Result value :=
    let* s := Js.get result section in
    Ok (Js.or (Js.opt_get s list) (VArr [])) in
  match t with
  | major_holders => Js.get result "majorHoldersBreakdown"
  | institutional_holders => listed "institutionOwnership" "ownershipList"
  | mutualfund_holders => listed "fundOwnership" "ownershipList"
  | insider_transactions => listed "insiderTransactions" "transactions"
  | insider_purchases => Js.get result "netSharePurchaseActivity"
  | insider_roster_holders => listed "insiderHolders" "holders"
  end.

Fixpoint extractRaw (obj : value) : value :=
  match obj with
  | VArr items => VArr (List.map extractRaw items)
  | VObj fields =>
      if Js.has_key "raw" fields then Js.own_prop obj "raw"
      else VObj (fold_left
                   (fun newObj kv =>
                      match kv with
                      | (k, v) => Js.set k (extractRaw v) newObj
                      end)
                   fields [])
  | _ => obj
  end.

Definition holders (rt : Runtime) (ticker : string) (t : HolderType)
           (data : value) : Result Payload :=
  let* u := unwrap rt "quoteSummary" ticker data in
  match u with
  | inl text => Ok text
  | inr result =>
      let* found := holders_of t result in
      Ok (Json (extractRaw found))
  end.

(** *** getOptionExpirationDates *)

(** [new Date(ts * 1000).toISOString().split("T")[0]] *)
Definition expiration_day (rt : Runtime) (ts : value) : Result value :=
  let* iso := iso_of_seconds rt ts in
  Ok (VStr (hd EmptyString (Str.split "T" iso))).

Definition expirations (rt : Runtime) (ticker : string) (data : value)
  : Result Payload :=
  let* u := unwrap rt "optionChain" ticker data in
  match u with
  | inl text => Ok text
  | inr result =>
      let* dates := Js.get result "expirationDates" in
      let* items := array_items "(result.expirationDates || []).map"
                      (Js.or dates (VArr [])) in
      let* days := Res.map (expiration_day rt) items in
      Ok (Json (VArr days))
  end.

(** *** getOptionChain *)

Definition option_chain (rt : Runtime) (ticker expirationDate : string)
           (t : OptionType) (data : value) : Result Payload :=
  let* u := unwrap rt "optionChain" ticker data in
  match u with
  | inl text => Ok text
  | inr result =>
      let* opts := Js.get result "options" in
      let options := Js.opt_get opts "0" in
      if negb (Js.truthy options)
      then Ok (Text ("No options for " ++ expirationDate
                     ++ ". Use get_option_expiration_dates first."))
      else
        let* chain := Js.get options (match t with calls => "calls" | puts => "puts" end) in
        Ok (Json chain)
  end.

(** *** getRecommendations *)

(** [item => item.epochGradeDate && item.epochGradeDate >= cutoffTs] *)
Definition recent (rt : Runtime) (cutoffTs : number) (item : value) : Result bool :=
  let* e := Js.get item "epochGradeDate" in
  Ok (if Js.truthy e then Num.geb (Js.ToNumber rt e) cutoffTs else false).

(** [x.epochGradeDate || 0] *)
Definition grade_epoch (rt : Runtime) (item : value) : number :=
  Js.ToNumber rt (Js.or (Js.own_prop item "epochGradeDate") (VNum (Fin 0))).

(** [(a, b) => (b.epochGradeDate || 0) - (a.epochGradeDate || 0)] *)
Definition latest_first (rt : Runtime) (a b : value) : number :=
  Num.sub (grade_epoch rt b) (grade_epoch rt a).

(** [seenFirms.has(x)]: the SameValueZero comparison of a [Set]. Two
    objects of a parsed body are never the same object. *)
Definition same_value_zero (a b : value) : bool :=
  match a, b with
  | VUndefined, VUndefined | VNull, VNull => true
  | VBool x, VBool y => Bool.eqb x y
  | VNum NaN, VNum NaN => true
  | VNum x, VNum y => Num.eqb x y
  | VStr x, VStr y => String.eqb x y
  | _, _ => false
  end.

(** The filter through [seenFirms]: the entries whose [firm] was not met
    before, [seen] being the firms met so far. *)
Fixpoint unique_by_firm (seen : list value) (items : list value)
  : Result (list value) :=
  match items with
  | [] => Ok []
  | item :: rest =>
      let* firm := Js.get item "firm" in
      if existsb (same_value_zero firm) seen
      then unique_by_firm seen rest
      else let* kept := unique_by_firm (firm :: seen) rest in
           Ok (item :: kept)
  end.

(** [{ ...item, gradeDate: item.epochGradeDate
         ? new Date(item.epochGradeDate * 1000).toISOString() : null }] *)
Definition with_grade_date (rt : Runtime) (item : value) : Result value :=
  let* e := Js.get item "epochGradeDate" in
  let* gradeDate :=
    (if Js.truthy e
     then let* iso := iso_of_seconds rt e in Ok (VStr iso)
     else Ok VNull) in
  Ok (VObj (Js.define "gradeDate" gradeDate (Js.own_entries item))).

(** The upgrade and downgrade history of [result], from the cutoff on. *)
Definition upgrades (rt : Runtime) (cutoffTs : number) (result : value)
  : Result Payload :=
  let* section := Js.get result "upgradeDowngradeHistory" in
  let history := Js.or (Js.opt_get section "history") (VArr []) in
  let* items := array_items "history.filter" history in
  let* kept := Res.filter (recent rt cutoffTs) items in
  let filtered := Sort.sort (latest_first rt) kept in
  let* uniqueByFirm := unique_by_firm [] filtered in
  let* dated := Res.map (with_grade_date rt) uniqueByFirm in
  Ok (Json (VArr dated)).

(** [JSON.stringify(result.recommendationTrend?.trend || [])] *)
Definition trend (result : value) : Result Payload :=
  let* section := Js.get result "recommendationTrend" in
  Ok (Json (Js.or (Js.opt_get section "trend") (VArr []))).

(** [Math.floor((Date.now() - monthsBack * 30 * 24 * 60 * 60 * 1000) / 1000)] *)
Definition cutoff_30_day_months (now : Z) (monthsBack : number) : number :=
  let span :=
    Num.mul (Num.mul (Num.mul (Num.mul (Num.mul monthsBack (Fin 30)) (Fin 24))
                              (Fin 60)) (Fin 60)) (Fin 1000) in
  Num.floor (Num.div (Num.sub (Num.of_Z now) span) (Fin 1000)).

(** [cutoffDate.setMonth(cutoffDate.getMonth() - monthsBack);
     Math.floor(cutoffDate.getTime() / 1000)] for [cutoffDate = new Date()]. *)
Definition cutoff_calendar_months (now : Z) (monthsBack : number) : number :=
  match Date.in_range now with
  | Some t =>
      Num.floor (Num.div (Date.getTime (Date.months_back t monthsBack)) (Fin 1000))
  | None => NaN
  end.

End Shape.

(* ================================================================== *)
(** ** The nine tool functions *)

(** [catch (error) { return `Error: ${error}`; }] *)
Definition error_payload (error : JsError) : M Payload :=
  ret (Text ("Error: " ++ Js.error_to_string error)).

(** [const response = await fetchYahoo(url, needsCrumb);
     const data = await response.json();] *)
Definition fetch_json (c : Client) (url : string) (needsCrumb : bool) : M value :=
  response <- fetchYahoo c url needsCrumb;;
  lift (body_json response).

(** The chart endpoints are fetched without crumb by the first client and
    with it by the second. *)
Definition chart_needs_crumb (c : Client) : bool :=
  match c with
  | CrumbClient => false
  | CookieCrumbClient => true
  end.

(** The cutoff of [getRecommendations]: thirty-day months in the first
    client, calendar months in the second. *)
Definition cutoffTs (c : Client) (now : Z) (monthsBack : number) : number :=
  match c with
  | CrumbClient => Shape.cutoff_30_day_months now monthsBack
  | CookieCrumbClient => Shape.cutoff_calendar_months now monthsBack
  end.

(** The URL templates of the tool functions. *)
Module Url.

Definition prices (ticker period interval : string) : string :=
  BASE_URL ++ "/v8/finance/chart/" ++ Uri.encodeURIComponent ticker
  ++ "?range=" ++ period ++ "&interval=" ++ interval
  ++ "&includeAdjustedClose=true".

Definition quote_summary (ticker modules : string) : string :=
  BASE_URL_V2 ++ "/v10/finance/quoteSummary/" ++ Uri.encodeURIComponent ticker
  ++ "?modules=" ++ modules.

Definition stock_info (ticker : string) : string :=
  quote_summary ticker
    (Str.join ","
       ["assetProfile"; "summaryProfile"; "summaryDetail"; "financialData";
        "defaultKeyStatistics"; "calendarEvents"; "price"]).

Definition news (ticker : string) : string :=
  BASE_URL ++ "/v1/finance/search?q=" ++ Uri.encodeURIComponent ticker
  ++ "&newsCount=10&enableFuzzyQuery=false".

Definition actions (ticker : string) : string :=
  BASE_URL ++ "/v8/finance/chart/" ++ Uri.encodeURIComponent ticker
  ++ "?range=max&interval=1d&events=div,split".

Definition options (ticker : string) : string :=
  BASE_URL ++ "/v7/finance/options/" ++ Uri.encodeURIComponent ticker.

Definition option_chain (ticker dateTs : string) : string :=
  BASE_URL ++ "/v7/finance/options/" ++ Uri.encodeURIComponent ticker
  ++ "?date=" ++ dateTs.

Definition recommendation_module (t : RecommendationType) : string :=
  match t with
  | recommendations => "recommendationTrend"
  | upgrades_downgrades => "upgradeDowngradeHistory"
  end.

End Url.

Section Tools.

Variable c : Client.

Definition try_getHistoricalStockPrices (ticker period interval : string)
  : M Payload :=
  data <- fetch_json c (Url.prices ticker period interval) (chart_needs_crumb c);;
  rt <- read_runtime;;
  lift (Shape.prices rt ticker data).

Definition getHistoricalStockPrices (ticker period interval : string) : M Payload :=
  try_catch (try_getHistoricalStockPrices ticker period interval) error_payload.

Definition try_getStockInfo (ticker : string) : M Payload :=
  data <- fetch_json c (Url.stock_info ticker) true;;
  rt <- read_runtime;;
  lift (Shape.stock_info rt ticker data).

Definition getStockInfo (ticker : string) : M Payload :=
  try_catch (try_getStockInfo ticker) error_payload.

Definition try_getYahooFinanceNews (ticker : string) : M Payload :=
  data <- fetch_json c (Url.news ticker) false;;
  rt <- read_runtime;;
  lift (Shape.news_of rt ticker data).

Definition getYahooFinanceNews (ticker : string) : M Payload :=
  try_catch (try_getYahooFinanceNews ticker) error_payload.

Definition try_getStockActions (ticker : string) : M Payload :=
  data <- fetch_json c (Url.actions ticker) (chart_needs_crumb c);;
  rt <- read_runtime;;
  lift (Shape.actions rt ticker data).

Definition getStockActions (ticker : string) : M Payload :=
  try_catch (try_getStockActions ticker) error_payload.

Definition try_getFinancialStatement (ticker : string) (financialType : FinancialType)
  : M Payload :=
  let module := Shape.financial_module financialType in
  if negb (Str.nonempty module)
  then ret (Text ("Invalid financial type: "
                  ++ Shape.financial_type_name financialType))
  else
    data <- fetch_json c (Url.quote_summary ticker module) true;;
    rt <- read_runtime;;
    lift (Shape.statements rt ticker financialType data).

Definition getFinancialStatement (ticker : string) (financialType : FinancialType)
  : M Payload :=
  try_catch (try_getFinancialStatement ticker financialType) error_payload.

Definition try_getHolderInfo (ticker : string) (holderType : HolderType)
  : M Payload :=
  let module := Shape.holder_module holderType in
  if negb (Str.nonempty module)
  then ret (Text ("Invalid holder type: " ++ Shape.holder_type_name holderType))
  else
    data <- fetch_json c (Url.quote_summary ticker module) true;;
    rt <- read_runtime;;
    lift (Shape.holders rt ticker holderType data).

Definition getHolderInfo (ticker : string) (holderType : HolderType) : M Payload :=
  try_catch (try_getHolderInfo ticker holderType) error_payload.

Definition try_getOptionExpirationDates (ticker : string) : M Payload :=
  data <- fetch_json c (Url.options ticker) true;;
  rt <- read_runtime;;
  lift (Shape.expirations rt ticker data).

Definition getOptionExpirationDates (ticker : string) : M Payload :=
  try_catch (try_getOptionExpirationDates ticker) error_payload.

Definition try_getOptionChain (ticker expirationDate : string)
           (optionType : OptionType) : M Payload :=
  rt <- read_runtime;;
  let dateTs := Num.floor (Num.div (Date.getTime (Date.parse rt expirationDate))
                                   (Fin 1000)) in
  data <- fetch_json c (Url.option_chain ticker (Js.number_to_string rt dateTs))
            true;;
  lift (Shape.option_chain rt ticker expirationDate optionType data).

Definition getOptionChain (ticker expirationDate : string)
           (optionType : OptionType) : M Payload :=
  try_catch (try_getOptionChain ticker expirationDate optionType) error_payload.

Definition try_getRecommendations (ticker : string)
           (recommendationType : RecommendationType) (monthsBack : number)
  : M Payload :=
  let module := Url.recommendation_module recommendationType in
  data <- fetch_json c (Url.quote_summary ticker module) true;;
  rt <- read_runtime;;
  u <- lift (Shape.unwrap rt "quoteSummary" ticker data);;
  match u with
  | inl text => ret text
  | inr result =>
      match recommendationType with
      | recommendations => lift (Shape.trend result)
      | upgrades_downgrades =>
          now <- Date_now;;
          lift (Shape.upgrades rt (cutoffTs c now monthsBack) result)
      end
  end.

Definition getRecommendations (ticker : string)
           (recommendationType : RecommendationType) (monthsBack : number)
  : M Payload :=
  try_catch (try_getRecommendations ticker recommendationType monthsBack)
            error_payload.

End Tools.

(** A call of one of the nine tools, as the server registers them. *)
Inductive ToolCall : Type :=
| get_historical_stock_prices (ticker period interval : string)
| get_stock_info (ticker : string)
| get_yahoo_finance_news (ticker : string)
| get_stock_actions (ticker : string)
| get_financial_statement (ticker : string) (financial_type : FinancialType)
| get_holder_info (ticker : string) (holder_type : HolderType)
| get_option_expiration_dates (ticker : string)
| get_option_chain (ticker expiration_date : string) (option_type : OptionType)
| get_recommendations (ticker : string) (recommendation_type : RecommendationType)
                      (months_back : number).

(** The [try] block of the function a call runs. *)
Definition tool_try (c : Client) (t : ToolCall) : M Payload :=
  match t with
  | get_historical_stock_prices ticker period interval =>
      try_getHistoricalStockPrices c ticker period interval
  | get_stock_info ticker => try_getStockInfo c ticker
  | get_yahoo_finance_news ticker => try_getYahooFinanceNews c ticker
  | get_stock_actions ticker => try_getStockActions c ticker
  | get_financial_statement ticker financial_type =>
      try_getFinancialStatement c ticker financial_type
  | get_holder_info ticker holder_type => try_getHolderInfo c ticker holder_type
  | get_option_expiration_dates ticker => try_getOptionExpirationDates c ticker
  | get_option_chain ticker expiration_date option_type =>
      try_getOptionChain c ticker expiration_date option_type
  | get_recommendations ticker recommendation_type months_back =>
      try_getRecommendations c ticker recommendation_type months_back
  end.

(** The function a call runs. *)
Definition call_tool (c : Client) (t : ToolCall) : M Payload :=
  match t with
  | get_historical_stock_prices ticker period interval =>
      getHistoricalStockPrices c ticker period interval
  | get_stock_info ticker => getStockInfo c ticker
  | get_yahoo_finance_news ticker => getYahooFinanceNews c ticker
  | get_stock_actions ticker => getStockActions c ticker
  | get_financial_statement ticker financial_type =>
      getFinancialStatement c ticker financial_type
  | get_holder_info ticker holder_type => getHolderInfo c ticker holder_type
  | get_option_expiration_dates ticker => getOptionExpirationDates c ticker
  | get_option_chain ticker expiration_date option_type =>
      getOptionChain c ticker expiration_date option_type
  | get_recommendations ticker recommendation_type months_back =>
      getRecommendations c ticker recommendation_type months_back
  end.

(** The URL a call fetches and whether it asks for the crumb. *)
Definition tool_request (rt : Runtime) (c : Client) (t : ToolCall) : string * bool :=
  match t with
  | get_historical_stock_prices ticker period interval =>
      (Url.prices ticker period interval, chart_needs_crumb c)
  | get_stock_info ticker => (Url.stock_info ticker, true)
  | get_yahoo_finance_news ticker => (Url.news ticker, false)
  | get_stock_actions ticker => (Url.actions ticker, chart_needs_crumb c)
  | get_financial_statement ticker financial_type =>
      (Url.quote_summary ticker (Shape.financial_module financial_type), true)
  | get_holder_info ticker holder_type =>
      (Url.quote_summary ticker (Shape.holder_module holder_type), true)
  | get_option_expiration_dates ticker => (Url.options ticker, true)
  | get_option_chain ticker expiration_date _ =>
      (Url.option_chain ticker
         (Js.number_to_string rt
            (Num.floor (Num.div (Date.getTime (Date.parse rt expiration_date))
                                (Fin 1000)))),
       true)
  | get_recommendations ticker recommendation_type _ =>
      (Url.quote_summary ticker (Url.recommendation_module recommendation_type), true)
  end.

(** The member of the body in which a call looks for an embedded error;
    the news search has none. *)
Definition tool_root (t : ToolCall) : option string :=
  match t with
  | get_historical_stock_prices _ _ _ | get_stock_actions _ => Some "chart"
  | get_yahoo_finance_news _ => None
  | get_option_expiration_dates _ | get_option_chain _ _ _ => Some "optionChain"
  | _ => Some "quoteSummary"
  end.

(* ================================================================== *)
(** ** Shapes of the upstream data *)

Module Wf.

(** [k1] is enumerated before [k2] in an object that has both: they
    differ, array indices come first and in ascending order. *)
Definition key_before (k1 k2 : string) : bool :=
  negb (String.eqb k1 k2)
  && match Js.array_index k1, Js.array_index k2 with
     | Some a, Some b => (a <? b)%N
     | Some _, None => true
     | None, Some _ => false
     | None, None => true
     end.

Fixpoint own_order (keys : list string) : bool :=
  match keys with
  | [] => true
  | k :: rest => forallb (key_before k) rest && own_order rest
  end.

(** The field list of an object: every key once, in the order in which the
    language enumerates own keys. *)
Definition object (fields : list (string * value)) : bool :=
  own_order (map fst fields).

(** No field has the name ["__proto__"]. *)
Definition plain_keys (fields : list (string * value)) : bool :=
  forallb (fun kv => negb (String.eqb (fst kv) "__proto__")) fields.

(** An object that has the key [k]. *)
Definition object_with (k : string) (v : value) : bool :=
  match v with
  | VObj fields => Js.has_key k fields
  | _ => false
  end.

(** A statement already flattened: no value is an object with the key
    ["raw"], and [endDate], if there, is not an object with the key ["fmt"]. *)
Definition flattened (fields : list (string * value)) : bool :=
  forallb
    (fun kv => negb (object_with "raw" (snd kv))
               && negb (String.eqb (fst kv) "endDate" && object_with "fmt" (snd kv)))
    fields.

(** A module of a quote summary that [getStockInfo] merges: an object (or
    an array), not [null]. *)
Definition module_value (v : value) : bool :=
  Js.truthy v && Js.typeof_object v.


End Wf.

(* ================================================================== *)
(** ** Definitions used to state and check the properties *)

(** What the [catch] of a tool function makes of the outcome of its [try]
    block. *)
Definition settle (r : Result Payload) : Result Payload :=
  match r with
  | Ok p => Ok p
  | Throw e => Ok (Text ("Error: " ++ Js.error_to_string e))
  end.




Module Check.

(** Checking a predicate on the [n] integers from [z] on. *)
Fixpoint all_from (n : nat) (z : Z) (p : Z -> bool) : bool :=
  match n with
  | O => true
  | S n' => p z && all_from n' (z + 1) p
  end.

(** The part of [civil_from_days] that works inside a 400-year era: year of
    the era, month and day of the month of a day of the era. *)
Definition civil_of_doe (doe : Z) : Z * Z * Z :=
  let yoe := (doe - doe / 1460 + doe / 36524 - doe / 146096) / 365 in
  let doy := doe - (365 * yoe + yoe / 4 - yoe / 100) in
  let mp := (5 * doy + 2) / 153 in
  let d := doy - (153 * mp + 2) / 5 + 1 in
  let m := if mp <? 10 then mp + 3 else mp - 9 in
  (yoe, m, d).

Definition doe_of_civil (yoe m d : Z) : Z :=
  let mp := if 2 <? m then m - 3 else m + 9 in
  yoe * 365 + yoe / 4 - yoe / 100 + ((153 * mp + 2) / 5 + d - 1).

Definition era_day_ok (doe : Z) : bool :=
  match civil_of_doe doe with
  | (yoe, m, d) =>
      (0 <=? yoe) && (yoe <=? 399) && (1 <=? m) && (m <=? 12)
      && (1 <=? d) && (d <=? 31) && (doe_of_civil yoe m d =? doe)
  end.

End Check.

(** The data that the properties of [getStockActions] and of
    [getRecommendations] are stated on: the events and the entries as the
    response holds them, their dates as integers, and the records the
    output is to hold for them. *)
Module Expected.

Fixpoint power_of_two (p : positive) : bool :=
  match p with
  | xH => true
  | xO p' => power_of_two p'
  | xI _ => false
  end.

(** A rational that is a binary64 number of the language: [m / 2 ^ e] in
    lowest terms with [|m| < 2 ^ 53] and [e <= 1074].  On operands and a
    result of this kind the arithmetic of [Num] is that of the language. *)
Definition binary64 (q : Q) : bool :=
  let r := Qred q in
  (Z.abs (Qnum r) <? 2 ^ 53) && power_of_two (Qden r)
  && (Zpos (Qden r) <=? 2 ^ 1074).

(** A dividend or a split of the response: its date in seconds, and the
    amount, or the two terms of the ratio. *)
Inductive Action : Type :=
| Dividend (date : Z) (amount : value)
| Split (date numerator denominator : Z).

Definition date_of (a : Action) : Z :=
  match a with
  | Dividend date _ => date
  | Split date _ _ => date
  end.

(** An action whose date [Date] can hold. *)
Definition in_range (a : Action) : Prop :=
  Z.abs (date_of a * 1000) <= Date.maxTime.

(** The event [ev] of [events.dividends] is the dividend [a]: a [date] of
    integer seconds that [Date] can hold, and the [amount]. *)
Definition dividend_event (a : Action) (ev : value) : Prop :=
  match a with
  | Dividend date amount =>
      Js.nullish ev = false
      /\ Js.own_prop ev "date" = VNum (Num.of_Z date)
      /\ Z.abs (date * 1000) <= Date.maxTime
      /\ Js.own_prop ev "amount" = amount
  | Split _ _ _ => False
  end.

(** The event [ev] of [events.splits] is the split [a]: a [date] of
    integer seconds that [Date] can hold, an integer [numerator] and a
    positive integer [denominator] whose quotient is a binary64 number. *)
Definition split_event (a : Action) (ev : value) : Prop :=
  match a with
  | Dividend _ _ => False
  | Split date n d =>
      Js.nullish ev = false
      /\ Js.own_prop ev "date" = VNum (Num.of_Z date)
      /\ Z.abs (date * 1000) <= Date.maxTime
      /\ Js.own_prop ev "numerator" = VNum (Num.of_Z n)
      /\ Js.own_prop ev "denominator" = VNum (Num.of_Z d)
      /\ Z.abs n < 2 ^ 53 /\ 0 < d < 2 ^ 53
      /\ binary64 (inject_Z n / inject_Z d) = true
  end.

(** [result.events.dividends] or [result.events.splits], an empty object
    when [events] or the member is missing. *)
Definition events_of (result : value) (kind : string) : value :=
  Js.or (Js.own_prop (Js.or (Js.own_prop result "events") (VObj [])) kind)
        (VObj []).

(** [{ Date, Dividends, "Stock Splits" }] for the time value [t]. *)
Definition action (t : Z) (dividends splits : value) : value :=
  VObj [("Date", VStr (Date.iso_of_time t)); ("Dividends", dividends);
        ("Stock Splits", splits)].

(** The record of an action: a dividend has its amount and no split, a
    split no dividend and the ratio of its terms. *)
Definition record (a : Action) : value :=
  match a with
  | Dividend date amount => action (date * 1000) amount (VNum (Fin 0))
  | Split date n d =>
      action (date * 1000) (VNum (Fin 0))
             (VNum (Fin (Qred (inject_Z n / inject_Z d))))
  end.

(** The order of the output: a comparator on the dates. *)
Definition ascending (a b : Action) : number :=
  Num.of_Z (date_of a - date_of b).

(** A value that is an integer number. *)
Definition integer (v : value) : option Z :=
  match v with
  | VNum (Fin q) => if (Qden q =? 1)%positive then Some (Qnum q) else None
  | _ => None
  end.

(** The [epochGradeDate] of a history entry in seconds, 0 when it is
    not an integer number. *)
Definition epoch (item : value) : Z :=
  match integer (Js.own_prop item "epochGradeDate") with
  | Some z => z
  | None => 0
  end.






(** An entry with its [gradeDate]: the ISO date of its epoch. *)
Definition graded (item : value) : value :=
  VObj (Js.define "gradeDate" (VStr (Date.iso_of_time (epoch item * 1000)))
                  (Js.own_entries item)).

End Expected.

(* ================================================================== *)
(** ** Scripted environments, for running the clients on examples *)

Module Scenario.

Definition plain_runtime : Runtime :=
  {| StringToNumber := fun _ => NaN;
     NumberToString := fun _ => "?";
     DateParseLegacy := fun _ => None |}.

Definition text_response (code : Z) (cookieHeader : option string)
           (body : string) : Response :=
  {| status := code; statusText := EmptyString; set_cookie := cookieHeader;
     body_text := body;
     body_json := Throw (Js.SyntaxError "Unexpected token") |}.

Definition json_response (data : value) : Response :=
  {| status := 200; statusText := "OK"; set_cookie := None;
     body_text := EmptyString; body_json := Ok data |}.

(** A network that answers the two cookie pages with [cookiePage], the
    crumb endpoints with [crumbPage] and every other request with
    [dataPage]. *)
Definition scripted_net (cookiePage crumbPage dataPage : Response)
  : list Event -> Request -> FetchOutcome :=
  fun _ r =>
    if String.eqb (req_url r) "https://fc.yahoo.com"
       || String.eqb (req_url r) "https://finance.yahoo.com"
    then Responded cookiePage
    else if Str.includes "/v1/test/getcrumb" (req_url r)
         then Responded crumbPage
         else Responded dataPage.

Definition scripted (cookiePage crumbPage dataPage : Response) (now : Z) : Env :=
  {| runtime := plain_runtime;
     net := scripted_net cookiePage crumbPage dataPage;
     clock := fun _ => now |}.

(** Cookie page of the URL example of the specification. *)
Definition two_cookies : Response :=
  text_response 200 (Some "a=1; Path=/, b=2; Secure") EmptyString.

Definition no_cookie : Response := text_response 200 None EmptyString.

Definition not_found : Response := text_response 404 None "Not Found".

Definition num (z : Z) : value := VNum (Num.of_Z z).

(** The chart body of the merge-and-sort example: one dividend
    [{date: 100, amount: 0.5}] and one split
    [{date: 50, numerator: 2, denominator: 1}]. *)
Definition dividend_100 : value :=
  VObj [("date", num 100); ("amount", VNum (Fin (1 # 2)))].

Definition split_50 : value :=
  VObj [("date", num 50); ("numerator", num 2); ("denominator", num 1)].

Definition chart_events : list (string * value) :=
  [("dividends", VObj [("100", dividend_100)]);
   ("splits", VObj [("50", split_50)])].

Definition chart_result : value := VObj [("events", VObj chart_events)].

Definition chart_body : value :=
  VObj [("chart", VObj [("result", VArr [chart_result]); ("error", VNull)])].

(** The history of the dedup example: firm [A] at 200 and 300, firm [B]
    at 100. *)
Definition grade (firm : string) (epoch : Z) : value :=
  VObj [("firm", VStr firm); ("epochGradeDate", num epoch);
        ("toGrade", VStr "Buy")].

Definition history_of (entries : list value) : value :=
  VObj [("upgradeDowngradeHistory", VObj [("history", VArr entries)])].

Definition summary_body (result : value) : value :=
  VObj [("quoteSummary", VObj [("result", VArr [result]); ("error", VNull)])].

(** A network on which the handshake succeeds with cookie ["a=1; b=2"] and
    crumb ["AbCdEf123"], and the data request is answered by [dataPage]. *)
Definition serving (dataPage : Response) (now : Z) : Env :=
  scripted two_cookies (text_response 200 None "AbCdEf123") dataPage now.

End Scenario.

(* ================================================================== *)
(** ** Definitions used to state the properties of the requests *)

(** Every character of [s] passes [p]. *)
Fixpoint all_chars (p : ascii -> bool) (s : string) : bool :=
  match s with
  | EmptyString => true
  | String c s' => p c && all_chars p s'
  end.

(** The characters [encodeURIComponent] can write: the unreserved ones and
    the percent sign of an escape. *)
Definition uri_safe (c : ascii) : bool := Uri.unreserved c || Ascii.eqb c "%".

(** A URL of one of the four origins the clients talk to. *)
Definition yahoo_origin (url : string) : bool :=
  String.eqb url "https://fc.yahoo.com"
  || String.eqb url "https://finance.yahoo.com"
  || String.prefix (BASE_URL ++ "/") url
  || String.prefix (BASE_URL_V2 ++ "/") url.

(** The test a crumb passes in [getCrumb]:
    [!(!crumb || crumb.includes("<") || crumb.includes("error"))]. *)
Definition accepted_crumb (s : string) : bool :=
  negb (negb (Str.nonempty s) || Str.includes "<" s || Str.includes "error" s).

(** The crumb held by the cache, if any, passed the test of [getCrumb]. *)
Definition cache_accepted (w : World) : Prop :=
  forall cr, cachedCrumb w = Some cr -> accepted_crumb cr = true.

(** The requests a handshake of [getCrumb] can have sent, most recent
    first. *)
Definition crumb_handshake (rs : list Request) : Prop :=
  rs = [] \/ rs = [Api.fc_request]
  \/ rs = [Api.finance_request; Api.fc_request]
  \/ exists cookies,
       Str.nonempty cookies = true
       /\ (rs = [Api.crumb_request cookies; Api.fc_request]
           \/ rs = [Api.crumb_request cookies; Api.finance_request;
                    Api.fc_request]).

(** The requests a handshake of [getCookieAndCrumb] can have sent, most
    recent first. *)
Definition cookie_crumb_handshake (rs : list Request) : Prop :=
  rs = [] \/ rs = [Api2.home_request]
  \/ exists cookies,
       Str.nonempty cookies = true
       /\ rs = [Api2.crumb_request cookies; Api2.home_request].

Definition handshake_requests (c : Client) : list Request -> Prop :=
  match c with
  | CrumbClient => crumb_handshake
  | CookieCrumbClient => cookie_crumb_handshake
  end.

(** The crumb request of a client. *)
Definition crumb_request_of (c : Client) : string -> Request :=
  match c with
  | CrumbClient => Api.crumb_request
  | CookieCrumbClient => Api2.crumb_request
  end.


(** White space only. *)
Definition blank (s : string) : bool := all_chars Str.is_space s.

(** The text of a [Set-Cookie] header, empty when there is none. *)
Definition header_text (header : option string) : string :=
  match header with
  | Some setCookie => setCookie
  | None => EmptyString
  end.

(** A [Set-Cookie] header that yields no cookie: there is no header, or
    none of its comma-separated parts starts with a [name=value] pair, the
    text before the first semicolon of the part being blank. *)
Definition no_cookie (header : option string) : bool :=
  forallb (fun part => blank (hd EmptyString (Str.split ";" part)))
          (Str.split "," (header_text header)).

(** Tool calls served one after the other by the same module instance. *)
Fixpoint session (c : Client) (calls : list ToolCall) : M (list Payload) :=
  match calls with
  | [] => ret []
  | t :: rest =>
      p <- call_tool c t;;
      ps <- session c rest;;
      ret (p :: ps)
  end.

(** The request [fetch(url, { headers: HEADERS })] of a call that does not
    ask for the crumb. *)
Definition plain_request (url : string) : Request :=
  {| req_url := url; req_headers := HEADERS; req_redirect := RedirectFollow |}.

(** The cookie pairs [getCrumb] keeps of the value of a [Set-Cookie]
    header: [setCookie.split(",").map(c => c.split(";")[0].trim())
    .filter(Boolean)], which [cookies_of] joins. *)
Definition cookie_pairs (setCookie : string) : list string :=
  filter Str.nonempty
    (map (fun c => Str.trim (hd EmptyString (Str.split ";" c)))
         (Str.split "," setCookie)).

(** [c] is none of the characters of [stops]. *)
Definition none_of (stops : list ascii) (c : ascii) : bool :=
  negb (existsb (Ascii.eqb c) stops).

(** A cookie pair as a [Cookie] header lists it: not empty, no comma and
    no semicolon in it, no white space around it. *)
Definition cookie_pair (p : string) : bool :=
  Str.nonempty p && all_chars (none_of [","; ";"]%char) p
  && String.eqb (Str.trim p) p.

(** The value of a hexadecimal digit as [encodeURIComponent] writes it. *)
Definition hex_value (c : ascii) : N :=
  let n := N_of_ascii c in
  if (n <? 58)%N then (n - 48)%N else (n - 55)%N.

(** A string that is empty or starts with a character that is not white
    space. *)
Definition starts_clean (s : string) : Prop :=
  match s with
  | EmptyString => True
  | String x _ => Str.is_space x = false
  end.

(** The ticker of a tool call. *)
Definition tool_ticker (t : ToolCall) : string :=
  match t with
  | get_historical_stock_prices ticker _ _ | get_stock_info ticker
  | get_yahoo_finance_news ticker | get_stock_actions ticker
  | get_financial_statement ticker _ | get_holder_info ticker _
  | get_option_expiration_dates ticker | get_option_chain ticker _ _
  | get_recommendations ticker _ _ => ticker
  end.

(** The text of the URL of a tool call that comes before the ticker. *)
Definition ticker_slot (t : ToolCall) : string :=
  match t with
  | get_historical_stock_prices _ _ _ | get_stock_actions _ =>
      BASE_URL ++ "/v8/finance/chart/"
  | get_yahoo_finance_news _ => BASE_URL ++ "/v1/finance/search?q="
  | get_option_expiration_dates _ | get_option_chain _ _ _ =>
      BASE_URL ++ "/v7/finance/options/"
  | _ => BASE_URL_V2 ++ "/v10/finance/quoteSummary/"
  end.

(** The characters that delimit the parts of a URL, and the space. *)
Definition url_delimiters : list ascii :=
  ["/"; "?"; "#"; "&"; "="; "+"; ":"; ";"; ","; "@"; " "]%char.

(* ================================================================== *)
(** ** Definitions used to state the properties of the shaped data *)


(** The keys of a record of the price history, in order. *)
Definition price_keys : list string :=
  ["Date"; "Open"; "High"; "Low"; "Close"; "Volume"; "Adj Close"].

(** [result.indicators?.adjclose?.[0]?.adjclose] *)
Definition adjclose_series (result : value) : value :=
  Js.opt_get (Js.opt_get (Js.opt_get (Js.own_prop result "indicators") "adjclose")
                         "0") "adjclose".

(** The member of a statements section that lists the statements. *)
Definition statement_list (t : FinancialType) : string :=
  match t with
  | income_stmt | quarterly_income_stmt => "incomeStatementHistory"
  | balance_sheet | quarterly_balance_sheet => "balanceSheetStatements"
  | cashflow | quarterly_cashflow => "cashflowStatements"
  end.

(** What [getHolderInfo] reads in the section of a holder type: the
    section itself, or the member that lists the holders. *)
Definition holder_list (t : HolderType) : option string :=
  match t with
  | major_holders | insider_purchases => None
  | institutional_holders | mutualfund_holders => Some "ownershipList"
  | insider_transactions => Some "transactions"
  | insider_roster_holders => Some "holders"
  end.

(** A field of a statement with its wrapper taken off: the [raw] member of
    an object that has one. *)
Definition unwrapped (kv : string * value) : string * value :=
  (fst kv,
   if Wf.object_with "raw" (snd kv) then Js.own_prop (snd kv) "raw" else snd kv).

(** A field that flattening renames: [endDate] holding an object with
    [fmt] and without [raw]. *)
Definition renamed (kv : string * value) : bool :=
  String.eqb (fst kv) "endDate" && Wf.object_with "fmt" (snd kv)
  && negb (Wf.object_with "raw" (snd kv)).

(** No object inside [v], at any depth, has the key ["raw"]. *)
Fixpoint raw_free (v : value) : bool :=
  match v with
  | VArr items => forallb raw_free items
  | VObj fields =>
      negb (Js.has_key "raw" fields)
      && forallb (fun kv => match kv with (_, x) => raw_free x end) fields
  | _ => true
  end.

(** Every object inside [v], at any depth, lists each key once and in the
    order in which the language enumerates own keys, as the objects of a
    parsed body do. *)
Fixpoint ordered (v : value) : bool :=
  match v with
  | VArr items => forallb ordered items
  | VObj fields =>
      Wf.object fields
      && forallb (fun kv => match kv with (_, x) => ordered x end) fields
  | _ => true
  end.

(** No object inside [v], at any depth, has a field named
    ["__proto__"]. *)
Fixpoint proto_free (v : value) : bool :=
  match v with
  | VArr items => forallb proto_free items
  | VObj fields =>
      Wf.plain_keys fields
      && forallb (fun kv => match kv with (_, x) => proto_free x end) fields
  | _ => true
  end.

(** Neither an array nor an object. *)
Definition primitive (v : value) : bool :=
  match v with
  | VArr _ | VObj _ => false
  | _ => true
  end.

(** Every object inside [v] that has the key ["raw"] holds a primitive
    value under it, as the [{ raw, fmt }] wrappers of the API do. *)
Fixpoint raw_leaves (v : value) : bool :=
  match v with
  | VArr items => forallb raw_leaves items
  | VObj fields =>
      match Js.lookup "raw" fields with
      | Some r => primitive r
      | None => forallb (fun kv => match kv with (_, x) => raw_leaves x end) fields
      end
  | _ => true
  end.

(** The loop [for (const [k, v] of Object.entries(o)) newObj[k] = f(v)]. *)
Definition rebuild (f : value -> value) (fields acc : list (string * value))
  : list (string * value) :=
  fold_left (fun newObj kv => match kv with (k, v) => Js.set k (f v) newObj end)
            fields acc.

(** A value as [extractRaw] leaves it: objects in order, no [raw] member
    and no field named ["__proto__"]. *)
Definition clean (v : value) : Prop :=
  ordered v = true /\ raw_free v = true /\ proto_free v = true.

(* ================================================================== *)
(** ** The registration of the tools and the listing of the server *)

(** The tool table of the MCP agent: the constants of its schemas and, for
    each call of [this.server.tool], the name and the shape of the
    parameters. *)
Module Mcp.

Definition PERIODS : list string :=
  ["1d"; "5d"; "1mo"; "3mo"; "6mo"; "1y"; "2y"; "5y"; "10y"; "ytd"; "max"].

Definition INTERVALS : list string :=
  ["1m"; "2m"; "5m"; "15m"; "30m"; "60m"; "90m"; "1h"; "1d"; "5d"; "1wk";
   "1mo"; "3mo"].

Definition FINANCIAL_TYPES : list string :=
  ["income_stmt"; "quarterly_income_stmt"; "balance_sheet";
   "quarterly_balance_sheet"; "cashflow"; "quarterly_cashflow"].

Definition HOLDER_TYPES : list string :=
  ["major_holders"; "institutional_holders"; "mutualfund_holders";
   "insider_transactions"; "insider_purchases"; "insider_roster_holders"].

Definition RECOMMENDATION_TYPES : list string :=
  ["recommendations"; "upgrades_downgrades"].

(** [z.string()], [z.enum(values)] with or without [.default(d)], and
    [z.number().default(d)]. *)
Inductive Schema : Type :=
| z_string
| z_enum (values : list string) (default : option string)
| z_number (default : option Z).

Definition tools : list (string * list (string * Schema)) :=
  [("get_historical_stock_prices",
    [("ticker", z_string); ("period", z_enum PERIODS (Some "1mo"));
     ("interval", z_enum INTERVALS (Some "1d"))]);
   ("get_stock_info", [("ticker", z_string)]);
   ("get_yahoo_finance_news", [("ticker", z_string)]);
   ("get_stock_actions", [("ticker", z_string)]);
   ("get_financial_statement",
    [("ticker", z_string); ("financial_type", z_enum FINANCIAL_TYPES None)]);
   ("get_holder_info",
    [("ticker", z_string); ("holder_type", z_enum HOLDER_TYPES None)]);
   ("get_option_expiration_dates", [("ticker", z_string)]);
   ("get_option_chain",
    [("ticker", z_string); ("expiration_date", z_string);
     ("option_type", z_enum ["calls"; "puts"] None)]);
   ("get_recommendations",
    [("ticker", z_string);
     ("recommendation_type", z_enum RECOMMENDATION_TYPES None);
     ("months_back", z_number (Some 12))])].

End Mcp.

(** The [tools] member of the JSON that [src/server.ts] answers on [/] and
    [/health]: for each tool its name and its [params]. *)
Module Server.

Definition tools : list (string * list (string * string)) :=
  [("get_historical_stock_prices",
    [("ticker", "string");
     ("period", "1d|5d|1mo|3mo|6mo|1y|2y|5y|10y|ytd|max");
     ("interval", "1m|2m|5m|15m|30m|60m|90m|1h|1d|5d|1wk|1mo|3mo")]);
   ("get_stock_info", [("ticker", "string")]);
   ("get_yahoo_finance_news", [("ticker", "string")]);
   ("get_stock_actions", [("ticker", "string")]);
   ("get_financial_statement",
    [("ticker", "string");
     ("financial_type",
      "income_stmt|quarterly_income_stmt|balance_sheet|quarterly_balance_sheet|cashflow|quarterly_cashflow")]);
   ("get_holder_info",
    [("ticker", "string");
     ("holder_type",
      "major_holders|institutional_holders|mutualfund_holders|insider_transactions|insider_purchases|insider_roster_holders")]);
   ("get_option_expiration_dates", [("ticker", "string")]);
   ("get_option_chain",
    [("ticker", "string"); ("expiration_date", "YYYY-MM-DD");
     ("option_type", "calls|puts")]);
   ("get_recommendations",
    [("ticker", "string");
     ("recommendation_type", "recommendations|upgrades_downgrades");
     ("months_back", "number")])].

End Server.

(** The text by which the listing describes a parameter of a schema: the
    values of an enumeration separated by ["|"], ["number"] for a number,
    any hint for a string. *)
Definition advertises (text : string) (schema : Mcp.Schema) : bool :=
  match schema with
  | Mcp.z_string => true
  | Mcp.z_enum values _ => String.eqb text (Str.join "|" values)
  | Mcp.z_number _ => String.eqb text "number"
  end.

(** The default of an enumeration is one of its values. *)
Definition default_allowed (schema : Mcp.Schema) : bool :=
  match schema with
  | Mcp.z_enum values (Some d) => existsb (String.eqb d) values
  | _ => true
  end.

(** The name under which a tool call is registered. *)
Definition tool_name (t : ToolCall) : string :=
  match t with
  | get_historical_stock_prices _ _ _ => "get_historical_stock_prices"
  | get_stock_info _ => "get_stock_info"
  | get_yahoo_finance_news _ => "get_yahoo_finance_news"
  | get_stock_actions _ => "get_stock_actions"
  | get_financial_statement _ _ => "get_financial_statement"
  | get_holder_info _ _ => "get_holder_info"
  | get_option_expiration_dates _ => "get_option_expiration_dates"
  | get_option_chain _ _ _ => "get_option_chain"
  | get_recommendations _ _ _ => "get_recommendations"
  end.


(* ================================================================== *)
(** * Properties of the credential cache *)

Section CredentialCache.

Lemma cached_sound (w : World) (now : Z) (auth : Credentials) :
  cached w now = Some auth ->
  cachedCrumb w = Some (crumb auth) /\ cachedCookie w = Some (cookie auth)
  /\ Str.nonempty (crumb auth) = true /\ Str.nonempty (cookie auth) = true
  /\ now < cacheExpiry w.
Proof.
  unfold cached.
  destruct (cachedCrumb w) as [cr|]; [|discriminate].
  destruct (cachedCookie w) as [ck|]; [|discriminate].
  destruct (Str.nonempty cr) eqn:Hcr; [|discriminate].
  destruct (Str.nonempty ck) eqn:Hck; [|discriminate].
  destruct (now <? cacheExpiry w) eqn:Hlt; [|discriminate].
  simpl. intros [= <-]. simpl. apply Z.ltb_lt in Hlt. auto.
Qed.

Lemma cached_complete (w : World) (now : Z) (auth : Credentials) :
  cachedCrumb w = Some (crumb auth) -> cachedCookie w = Some (cookie auth) ->
  Str.nonempty (crumb auth) = true -> Str.nonempty (cookie auth) = true ->
  now < cacheExpiry w ->
  cached w now = Some auth.
Proof.
  intros Hcr Hck Hn1 Hn2 Hlt. unfold cached.
  rewrite Hcr, Hck, Hn1, Hn2. apply Z.ltb_lt in Hlt. rewrite Hlt.
  destruct auth; reflexivity.
Qed.

Lemma cached_record_event (e : Event) (w : World) (now : Z) :
  cached (record_event e w) now = cached w now.
Proof. reflexivity. Qed.

End CredentialCache.

(** Unfolding of the computation monad, one scrutinee at a time. *)
Ltac unfold_m :=
  unfold bind, ret, throw, try_catch, lift, Date_now, read_world, read_runtime,
    fetch, console_log, store_credentials in *.

Ltac case_step H :=
  match type of H with
  | context [match net ?env ?ev ?r with _ => _ end] =>
      let o := fresh "o" in
      destruct (net env ev r) as [?resp|?err] eqn:?Hnet; simpl in H
  | context [match cached ?w ?n with _ => _ end] =>
      destruct (cached w n) eqn:?Hcached; simpl in H
  | context [if ?b then _ else _] =>
      destruct b eqn:?Hb; simpl in H
  | context [let (_, _) := ?m in _] =>
      destruct m as [[?a|?e] ?w] eqn:?Hrun; simpl in H
  end.

Section Acquisition.

Variables (env : Env) (w : World).

(** The clock value a call started in [w] reads. *)
Let now : Z := clock env (events w).

Lemma obtain_crumb_success (n : Z) (cookies : string) (w0 w1 : World)
      (auth : Credentials) :
  Str.nonempty cookies = true ->
  Api.obtain_crumb n cookies env w0 = (Ok (Some auth), w1) ->
  cached w1 n = Some auth /\ cacheExpiry w1 = n + 30 * 60 * 1000.
Proof.
  intros Hck H. unfold Api.obtain_crumb in H. unfold_m. simpl in H.
  repeat case_step H; try discriminate.
  injection H as <- <-. split; [|reflexivity].
  apply cached_complete; simpl; auto; try lia.
  apply orb_false_iff in Hb0 as [Hb0 _].
  apply orb_false_iff in Hb0 as [Hb0 _].
  now apply negb_false_iff in Hb0.
Qed.

Lemma getCrumb_success (auth : Credentials) (w1 : World) :
  Api.getCrumb env w = (Ok (Some auth), w1) ->
  cached w1 now = Some auth
  /\ (cached w now = None -> cacheExpiry w1 = now + 30 * 60 * 1000).
Proof.
  intros H. unfold Api.getCrumb in H. unfold_m. simpl in H.
  rewrite cached_record_event in H.
  case_step H.
  - injection H as <- <-. split; [exact Hcached|]. subst now. intros Hnone. rewrite Hnone in Hcached. discriminate.
  - cut (cached w1 now = Some auth /\ cacheExpiry w1 = now + 30 * 60 * 1000);
      [tauto|].
    unfold Api.handshake, Api.obtain_cookies in H. unfold_m. simpl in H.
    repeat (case_step H; try discriminate);
      injection H as ? ?; subst;
      eapply obtain_crumb_success; try eassumption;
      now apply negb_false_iff.
Qed.

Lemma getCookieAndCrumb_success (auth : Credentials) (w1 : World) :
  Api2.getCookieAndCrumb env w = (Ok auth, w1) ->
  cached w1 now = Some auth
  /\ (cached w now = None -> cacheExpiry w1 = now + 30 * 60 * 1000).
Proof.
  intros H. unfold Api2.getCookieAndCrumb, Api2.handshake in H.
  unfold_m. simpl in H. rewrite cached_record_event in H.
  repeat (case_step H; try discriminate).
  - injection H as <- <-. split; [exact Hcached|]. subst now. intros Hnone. rewrite Hnone in Hcached. discriminate.
  - injection H as <- <-. split; [|reflexivity].
    apply cached_complete; simpl; auto; try lia.
    + apply orb_false_iff in Hb0 as [Hb0 _]. now apply negb_false_iff in Hb0.
    + now apply negb_false_iff in Hb.
Qed.

(** A call made while the cache is fresh: the clock is read, nothing is
    sent, the variables keep their values. *)
Lemma getCrumb_hit (auth : Credentials) :
  cached w now = Some auth ->
  Api.getCrumb env w = (Ok (Some auth), record_event EvNow w).
Proof.
  intros H. unfold Api.getCrumb. unfold_m. simpl.
  rewrite cached_record_event. fold now. now rewrite H.
Qed.

Lemma getCookieAndCrumb_hit (auth : Credentials) :
  cached w now = Some auth ->
  Api2.getCookieAndCrumb env w = (Ok auth, record_event EvNow w).
Proof.
  intros H. unfold Api2.getCookieAndCrumb. unfold_m. simpl.
  rewrite cached_record_event. fold now. now rewrite H.
Qed.

End Acquisition.

Section Acquire.

Variables (c : Client) (env : Env) (w : World).

Lemma acquire_CookieCrumb (r : option Credentials) (w1 : World) :
  acquire CookieCrumbClient env w = (Ok r, w1) ->
  exists auth, r = Some auth /\ Api2.getCookieAndCrumb env w = (Ok auth, w1).
Proof.
  simpl. unfold bind, ret.
  destruct (Api2.getCookieAndCrumb env w) as [[a|e] w'] eqn:H; [|discriminate].
  intros [= <- <-]. now exists a.
Qed.

Lemma acquire_success (auth : Credentials) (w1 : World) :
  acquire c env w = (Ok (Some auth), w1) ->
  cached w1 (clock env (events w)) = Some auth
  /\ (cached w (clock env (events w)) = None ->
      cacheExpiry w1 = clock env (events w) + 30 * 60 * 1000).
Proof.
  destruct c.
  - apply getCrumb_success.
  - intros H. apply acquire_CookieCrumb in H as (a & [= <-] & H).
    now apply getCookieAndCrumb_success.
Qed.

Lemma acquire_hit (auth : Credentials) :
  cached w (clock env (events w)) = Some auth ->
  acquire c env w = (Ok (Some auth), record_event EvNow w).
Proof.
  intros H. destruct c; simpl.
  - now apply getCrumb_hit.
  - unfold bind, ret. now rewrite (getCookieAndCrumb_hit env w auth H).
Qed.

End Acquire.

(** A pair obtained by a handshake is served from the cache for the next 30
    minutes. *)
Lemma fresh_for_30_minutes (c : Client) (env env' : Env) (w w1 : World)
      (auth : Credentials) :
  acquire c env w = (Ok (Some auth), w1) ->
  cached w (clock env (events w)) = None ->
  clock env' (events w1) < clock env (events w) + 30 * 60 * 1000 ->
  acquire c env' w1 = (Ok (Some auth), record_event EvNow w1).
Proof.
  intros Hfirst Hmiss Hnow.
  apply acquire_success in Hfirst as [Hfirst Hexp].
  apply cached_sound in Hfirst. destruct Hfirst as (Hcr & Hck & Hn1 & Hn2 & _).
  apply acquire_hit, cached_complete; auto.
  rewrite (Hexp Hmiss). exact Hnow.
Qed.

(** C1. Cache freshness: a call of the credential routine made after a call
    that returned a pair, while the clock is strictly before the cached
    expiry, sends no request (the only event is the clock reading), leaves
    [cachedCrumb], [cachedCookie] and [cacheExpiry] as they are, and returns
    the pair the first call returned. *)
Theorem cache_freshness (c : Client) (env env' : Env) (w w1 : World)
        (auth : Credentials) :
  acquire c env w = (Ok (Some auth), w1) ->
  clock env' (events w1) < cacheExpiry w1 ->
  acquire c env' w1 = (Ok (Some auth), record_event EvNow w1)
  /\ requests (record_event EvNow w1) = requests w1
  /\ cache_of (record_event EvNow w1) = cache_of w1.
Proof.
  intros Hfirst Hnow.
  apply acquire_success in Hfirst as [Hfirst _].
  apply cached_sound in Hfirst.
  destruct Hfirst as (Hcr & Hck & Hn1 & Hn2 & _).
  split; [|split; reflexivity].
  apply acquire_hit. now apply cached_complete.
Qed.

Lemma cache_freshness_witness :
  let env := Scenario.scripted Scenario.two_cookies
               (Scenario.text_response 200 None "AbCdEf123")
               Scenario.not_found 1000 in
  let env' := Scenario.scripted Scenario.no_cookie Scenario.not_found
                Scenario.not_found 1800999 in
  let auth := {| crumb := "AbCdEf123"; cookie := "a=1; b=2" |} in
  let w1 := snd (acquire CrumbClient env initial_world) in
  acquire CrumbClient env' w1 = (Ok (Some auth), record_event EvNow w1)
  /\ requests (record_event EvNow w1) = requests w1
  /\ cache_of (record_event EvNow w1) = cache_of w1.
Proof.
  intros env env' auth w1.
  apply (cache_freshness CrumbClient env env' initial_world w1 auth);
    vm_compute; reflexivity.
Defined.

(** C5, as amended. Never expired, by the clock value the call read:
    whenever the credential routine returns a pair, the expiry held by the
    cache is strictly after the clock value the call read when it started.
    On the cache-hit path the call does nothing else than read the clock;
    after a handshake the expiry is that clock value plus 30 minutes,
    whatever the time the handshake took. *)
Theorem never_expired (c : Client) (env : Env) (w w1 : World)
        (auth : Credentials) :
  acquire c env w = (Ok (Some auth), w1) ->
  clock env (events w) < cacheExpiry w1
  /\ (cached w (clock env (events w)) <> None -> w1 = record_event EvNow w)
  /\ (cached w (clock env (events w)) = None ->
      cacheExpiry w1 = clock env (events w) + 30 * 60 * 1000).
Proof.
  intros H. pose proof H as Hrun.
  apply acquire_success in H as [H Hfresh].
  apply cached_sound in H. split; [tauto|]. split; [|exact Hfresh].
  intros Hhit.
  destruct (cached w (clock env (events w))) as [a|] eqn:Hc; [|contradiction].
  rewrite (acquire_hit c env w a Hc) in Hrun. now injection Hrun as _ <-.
Qed.

Lemma never_expired_witness :
  let env := Scenario.scripted Scenario.two_cookies
               (Scenario.text_response 200 None "AbCdEf123")
               Scenario.not_found 1000 in
  let w1 := snd (acquire CookieCrumbClient env initial_world) in
  1000 < cacheExpiry w1
  /\ (cached initial_world 1000 <> None -> w1 = record_event EvNow initial_world)
  /\ (cached initial_world 1000 = None -> cacheExpiry w1 = 1000 + 30 * 60 * 1000).
Proof.
  intros env w1.
  apply (never_expired CookieCrumbClient env initial_world w1
           {| crumb := "AbCdEf123"; cookie := "a=1; b=2" |}).
  vm_compute; reflexivity.
Defined.

(** C4. Authenticated URL construction: when the credential routine
    succeeds with cookie [c] and crumb [r], [fetchYahoo(url, true)] sends
    one request, to [url + "&crumb=" + encodeURIComponent(r)] when [url]
    contains ["?"] and to [url + "?crumb=" + encodeURIComponent(r)]
    otherwise, with the fixed headers and [Cookie: c]. *)
Theorem authenticated_request (c : Client) (env : Env) (w w1 : World)
        (url : string) (auth : Credentials) :
  acquire c env w = (Ok (Some auth), w1) ->
  exists out,
    fetchYahoo c url true env w =
      (out,
       record_event
         (EvFetch
            {| req_url :=
                 if Str.includes "?" url
                 then url ++ "&crumb=" ++ Uri.encodeURIComponent (crumb auth)
                 else url ++ "?crumb=" ++ Uri.encodeURIComponent (crumb auth);
               req_headers := HEADERS ++ [("Cookie", cookie auth)];
               req_redirect := RedirectFollow |}) w1).
Proof.
  intros H.
  assert (Hurl : with_crumb url (crumb auth) =
                 if Str.includes "?" url
                 then url ++ "&crumb=" ++ Uri.encodeURIComponent (crumb auth)
                 else url ++ "?crumb=" ++ Uri.encodeURIComponent (crumb auth)).
  { unfold with_crumb. now destruct (Str.includes "?" url). }
  rewrite <- Hurl. clear Hurl.
  destruct c.
  - simpl in H. simpl. unfold Api.fetchYahoo, Api.outgoing. unfold_m.
    rewrite H. simpl.
    destruct (net env (events w1) _) as [resp|e]; [|eauto].
    destruct (ok resp); simpl; eauto.
  - apply acquire_CookieCrumb in H as (a & [= <-] & H).
    simpl. unfold Api2.fetchYahoo, Api2.outgoing. unfold_m. rewrite H. simpl.
    destruct (net env (events w1) _) as [resp|e]; [|eauto].
    destruct (ok resp); simpl; eauto.
Qed.

Lemma authenticated_request_witness :
  let env := Scenario.scripted Scenario.two_cookies
               (Scenario.text_response 200 None "c&d")
               Scenario.not_found 1000 in
  let w1 := snd (acquire CrumbClient env initial_world) in
  exists out,
    fetchYahoo CrumbClient "https://x/y" true env initial_world =
      (out,
       record_event
         (EvFetch {| req_url := "https://x/y?crumb=c%26d";
                     req_headers := HEADERS ++ [("Cookie", "a=1; b=2")];
                     req_redirect := RedirectFollow |}) w1).
Proof.
  intros env w1.
  apply (authenticated_request CrumbClient env initial_world w1 "https://x/y"
           {| crumb := "c&d"; cookie := "a=1; b=2" |}).
  vm_compute; reflexivity.
Defined.

(** The URL example of the specification on a URL that has a query. *)
Example request_with_query_example :
  let env := Scenario.scripted Scenario.two_cookies
               (Scenario.text_response 200 None "c&d")
               Scenario.not_found 1000 in
  hd_error (requests (snd (fetchYahoo CookieCrumbClient "https://x/y?z=1" true
                             env initial_world)))
  = Some {| req_url := "https://x/y?z=1&crumb=c%26d";
            req_headers := HEADERS ++ [("Cookie", "a=1; b=2")];
            req_redirect := RedirectFollow |}.
Proof. vm_compute. reflexivity. Qed.

(* ================================================================== *)
(** * Failure of the handshake *)

Section Handshake.

Variables (env : Env) (w : World).

Let now : Z := clock env (events w).

Lemma obtain_cookies_cache (w0 w1 : World) (r : Result string) :
  Api.obtain_cookies env w0 = (r, w1) -> cache_of w1 = cache_of w0.
Proof.
  unfold Api.obtain_cookies. unfold_m. intros H.
  repeat (case_step H; try discriminate); injection H as ? ?; subst; reflexivity.
Qed.

Lemma getCrumb_miss :
  cached w now = None ->
  Api.getCrumb env w =
    try_catch (Api.handshake now)
      (fun error =>
         bind (console_log ("getCrumb error: " ++ Js.error_to_string error))
              (fun _ => ret None))
      env (record_event EvNow w).
Proof.
  intros H. unfold Api.getCrumb at 1. unfold bind at 1 2, Date_now, read_world.
  simpl. rewrite cached_record_event. fold now. now rewrite H.
Qed.

(** The crumb step of [getCrumb] on a rejected crumb response. *)
Lemma getCrumb_crumb_rejected (cookies : string) (wc : World) (resp : Response) :
  cached w now = None ->
  Api.obtain_cookies env (record_event EvNow w) = (Ok cookies, wc) ->
  Str.nonempty cookies = true ->
  net env (events wc) (Api.crumb_request cookies) = Responded resp ->
  ok resp = false \/ body_text resp = EmptyString
  \/ Str.includes "<" (body_text resp) = true
  \/ Str.includes "error" (body_text resp) = true ->
  exists w1, Api.getCrumb env w = (Ok None, w1) /\ cache_of w1 = cache_of w.
Proof.
  intros Hmiss Hck Hne Hnet Hbad.
  rewrite (getCrumb_miss Hmiss).
  pose proof (obtain_cookies_cache _ _ _ Hck) as Hcache.
  unfold try_catch, Api.handshake. unfold bind at 1. rewrite Hck, Hne. simpl.
  unfold Api.obtain_crumb. unfold_m. rewrite Hnet.
  destruct (ok resp) eqn:Hok; simpl.
  - assert (Hrej : negb (Str.nonempty (body_text resp))
                   || Str.includes "<" (body_text resp)
                   || Str.includes "error" (body_text resp) = true).
    { destruct Hbad as [Hbad|[Hbad|[Hbad|Hbad]]]; try discriminate;
        rewrite Hbad; simpl; rewrite ?orb_true_r; reflexivity. }
    rewrite Hrej. simpl. eexists; split; [reflexivity|exact Hcache].
  - eexists; split; [reflexivity|exact Hcache].
Qed.

(** The crumb step of [getCrumb] on an accepted crumb response: the body
    text is the crumb, returned and cached as it is. *)
Lemma getCrumb_crumb_accepted (cookies : string) (wc : World) (resp : Response) :
  cached w now = None ->
  Api.obtain_cookies env (record_event EvNow w) = (Ok cookies, wc) ->
  Str.nonempty cookies = true ->
  net env (events wc) (Api.crumb_request cookies) = Responded resp ->
  ok resp = true -> Str.nonempty (body_text resp) = true ->
  Str.includes "<" (body_text resp) = false ->
  Str.includes "error" (body_text resp) = false ->
  exists w1,
    Api.getCrumb env w =
      (Ok (Some {| crumb := body_text resp; cookie := cookies |}), w1)
    /\ cachedCrumb w1 = Some (body_text resp)
    /\ cachedCookie w1 = Some cookies.
Proof.
  intros Hmiss Hck Hne Hnet Hok Hbody Hlt Herr.
  rewrite (getCrumb_miss Hmiss).
  unfold try_catch, Api.handshake. unfold bind at 1. rewrite Hck, Hne. simpl.
  unfold Api.obtain_crumb. unfold_m. rewrite Hnet, Hok, Hbody, Hlt, Herr. simpl.
  eexists; repeat split; reflexivity.
Qed.

Lemma getCookieAndCrumb_miss :
  cached w now = None ->
  Api2.getCookieAndCrumb env w = Api2.handshake now env (record_event EvNow w).
Proof.
  intros H. unfold Api2.getCookieAndCrumb. unfold bind, Date_now, read_world.
  simpl. rewrite cached_record_event. fold now. now rewrite H.
Qed.


End Handshake.

(** The crumb step of [getCookieAndCrumb]: a body that is not empty and
    does not contain ["error"] is taken as the crumb, whatever the status of
    the response and whether or not the body contains ["<"]. *)
Lemma getCookieAndCrumb_crumb_accepted (env : Env) (w : World)
      (home resp : Response) :
  cached w (clock env (events w)) = None ->
  net env (EvNow :: events w) Api2.home_request = Responded home ->
  Str.nonempty (Api2.home_cookies home) = true ->
  net env (EvFetch Api2.home_request :: EvNow :: events w)
      (Api2.crumb_request (Api2.home_cookies home)) = Responded resp ->
  Str.nonempty (body_text resp) = true ->
  Str.includes "error" (body_text resp) = false ->
  exists w1,
    Api2.getCookieAndCrumb env w =
      (Ok {| crumb := body_text resp; cookie := Api2.home_cookies home |}, w1)
    /\ cachedCrumb w1 = Some (body_text resp).
Proof.
  intros Hmiss Hhome Hck Hnet Hbody Herr.
  rewrite (getCookieAndCrumb_miss _ _ Hmiss).
  unfold Api2.handshake, bind, fetch, store_credentials, ret.
  cbn [events record_event]. rewrite Hhome, Hck. cbn [negb events record_event].
  rewrite Hnet, Hbody, Herr. simpl. eexists. split; reflexivity.
Qed.

(** C2 on the second client. The crumb response with status 200 and body
    ["<html>Too Many Requests</html>"] contains ["<"], and the crumb
    response with status 500 and body ["upstream down"] is not successful;
    [getCookieAndCrumb] returns either body as the crumb and caches it,
    where [getCrumb] rejects both and caches nothing. *)
Theorem crumb_validation_second_client :
  let html := Scenario.text_response 200 None "<html>Too Many Requests</html>" in
  let down := Scenario.text_response 500 None "upstream down" in
  let env page := Scenario.scripted Scenario.two_cookies page
                    Scenario.not_found 1000 in
  let second page := Api2.getCookieAndCrumb (env page) initial_world in
  let first page := Api.getCrumb (env page) initial_world in
  fst (second html)
    = Ok {| crumb := "<html>Too Many Requests</html>"; cookie := "a=1; b=2" |}
  /\ cachedCrumb (snd (second html)) = Some "<html>Too Many Requests</html>"
  /\ fst (second down) = Ok {| crumb := "upstream down"; cookie := "a=1; b=2" |}
  /\ cachedCrumb (snd (second down)) = Some "upstream down"
  /\ fst (first html) = Ok None /\ cachedCrumb (snd (first html)) = None
  /\ fst (first down) = Ok None /\ cachedCrumb (snd (first down)) = None.
Proof. repeat split; vm_compute; reflexivity. Qed.

(* ================================================================== *)
(** * [Date]: what [toISOString] writes, [Date.parse] reads back *)

Module DateFacts.

Lemma digit_of_digit_char (d : Z) :
  0 <= d < 10 -> Js.digit_of (Date.digit_char d) = Some (Z.to_N d).
Proof.
  intros H.
  assert (Hd : d = 0 \/ d = 1 \/ d = 2 \/ d = 3 \/ d = 4 \/ d = 5 \/ d = 6
               \/ d = 7 \/ d = 8 \/ d = 9) by lia.
  repeat (destruct Hd as [->|Hd]; [reflexivity|]). subst. reflexivity.
Qed.

Lemma digit_char_not_sign (d : Z) :
  0 <= d < 10 ->
  Date.digit_char d <> "+"%char /\ Date.digit_char d <> "-"%char
  /\ Date.digit_char d <> "T"%char.
Proof.
  intros H.
  assert (Hd : d = 0 \/ d = 1 \/ d = 2 \/ d = 3 \/ d = 4 \/ d = 5 \/ d = 6
               \/ d = 7 \/ d = 8 \/ d = 9) by lia.
  repeat (destruct Hd as [->|Hd]; [repeat split; discriminate|]).
  subst. repeat split; discriminate.
Qed.

Lemma take_digits_pad (width : nat) (n acc : Z) (rest : string) :
  0 <= n ->
  Date.take_digits width acc (Date.pad width n ++ rest)
  = Some (acc * 10 ^ Z.of_nat width + n mod 10 ^ Z.of_nat width, rest).
Proof.
  intros Hn. revert acc. induction width as [|w IH]; intros acc.
  - simpl. rewrite Z.mod_1_r. f_equal. f_equal. lia.
  - cbn [Date.pad Date.take_digits append].
    set (d := (n / 10 ^ Z.of_nat w) mod 10).
    assert (Hd : 0 <= d < 10) by (apply Z.mod_pos_bound; lia).
    rewrite (digit_of_digit_char d Hd), IH. f_equal. f_equal.
    rewrite Z2N.id by lia.
    replace (Z.of_nat (S w)) with (Z.of_nat w + 1) by lia.
    rewrite Z.pow_add_r, Z.pow_1_r by lia.
    assert (Hp : 0 < 10 ^ Z.of_nat w) by (apply Z.pow_pos_nonneg; lia).
    rewrite (Z.rem_mul_r n (10 ^ Z.of_nat w) 10) by lia.
    subst d. ring.
Qed.

Lemma take_digits_pad_small (width : nat) (n : Z) (rest : string) :
  0 <= n < 10 ^ Z.of_nat width ->
  Date.take_digits width 0 (Date.pad width n ++ rest) = Some (n, rest).
Proof.
  intros H. rewrite take_digits_pad by lia. rewrite Z.mod_small by lia.
  reflexivity.
Qed.

Lemma all_from_spec (n : nat) (p : Z -> bool) :
  forall z0, Check.all_from n z0 p = true ->
  forall z, z0 <= z < z0 + Z.of_nat n -> p z = true.
Proof.
  induction n as [|n IH]; intros z0 H z Hz; [lia|].
  simpl in H. apply andb_true_iff in H as [H1 H2].
  destruct (Z.eq_dec z z0) as [->|Hne]; [exact H1|].
  apply (IH (z0 + 1)); [exact H2|lia].
Qed.

Lemma era_days_checked : Check.all_from (Z.to_nat 146097) 0 Check.era_day_ok = true.
Proof. vm_compute. reflexivity. Qed.

Lemma era_day (doe : Z) :
  0 <= doe < 146097 ->
  match Check.civil_of_doe doe with
  | (yoe, m, d) =>
      0 <= yoe <= 399 /\ 1 <= m <= 12 /\ 1 <= d <= 31
      /\ Check.doe_of_civil yoe m d = doe
  end.
Proof.
  intros H.
  assert (Hok : Check.era_day_ok doe = true).
  { apply (all_from_spec _ _ 0 era_days_checked). rewrite Z2Nat.id; lia. }
  unfold Check.era_day_ok in Hok. destruct (Check.civil_of_doe doe) as [[yoe m] d].
  repeat (apply andb_true_iff in Hok as [Hok ?]).
  repeat split; lia.
Qed.

Lemma civil_from_days_era (day : Z) :
  Date.civil_from_days day =
  let era := (day + 719468) / 146097 in
  match Check.civil_of_doe (day + 719468 - era * 146097) with
  | (yoe, m, d) =>
      (if m <=? 2 then yoe + era * 400 + 1 else yoe + era * 400, m, d)
  end.
Proof. reflexivity. Qed.

Lemma civil_roundtrip (day : Z) :
  match Date.civil_from_days day with
  | (y, m, d) =>
      Date.days_from_civil y m d = day /\ 1 <= m <= 12 /\ 1 <= d <= 31
      /\ (day + 719468) / 146097 * 400 <= y <= (day + 719468) / 146097 * 400 + 400
  end.
Proof.
  rewrite civil_from_days_era. cbv zeta.
  set (era := (day + 719468) / 146097).
  assert (Hdoe : 0 <= day + 719468 - era * 146097 < 146097).
  { subst era. pose proof (Z.div_mod (day + 719468) 146097).
    pose proof (Z.mod_pos_bound (day + 719468) 146097). lia. }
  pose proof (era_day _ Hdoe) as Hera.
  destruct (Check.civil_of_doe _) as [[yoe m] d].
  destruct Hera as (Hyoe & Hm & Hd & Hback).
  unfold Check.doe_of_civil in Hback. unfold Date.days_from_civil.
  assert (Hy : (yoe + era * 400) / 400 = era).
  { symmetry. apply (Z.div_unique _ _ _ yoe); lia. }
  destruct (m <=? 2) eqn:Hm2.
  - replace (yoe + era * 400 + 1 - 1) with (yoe + era * 400) by lia.
    rewrite Hy.
    replace (yoe + era * 400 - era * 400) with yoe by lia.
    repeat split; lia.
  - rewrite Hy.
    replace (yoe + era * 400 - era * 400) with yoe by lia.
    repeat split; lia.
Qed.

Lemma take_year_unsigned (c : ascii) (s : string) :
  c <> "+"%char -> c <> "-"%char ->
  Date.take_year (String c s) = Date.take_digits 4 0 (String c s).
Proof.
  intros Hp Hm.
  destruct c as [[] [] [] [] [] [] [] []]; try reflexivity; congruence.
Qed.

Lemma take_year_string (y : Z) (rest : string) :
  Z.abs y < 10 ^ 6 ->
  Date.take_year (Date.year_string y ++ rest) = Some (y, rest).
Proof.
  intros Hy. unfold Date.year_string.
  destruct ((0 <=? y) && (y <=? 9999)) eqn:Hsmall.
  - apply andb_true_iff in Hsmall as [H0 H1].
    pose proof (take_digits_pad_small 4 y rest) as Hpad.
    cbn [Date.pad append] in *.
    rewrite take_year_unsigned.
    + apply Hpad. simpl. lia.
    + apply digit_char_not_sign, Z.mod_pos_bound; lia.
    + apply digit_char_not_sign, Z.mod_pos_bound; lia.
  - destruct (y <? 0) eqn:Hneg.
    + change (("-" ++ Date.pad 6 (Z.abs y)) ++ rest)
        with (String "-" (Date.pad 6 (Z.abs y) ++ rest)).
      cbn [Date.take_year].
      rewrite take_digits_pad_small by (simpl; lia).
      destruct (Z.abs y) eqn:Habs; try lia.
      f_equal. f_equal. lia.
    + change (("+" ++ Date.pad 6 (Z.abs y)) ++ rest)
        with (String "+" (Date.pad 6 (Z.abs y) ++ rest)).
      cbn [Date.take_year].
      rewrite take_digits_pad_small by (simpl; lia).
      f_equal. f_equal. lia.
Qed.

Lemma take_date_of_day (day : Z) (rest : string) :
  Z.abs day <= 100000000 ->
  match Date.civil_from_days day with
  | (y, m, d) =>
      Date.take_date (Date.year_string y ++ "-" ++ Date.pad 2 m ++ "-"
                      ++ Date.pad 2 d ++ rest) = Some (day, rest)
  end.
Proof.
  intros Hday. pose proof (civil_roundtrip day) as H.
  destruct (Date.civil_from_days day) as [[y m] d] eqn:Hcivil.
  destruct H as (Hback & Hm & Hd & Hy).
  unfold Date.take_date.
  rewrite take_year_string.
  2:{ assert (-680 <= (day + 719468) / 146097 <= 690)
        by (Z.div_mod_to_equations; lia).
      lia. }
  cbv beta iota.
  change (Date.expect "-" ("-" ++ Date.pad 2 m ++ "-" ++ Date.pad 2 d ++ rest))
    with (Some (Date.pad 2 m ++ "-" ++ Date.pad 2 d ++ rest)).
  cbv beta iota.
  rewrite take_digits_pad_small by (simpl; lia).
  cbv beta iota.
  change (Date.expect "-" ("-" ++ Date.pad 2 d ++ rest))
    with (Some (Date.pad 2 d ++ rest)).
  cbv beta iota.
  rewrite take_digits_pad_small by (simpl; lia).
  cbv beta iota.
  rewrite Hback, Hcivil, !Z.eqb_refl. reflexivity.
Qed.

Lemma take_time_of_ms (ms : Z) :
  0 <= ms < Date.msPerDay ->
  Date.take_time ("T" ++ Date.pad 2 (ms / 3600000) ++ ":"
                  ++ Date.pad 2 (ms / 60000 mod 60) ++ ":"
                  ++ Date.pad 2 (ms / 1000 mod 60) ++ "."
                  ++ Date.pad 3 (ms mod 1000) ++ "Z")
  = Some (ms, EmptyString).
Proof.
  unfold Date.msPerDay. intros Hms. unfold Date.take_time.
  assert (Hh : 0 <= ms / 3600000 <= 23) by (Z.div_mod_to_equations; lia).
  assert (Hmi : 0 <= ms / 60000 mod 60 < 60) by (apply Z.mod_pos_bound; lia).
  assert (Hs : 0 <= ms / 1000 mod 60 < 60) by (apply Z.mod_pos_bound; lia).
  assert (Hl : 0 <= ms mod 1000 < 1000) by (apply Z.mod_pos_bound; lia).
  change (Date.expect "T" ("T" ++ ?r)) with (Some r). cbv beta iota.
  rewrite take_digits_pad_small by (simpl; lia). cbv beta iota.
  change (Date.expect ":" (":" ++ ?r)) with (Some r). cbv beta iota.
  rewrite take_digits_pad_small by (simpl; lia). cbv beta iota.
  change (Date.expect ":" (":" ++ ?r)) with (Some r). cbv beta iota.
  rewrite take_digits_pad_small by (simpl; lia). cbv beta iota.
  change (Date.expect "." ("." ++ ?r)) with (Some r). cbv beta iota.
  rewrite take_digits_pad_small by (simpl; lia). cbv beta iota.
  change (Date.expect "Z" "Z") with (Some EmptyString). cbv beta iota.
  replace (ms / 3600000 <=? 23) with true by (symmetry; apply Z.leb_le; lia).
  replace (ms / 60000 mod 60 <=? 59) with true by (symmetry; apply Z.leb_le; lia).
  replace (ms / 1000 mod 60 <=? 59) with true by (symmetry; apply Z.leb_le; lia).
  cbn [andb]. f_equal. f_equal. Z.div_mod_to_equations. lia.
Qed.

(** What [toISOString] writes for a time value in range, [Date.parse] reads
    back as that time value. *)
Lemma parse_iso_of_time (rt : Runtime) (t : Z) :
  Z.abs t <= Date.maxTime ->
  Date.parse rt (Date.iso_of_time t) = Some t.
Proof.
  unfold Date.maxTime. intros Ht.
  unfold Date.parse, Date.parse_iso, Date.iso_of_time.
  assert (Hday : Z.abs (t / Date.msPerDay) <= 100000000).
  { unfold Date.msPerDay.
    assert (-100000000 <= t / 86400000 <= 100000000)
      by (Z.div_mod_to_equations; lia).
    lia. }
  assert (Hms : 0 <= t mod Date.msPerDay < Date.msPerDay)
    by (apply Z.mod_pos_bound; reflexivity).
  pose proof (take_date_of_day (t / Date.msPerDay)) as Hdate.
  destruct (Date.civil_from_days (t / Date.msPerDay)) as [[y m] d].
  rewrite (Hdate _ Hday).
  change ("T" ++ ?r) with (String "T" r).
  cbv iota beta.
  pose proof (take_time_of_ms _ Hms) as Htime.
  change ("T" ++ ?r) with (String "T" r) in Htime.
  rewrite Htime.
  unfold Date.in_range.
  assert (Hsum : t / Date.msPerDay * Date.msPerDay + t mod Date.msPerDay = t).
  { pose proof (Z.div_mod t Date.msPerDay). unfold Date.msPerDay in *. lia. }
  rewrite Hsum.
  replace (Z.abs t <=? Date.maxTime) with true; [reflexivity|].
  symmetry. apply Z.leb_le. unfold Date.maxTime. lia.
Qed.

End DateFacts.

(* ================================================================== *)
(** * Numbers and sorting *)

Module NumFacts.

Lemma sgn_Qeq (p q : Q) : p == q -> Num.sgn p = Num.sgn q.
Proof.
  unfold Qeq, Num.sgn. destruct p as [pn pd], q as [qn qd]. simpl.
  destruct pn, qn; simpl; intros H; try reflexivity; discriminate.
Qed.

(** The sign of a difference is the comparison of its operands. *)
Lemma sign_sub_le (a b : Q) :
  (Num.sign (Num.sub (Fin a) (Fin b)) <=? 0) = Qle_bool a b.
Proof.
  unfold Num.sub, Num.neg, Num.add, Num.sign.
  rewrite (sgn_Qeq (Qred (a + Qred (- b))) (a + - b)).
  2:{ rewrite Qred_correct. now rewrite Qred_correct. }
  unfold Num.sgn, Qle_bool. destruct a as [an ad], b as [bn bd]. simpl.
  destruct (Z.leb_spec (bn * Zpos ad) (an * Zpos bd)) as [H|H];
    destruct (Z.leb_spec (an * Zpos bd) (bn * Zpos ad)) as [H'|H'];
    destruct (Z.leb_spec (Z.sgn (an * Zpos bd + - bn * Zpos ad)) 0) as [Hs|Hs];
    try reflexivity; exfalso; lia.
Qed.

Lemma sign_sub_of_Z (a b : Z) :
  (Num.sign (Num.sub (Num.of_Z a) (Num.of_Z b)) <=? 0) = (a <=? b).
Proof.
  unfold Num.of_Z. rewrite sign_sub_le. unfold Qle_bool. simpl.
  now rewrite !Z.mul_1_r.
Qed.

Lemma sign_of_Z (z : Z) : Num.sign (Num.of_Z z) = Z.sgn z.
Proof. reflexivity. Qed.

Lemma sign_difference (a b : Z) :
  (Num.sign (Num.of_Z (a - b)) <=? 0) = (a <=? b).
Proof.
  rewrite sign_of_Z.
  destruct (Z.leb_spec a b); destruct (Z.leb_spec (Z.sgn (a - b)) 0);
    try reflexivity; exfalso; lia.
Qed.


Lemma Qred_integer (z : Z) : Qred (inject_Z z) = inject_Z z.
Proof.
  unfold Qred, inject_Z.
  pose proof (Z.ggcd_gcd z 1) as Hg.
  pose proof (Z.ggcd_correct_divisors z 1) as Hd.
  destruct (Z.ggcd z 1) as [g [a b]]. simpl in Hg. cbn [snd fst] in Hd.
  rewrite Z.gcd_1_r in Hg. subst g. destruct Hd as [Ha Hb].
  assert (Hz : a = z) by lia. assert (H1 : b = 1) by lia.
  subst a b. reflexivity.
Qed.

(** [new Date(n)] for a number equal to an integer in range. *)
Lemma TimeClip_integer (q : Q) (z : Z) :
  q == inject_Z z -> Z.abs z <= Date.maxTime ->
  Date.TimeClip (Fin q) = Some z.
Proof.
  intros Hq Hz. unfold Date.TimeClip.
  assert (Habs : Qle_bool (Qabs q) (inject_Z Date.maxTime) = true).
  { apply Qle_bool_iff. rewrite Hq.
    change (Qabs (inject_Z z)) with (inject_Z (Z.abs z)).
    now rewrite <- Zle_Qle. }
  rewrite Habs. f_equal. unfold Num.trunc.
  rewrite (Qfloor_comp _ _ Hq), (Qceiling_comp _ _ Hq), Qfloor_Z, Qceiling_Z.
  now destruct (Qle_bool 0 q).
Qed.

(** [new Date(ts * 1000)] for integer seconds in range. *)
Lemma seconds_to_time (rt : Runtime) (ts : Z) :
  Z.abs (ts * 1000) <= Date.maxTime ->
  Date.of_number (Num.mul (Js.ToNumber rt (VNum (Num.of_Z ts))) (Fin 1000))
  = Some (ts * 1000).
Proof.
  intros H. unfold Date.of_number. cbn [Js.ToNumber Num.of_Z Num.mul].
  apply TimeClip_integer; [|exact H].
  rewrite Qred_correct. unfold Qeq. simpl. lia.
Qed.

End NumFacts.

Module SortFacts.

Section Sorted.

Context {A : Type}.
Variables (compare : A -> A -> number) (dom : A -> Prop) (le : A -> A -> Prop).

(** On the elements of [dom], the comparator decides the total preorder
    [le]. *)
Hypothesis compare_le :
  forall a b, dom a -> dom b -> Num.sign (compare a b) <= 0 -> le a b.
Hypothesis compare_gt :
  forall a b, dom a -> dom b -> 0 < Num.sign (compare a b) -> le b a.
Hypothesis le_trans :
  forall a b c, dom a -> dom b -> dom c -> le a b -> le b c -> le a c.

Lemma insert_perm (x : A) (l : list A) :
  Permutation (Sort.insert compare x l) (x :: l).
Proof.
  induction l as [|y l IH]; simpl; [reflexivity|].
  destruct (Num.sign (compare x y) <=? 0); [reflexivity|].
  rewrite IH. apply perm_swap.
Qed.

Lemma sort_perm (l : list A) : Permutation (Sort.sort compare l) l.
Proof.
  induction l as [|x l IH]; simpl; [reflexivity|].
  rewrite insert_perm. now constructor.
Qed.

Lemma sort_dom (l : list A) : Forall dom l -> Forall dom (Sort.sort compare l).
Proof.
  intros H. eapply Permutation_Forall; [|exact H].
  symmetry. apply sort_perm.
Qed.



End Sorted.

Section Agreement.

Context {A B : Type}.
Variables (f : A -> B) (compareA : A -> A -> number) (compareB : B -> B -> number)
          (dom : A -> Prop).

(** On the elements of [dom], [compareB] orders the images as [compareA]
    orders the elements. *)
Hypothesis agree :
  forall a b, dom a -> dom b ->
              (Num.sign (compareB (f a) (f b)) <=? 0)
              = (Num.sign (compareA a b) <=? 0).

Lemma insert_map (x : A) (l : list A) :
  dom x -> Forall dom l ->
  Sort.insert compareB (f x) (map f l) = map f (Sort.insert compareA x l).
Proof.
  intros Hx Hl. induction l as [|y l IH]; [reflexivity|].
  inversion Hl as [|? ? Hy Hl']; subst. cbn [map Sort.insert].
  rewrite (agree x y Hx Hy).
  destruct (Num.sign (compareA x y) <=? 0); [reflexivity|].
  cbn [map]. now rewrite (IH Hl').
Qed.

(** Sorting the images is sorting the elements. *)
Lemma sort_map (l : list A) :
  Forall dom l -> Sort.sort compareB (map f l) = map f (Sort.sort compareA l).
Proof.
  induction l as [|x l IH]; intros H; [reflexivity|].
  inversion H as [|? ? Hx Hl]; subst. cbn [map Sort.sort].
  rewrite (IH Hl). apply insert_map; [exact Hx|].
  now apply sort_dom.
Qed.

End Agreement.

Section Keyed.

Context {A : Type}.
Variables (compare : A -> A -> number) (key : A -> Z).

Hypothesis compare_key :
  forall a b, (Num.sign (compare a b) <=? 0) = (key a <=? key b).


End Keyed.

End SortFacts.

(* ================================================================== *)
(** * Objects: assignment, flattening, merging *)

Module ObjectFacts.

Lemma has_key_lookup (k : string) (fields : list (string * value)) :
  Js.has_key k fields = false <-> Js.lookup k fields = None.
Proof. unfold Js.has_key. destruct (Js.lookup k fields); split; congruence. Qed.

Lemma lookup_app (k : string) (f g : list (string * value)) :
  Js.lookup k (f ++ g) =
  match Js.lookup k f with Some v => Some v | None => Js.lookup k g end.
Proof.
  induction f as [|[k' v'] f IH]; simpl; [reflexivity|].
  destruct (String.eqb k k'); [reflexivity|exact IH].
Qed.

Lemma lookup_replace (k k' : string) (v : value) (fields : list (string * value)) :
  Js.has_key k' fields = true ->
  Js.lookup k (Js.replace k' v fields) =
  if String.eqb k k' then Some v else Js.lookup k fields.
Proof.
  unfold Js.has_key.
  induction fields as [|[k0 v0] fields IH]; simpl; [discriminate|].
  destruct (String.eqb k' k0) eqn:E0; simpl.
  - apply String.eqb_eq in E0. subst k0. intros _.
    destruct (String.eqb k k'); reflexivity.
  - intros H. rewrite (IH H).
    destruct (String.eqb k k0) eqn:E1; [|reflexivity].
    apply String.eqb_eq in E1. subst k0.
    destruct (String.eqb k k') eqn:E2; [|reflexivity].
    apply String.eqb_eq in E2. subst k'. rewrite String.eqb_refl in E0.
    discriminate.
Qed.

Lemma lookup_insert_index (k k' : string) (n : N) (v : value)
      (fields : list (string * value)) :
  Js.lookup k' fields = None ->
  Js.lookup k (Js.insert_index n k' v fields) =
  if String.eqb k k' then Some v else Js.lookup k fields.
Proof.
  induction fields as [|[k0 v0] fields IH]; simpl; intros Hnone.
  - destruct (String.eqb k k'); reflexivity.
  - destruct (String.eqb k' k0) eqn:E0; [discriminate|].
    destruct (Js.array_index k0) as [n0|]; [destruct (n <? n0)%N|]; simpl;
      try (destruct (String.eqb k k'); reflexivity).
    rewrite (IH Hnone).
    destruct (String.eqb k k0) eqn:E1; [|reflexivity].
    apply String.eqb_eq in E1. subst k0.
    destruct (String.eqb k k') eqn:E2; [|reflexivity].
    apply String.eqb_eq in E2. subst k'. rewrite String.eqb_refl in E0.
    discriminate.
Qed.

(** Reading after a field is defined, and after an assignment. *)
Lemma lookup_define (k k' : string) (v : value) (fields : list (string * value)) :
  Js.lookup k (Js.define k' v fields) =
  if String.eqb k k' then Some v else Js.lookup k fields.
Proof.
  unfold Js.define. destruct (Js.has_key k' fields) eqn:Hk.
  - now apply lookup_replace.
  - apply has_key_lookup in Hk.
    destruct (Js.array_index k') as [n|].
    + now apply lookup_insert_index.
    + rewrite lookup_app. simpl.
      destruct (String.eqb k k') eqn:E.
      * apply String.eqb_eq in E. subst k'. now rewrite Hk.
      * now destruct (Js.lookup k fields).
Qed.

Lemma set_define (k : string) (v : value) (fields : list (string * value)) :
  String.eqb k "__proto__" = false -> Js.set k v fields = Js.define k v fields.
Proof. intros H. unfold Js.set. now rewrite H. Qed.

Lemma set_proto (v : value) (fields : list (string * value)) :
  Js.set "__proto__" v fields = fields.
Proof. reflexivity. Qed.

Lemma lookup_set (k k' : string) (v : value) (fields : list (string * value)) :
  Js.lookup k (Js.set k' v fields) =
  if String.eqb k' "__proto__" then Js.lookup k fields
  else if String.eqb k k' then Some v else Js.lookup k fields.
Proof.
  unfold Js.set. destruct (String.eqb k' "__proto__"); [reflexivity|].
  apply lookup_define.
Qed.

Lemma own_order_app (keys : list string) (k : string) :
  Wf.own_order (keys ++ [k]) = true ->
  Wf.own_order keys = true /\ Forall (fun k' => Wf.key_before k' k = true) keys.
Proof.
  induction keys as [|k0 keys IH]; simpl; intros H; [auto|].
  apply andb_true_iff in H as [H1 H2].
  rewrite forallb_app in H1. apply andb_true_iff in H1 as [H1 H3].
  simpl in H3. rewrite andb_true_r in H3.
  destruct (IH H2) as [IH1 IH2]. rewrite H1, IH1. auto.
Qed.

Lemma own_order_app_l (keys more : list string) :
  Wf.own_order (keys ++ more) = true -> Wf.own_order keys = true.
Proof.
  induction keys as [|k0 keys IH]; simpl; intros H; [reflexivity|].
  apply andb_true_iff in H as [H1 H2].
  rewrite forallb_app in H1. apply andb_true_iff in H1 as [H1 _].
  now rewrite H1, IH.
Qed.

Lemma own_order_lookup_tail (k : string) (v : value)
      (fields : list (string * value)) :
  Wf.own_order (k :: map fst fields) = true -> Js.lookup k fields = None.
Proof.
  simpl. intros H. apply andb_true_iff in H as [H _].
  induction fields as [|[k0 v0] fields IH]; simpl in *; [reflexivity|].
  apply andb_true_iff in H as [H0 H].
  unfold Wf.key_before in H0. apply andb_true_iff in H0 as [H0 _].
  apply negb_true_iff in H0. rewrite H0. now apply IH.
Qed.

(** Defining a key that is enumerated after all the keys there are adds it
    at the end. *)
Lemma define_last (k : string) (v : value) (fields : list (string * value)) :
  Forall (fun k' => Wf.key_before k' k = true) (map fst fields) ->
  Js.define k v fields = (fields ++ [(k, v)])%list.
Proof.
  intros H. unfold Js.define.
  assert (Hnone : Js.has_key k fields = false).
  { apply has_key_lookup.
    induction fields as [|[k0 v0] fields IH]; simpl; [reflexivity|].
    inversion H as [|? ? H0 Hrest]; subst.
    unfold Wf.key_before in H0. apply andb_true_iff in H0 as [H0 _].
    apply negb_true_iff in H0. rewrite String.eqb_sym, H0. now apply IH. }
  rewrite Hnone. destruct (Js.array_index k) as [n|] eqn:Hidx; [|reflexivity].
  induction fields as [|[k0 v0] fields IH]; simpl; [reflexivity|].
  inversion H as [|? ? H0 Hrest]; subst.
  unfold Wf.key_before in H0. rewrite Hidx in H0.
  apply andb_true_iff in H0 as [_ H0].
  destruct (Js.array_index k0) as [n0|]; [|discriminate].
  apply N.ltb_lt in H0.
  replace (n <? n0)%N with false by (symmetry; apply N.ltb_ge; lia).
  f_equal. apply IH; [assumption|].
  apply has_key_lookup. apply has_key_lookup in Hnone. simpl in Hnone.
  destruct (String.eqb k k0); [discriminate|exact Hnone].
Qed.

Lemma set_last (k : string) (v : value) (fields : list (string * value)) :
  String.eqb k "__proto__" = false ->
  Forall (fun k' => Wf.key_before k' k = true) (map fst fields) ->
  Js.set k v fields = (fields ++ [(k, v)])%list.
Proof. intros Hk H. rewrite set_define by exact Hk. now apply define_last. Qed.

Lemma flatten_entry_plain (obj : list (string * value)) (key : string) (v : value) :
  Wf.object_with "raw" v = false ->
  (String.eqb key "endDate" && Wf.object_with "fmt" v) = false ->
  Shape.flatten_entry obj (key, v) = Js.set key v obj.
Proof.
  intros Hraw Hfmt. unfold Shape.flatten_entry. simpl.
  assert (Hin : forall k, k = "raw" \/ k = "fmt" ->
                          Js.has_in k v = Wf.object_with k v).
  { intros k Hk. destruct v; try reflexivity.
    destruct Hk as [-> | ->]; reflexivity. }
  rewrite (Hin "raw"), Hraw, andb_false_r by auto.
  rewrite (Hin "fmt") by auto.
  destruct (String.eqb key "endDate"); simpl in *; [|reflexivity].
  now rewrite Hfmt, andb_false_r.
Qed.

Lemma flatten_loop (acc rest : list (string * value)) :
  Wf.object (acc ++ rest) = true -> Wf.flattened rest = true ->
  Wf.plain_keys rest = true ->
  fold_left Shape.flatten_entry rest acc = (acc ++ rest)%list.
Proof.
  revert acc. induction rest as [|[k v] rest IH]; intros acc Hwf Hflat Hplain; simpl.
  - now rewrite app_nil_r.
  - simpl in Hflat. apply andb_true_iff in Hflat as [Hkv Hflat].
    apply andb_true_iff in Hkv as [Hraw Hfmt].
    apply negb_true_iff in Hraw, Hfmt.
    cbn [Wf.plain_keys forallb fst] in Hplain.
    apply andb_true_iff in Hplain as [Hk Hplain]. apply negb_true_iff in Hk.
    rewrite flatten_entry_plain by assumption.
    replace (acc ++ (k, v) :: rest)%list with ((acc ++ [(k, v)]) ++ rest)%list in *
      by (now rewrite <- app_assoc).
    rewrite set_last.
    + now apply IH.
    + exact Hk.
    + unfold Wf.object in Hwf. rewrite map_app in Hwf.
      apply own_order_app_l in Hwf. rewrite map_app in Hwf.
      now apply own_order_app in Hwf.
Qed.

End ObjectFacts.

(** C9. Flattening is the identity on a flattened statement that has no
    field named [__proto__]: when no field of the statement is an object
    with the key ["raw"], [endDate] is not an object with the key ["fmt"]
    and no key is ["__proto__"], the callback of [statements.map] in
    [getFinancialStatement] returns an object equal to its input. *)
Theorem flatten_statement_fixed_point (fields : list (string * value)) :
  Wf.object fields = true ->
  Wf.flattened fields = true ->
  Wf.plain_keys fields = true ->
  Shape.flatten_statement (VObj fields) = Ok (VObj fields).
Proof.
  intros Hwf Hflat Hplain. unfold Shape.flatten_statement. simpl.
  now rewrite (ObjectFacts.flatten_loop [] fields).
Qed.

Lemma flatten_statement_fixed_point_witness :
  let stmt := [("maxAge", VNum (Fin 1)); ("date", VStr "2024-09-28");
               ("totalRevenue", VNum (Fin 391035000000));
               ("netIncome", VNull)] in
  Shape.flatten_statement (VObj stmt) = Ok (VObj stmt).
Proof.
  intros stmt. apply (flatten_statement_fixed_point stmt); reflexivity.
Defined.

(** C9 as stated fails on a flattened statement that has a field named
    [__proto__]: the assignment [obj["__proto__"] = 5] reaches the accessor
    of [Object.prototype] and gives [obj] no field, so the output is not
    the input. *)
Lemma flatten_statement_counterexample :
  let stmt := [("maxAge", VNum (Fin 1)); ("__proto__", VNum (Fin 5));
               ("netIncome", VNull)] in
  Wf.object stmt = true
  /\ Wf.flattened stmt = true
  /\ Shape.flatten_statement (VObj stmt)
     = Ok (VObj [("maxAge", VNum (Fin 1)); ("netIncome", VNull)])
  /\ Shape.flatten_statement (VObj stmt) <> Ok (VObj stmt).
Proof. repeat split; try reflexivity. discriminate. Qed.

(** Flattening does change a statement that still has wrappers. *)
Example flatten_statement_unwraps :
  Shape.flatten_statement
    (VObj [("maxAge", VNum (Fin 1));
           ("endDate", VObj [("raw", VNum (Fin 1727481600)); ("fmt", VStr "2024-09-28")]);
           ("period", VObj [("fmt", VStr "FY")]);
           ("totalRevenue", VObj [("raw", VNum (Fin 391035000000));
                                  ("fmt", VStr "391.04B")])])
  = Ok (VObj [("maxAge", VNum (Fin 1));
              ("endDate", VNum (Fin 1727481600));
              ("period", VObj [("fmt", VStr "FY")]);
              ("totalRevenue", VNum (Fin 391035000000))]).
Proof. reflexivity. Qed.

(* ================================================================== *)
(** * The tool functions on a parsed body *)

Section Shaped.

Variables (c : Client) (env : Env) (w w1 : World).

(** A tool whose [try] block fetches, parses and shapes: on a body that
    parses to [data], the outcome is what the shaping makes of [data], an
    exception of the shaping being reported as an error line. *)
Lemma run_shaped (url : string) (needsCrumb : bool)
      (shape : Runtime -> value -> Result Payload) (data : value) :
  fetch_json c url needsCrumb env w = (Ok data, w1) ->
  try_catch (bind (fetch_json c url needsCrumb)
                  (fun data => bind read_runtime (fun rt => lift (shape rt data))))
            error_payload env w
  = (settle (shape (runtime env) data), w1).
Proof.
  intros H. unfold try_catch, bind. rewrite H.
  unfold read_runtime, lift, error_payload, ret, settle.
  now destruct (shape (runtime env) data).
Qed.

Lemma getStockInfo_data (ticker : string) (data : value) :
  fetch_json c (Url.stock_info ticker) true env w = (Ok data, w1) ->
  getStockInfo c ticker env w
  = (settle (Shape.stock_info (runtime env) ticker data), w1).
Proof.
  intros H. exact (run_shaped _ _ (fun rt => Shape.stock_info rt ticker) _ H).
Qed.


End Shaped.

Module MergeFacts.

Import ObjectFacts.

(** One assignment of [Object.assign], read at a key other than
    ["__proto__"]. *)
Lemma assign_step (k : string) (t : Js.Target) (kv : string * value) :
  String.eqb k "__proto__" = false ->
  Js.lookup k (Js.own (Js.assign t kv))
  = if String.eqb k (fst kv) then Some (snd kv) else Js.lookup k (Js.own t).
Proof.
  intros Hk. destruct kv as [k0 v0]. unfold Js.assign. cbn [fst snd].
  destruct (String.eqb k0 "__proto__" && negb (Js.has_key k0 (Js.own t))
            && Js.proto_accessor t) eqn:Hsetter.
  - apply andb_true_iff in Hsetter as [Hsetter _].
    apply andb_true_iff in Hsetter as [Hk0 _]. apply String.eqb_eq in Hk0.
    subst k0. rewrite Hk. now destruct v0.
  - cbn [Js.own]. apply lookup_define.
Qed.

(** [Object.assign]: a key of the source gets the source's value, any other
    key keeps the target's. *)
Lemma assign_lookup (k : string) (entries : list (string * value)) (info : Js.Target) :
  String.eqb k "__proto__" = false ->
  Wf.object entries = true ->
  Js.lookup k (Js.own (fold_left Js.assign entries info))
  = match Js.lookup k entries with
    | Some v => Some v
    | None => Js.lookup k (Js.own info)
    end.
Proof.
  intros Hk. revert info.
  induction entries as [|[k0 v0] entries IH]; intros info Hwf;
    simpl; [reflexivity|].
  assert (Hrest : Wf.object entries = true).
  { unfold Wf.object in *. simpl in Hwf. now apply andb_true_iff in Hwf. }
  rewrite (IH _ Hrest), (assign_step k info (k0, v0) Hk). cbn [fst snd].
  destruct (String.eqb k k0) eqn:E; [|reflexivity].
  apply String.eqb_eq in E. subst k0.
  now rewrite (own_order_lookup_tail k v0 entries Hwf).
Qed.

Lemma assign_other (k : string) (entries : list (string * value)) (info : Js.Target) :
  String.eqb k "__proto__" = false ->
  Js.lookup k entries = None ->
  Js.lookup k (Js.own (fold_left Js.assign entries info))
  = Js.lookup k (Js.own info).
Proof.
  intros Hk. revert info.
  induction entries as [|[k0 v0] entries IH]; intros info Hnone;
    simpl in *; [reflexivity|].
  destruct (String.eqb k k0) eqn:E; [discriminate|].
  rewrite (IH _ Hnone), (assign_step k info (k0, v0) Hk). cbn [fst snd].
  now rewrite E.
Qed.

Lemma merge_later (k : string) (post : list (string * value)) (info : Js.Target) :
  String.eqb k "__proto__" = false ->
  (forall e, In e post -> Wf.module_value (snd e) = true ->
             Js.lookup k (Js.own_entries (snd e)) = None) ->
  Js.lookup k (Js.own (fold_left Shape.merge_step post info))
  = Js.lookup k (Js.own info).
Proof.
  intros Hk. revert info. induction post as [|e post IH]; intros info H; simpl;
    [reflexivity|].
  rewrite IH by (intros e' He'; apply H; now right).
  unfold Shape.merge_step.
  destruct (Js.truthy (snd e) && Js.typeof_object (snd e)) eqn:Hm;
    [|reflexivity].
  apply assign_other; [exact Hk|]. apply H; [now left|exact Hm].
Qed.

Lemma merge_filter (entries : list (string * value)) (info : Js.Target) :
  fold_left Shape.merge_step entries info
  = fold_left Shape.merge_step (filter (fun e => Wf.module_value (snd e)) entries) info.
Proof.
  revert info. induction entries as [|e entries IH]; intros info; simpl;
    [reflexivity|].
  rewrite IH.
  destruct (Wf.module_value (snd e)) eqn:Hm; [reflexivity|].
  unfold Shape.merge_step at 2. unfold Wf.module_value in Hm. now rewrite Hm.
Qed.

End MergeFacts.

(** C10. The merge of [getStockInfo] is last writer wins on every field
    name but [__proto__]: on a result whose entries are [pre], then the
    module [m], then [post], where [m] is object-valued and gives [v] to the
    field [k], [k] is not ["__proto__"] and no object-valued module of
    [post] has the field [k], the output holds [v] at [k], whatever the
    modules of [pre] gave to [k]; and the output is the merge of the
    object-valued entries alone, the other entries being skipped. *)
Theorem stock_info_last_writer_wins
        (c : Client) (env : Env) (w w1 : World) (ticker : string) (data : value)
        (pre post : list (string * value)) (name k : string) (m v : value) :
  fetch_json c (Url.stock_info ticker) true env w = (Ok data, w1) ->
  Shape.unwrap (runtime env) "quoteSummary" ticker data
    = Ok (inr (VObj (pre ++ (name, m) :: post))) ->
  Wf.module_value m = true ->
  Wf.object (Js.own_entries m) = true ->
  String.eqb k "__proto__" = false ->
  Js.lookup k (Js.own_entries m) = Some v ->
  (forall e, In e post -> Wf.module_value (snd e) = true ->
             Js.lookup k (Js.own_entries (snd e)) = None) ->
  exists info,
    getStockInfo c ticker env w = (Ok (Json (VObj info)), w1)
    /\ Js.lookup k info = Some v
    /\ info = Shape.merge_modules
                (filter (fun e => Wf.module_value (snd e))
                        (pre ++ (name, m) :: post)).
Proof.
  intros Hfetch Hresult Hm Hwf Hproto Hk Hpost.
  exists (Shape.merge_modules (pre ++ (name, m) :: post)).
  rewrite (getStockInfo_data c env w w1 ticker data Hfetch).
  unfold Shape.stock_info. rewrite Hresult. simpl.
  unfold Shape.merge_modules. split; [reflexivity|]. split.
  - rewrite fold_left_app. simpl.
    rewrite MergeFacts.merge_later by assumption.
    unfold Shape.merge_step at 1. simpl.
    unfold Wf.module_value in Hm. rewrite Hm.
    unfold Js.Object_assign. rewrite MergeFacts.assign_lookup by assumption.
    now rewrite Hk.
  - f_equal. apply MergeFacts.merge_filter.
Qed.

Lemma stock_info_last_writer_wins_witness :
  let result :=
    VObj [("summaryProfile", VObj [("sector", VStr "Technology");
                                   ("name", VStr "profile")]);
          ("maxAge", VNum (Fin 1));
          ("price", VObj [("name", VStr "Apple Inc."); ("marketCap", VNum (Fin 3))]);
          ("calendarEvents", VNull)] in
  let data := VObj [("quoteSummary", VObj [("result", VArr [result]);
                                           ("error", VNull)])] in
  let env := Scenario.scripted Scenario.two_cookies
               (Scenario.text_response 200 None "AbCdEf123")
               (Scenario.json_response data) 1000 in
  exists info,
    getStockInfo CrumbClient "AAPL" env initial_world
      = (Ok (Json (VObj info)),
         snd (fetch_json CrumbClient (Url.stock_info "AAPL") true env initial_world))
    /\ Js.lookup "name" info = Some (VStr "Apple Inc.")
    /\ info = Shape.merge_modules
                (filter (fun e => Wf.module_value (snd e))
                        ([("summaryProfile", VObj [("sector", VStr "Technology");
                                                   ("name", VStr "profile")]);
                          ("maxAge", VNum (Fin 1))]
                         ++ ("price", VObj [("name", VStr "Apple Inc.");
                                            ("marketCap", VNum (Fin 3))])
                         :: [("calendarEvents", VNull)])).
Proof.
  intros result data env.
  apply (stock_info_last_writer_wins CrumbClient env initial_world _ "AAPL" data
           _ _ "price" "name" _ (VStr "Apple Inc.")).
  - vm_compute. reflexivity.
  - vm_compute. reflexivity.
  - reflexivity.
  - reflexivity.
  - reflexivity.
  - reflexivity.
  - intros e [<-|[]]. discriminate.
Defined.

(** C10 as stated fails on the field name [__proto__]: two modules define
    it, and the output holds the value of neither, because the assignment
    of [Object.assign] reaches the accessor of [Object.prototype] and gives
    [info] no field. *)
Lemma stock_info_last_writer_counterexample :
  let earlier := VObj [("__proto__", VObj [("a", VNum (Fin 1))]);
                       ("sector", VStr "Technology")] in
  let later := VObj [("__proto__", VObj [("x", VNum (Fin 1))]);
                     ("currency", VStr "USD")] in
  let result := VObj [("summaryProfile", earlier); ("price", later)] in
  let data := VObj [("quoteSummary", VObj [("result", VArr [result]);
                                           ("error", VNull)])] in
  let env := Scenario.scripted Scenario.two_cookies
               (Scenario.text_response 200 None "AbCdEf123")
               (Scenario.json_response data) 1000 in
  Js.lookup "__proto__" (Js.own_entries earlier) = Some (VObj [("a", VNum (Fin 1))])
  /\ Js.lookup "__proto__" (Js.own_entries later) = Some (VObj [("x", VNum (Fin 1))])
  /\ fst (getStockInfo CrumbClient "AAPL" env initial_world)
     = Ok (Json (VObj [("sector", VStr "Technology"); ("currency", VStr "USD")])).
Proof. repeat split; vm_compute; reflexivity. Qed.

(** The merged output of the example, field by field. *)
Example stock_info_merge_order :
  Shape.merge_modules
    [("summaryProfile", VObj [("sector", VStr "Technology"); ("name", VStr "profile")]);
     ("maxAge", VNum (Fin 1));
     ("price", VObj [("name", VStr "Apple Inc."); ("marketCap", VNum (Fin 3))]);
     ("calendarEvents", VNull)]
  = [("sector", VStr "Technology"); ("name", VStr "Apple Inc.");
     ("marketCap", VNum (Fin 3))].
Proof. reflexivity. Qed.

(** Once a module has made the prototype of [info] [null], the name
    [__proto__] is a field like the others. *)
Example stock_info_proto_after_null :
  Shape.merge_modules
    [("a", VObj [("__proto__", VNull)]);
     ("b", VObj [("__proto__", VNum (Fin 5)); ("currency", VStr "USD")]);
     ("c", VObj [("__proto__", VStr "last")])]
  = [("__proto__", VStr "last"); ("currency", VStr "USD")].
Proof. reflexivity. Qed.
(* ================================================================== *)
(** * getStockActions *)

Module ActionFacts.

Import NumFacts.

Lemma get_ok (v : value) (k : string) :
  Js.nullish v = false -> Js.get v k = Ok (Js.own_prop v k).
Proof. intros H. unfold Js.get. now rewrite H. Qed.

Lemma unwrap_result (rt : Runtime) (root ticker : string) (data result : value) :
  Shape.unwrap rt root ticker data = Ok (inr result) -> Js.nullish result = false.
Proof.
  unfold Shape.unwrap.
  destruct (Js.get data root) as [top|e]; simpl; [|discriminate].
  destruct (Js.truthy (Js.opt_get top "error")).
  - destruct (Js.get top "error") as [er|e]; simpl; [|discriminate].
    destruct (Js.get er "description"); simpl; discriminate.
  - destruct (Js.truthy (Js.opt_get (Js.opt_get top "result") "0")) eqn:Ht;
      simpl; [|discriminate].
    intros [= <-]. now destruct (Js.opt_get (Js.opt_get top "result") "0").
Qed.

(** A map whose callback gives, on each element, the value expected for
    what the element stands for. *)
Lemma map_expected {A B C : Type} (f : B -> Result C) (g : A -> C)
      (R : A -> B -> Prop) (expected : list A) (items : list B) :
  (forall a b, R a b -> f b = Ok (g a)) ->
  Forall2 R expected items ->
  Res.map f items = Ok (map g expected).
Proof.
  intros Hf H. unfold Res.map. generalize 0%nat.
  induction H as [|a b expected items Hab _ IH]; intros i; simpl; [reflexivity|].
  now rewrite (Hf a b Hab), (IH (S i)).
Qed.

Section Records.

Variable rt : Runtime.

(** The time the sort reads from a record whose date was written by
    [toISOString]. *)
Lemma action_time_expected (t : Z) (dividends splits : value) :
  Z.abs t <= Date.maxTime ->
  Shape.action_time rt (Expected.action t dividends splits) = Num.of_Z t.
Proof.
  intros H. unfold Shape.action_time, Expected.action. simpl.
  now rewrite DateFacts.parse_iso_of_time.
Qed.

Lemma action_time_record (a : Expected.Action) :
  Expected.in_range a ->
  Shape.action_time rt (Expected.record a) = Num.of_Z (Expected.date_of a * 1000).
Proof.
  destruct a; unfold Expected.in_range; cbn [Expected.date_of Expected.record];
    apply action_time_expected.
Qed.

Lemma dividend_in_range (a : Expected.Action) (ev : value) :
  Expected.dividend_event a ev -> Expected.in_range a.
Proof. destruct a; [|contradiction]. now intros (_ & _ & H & _). Qed.

Lemma split_in_range (a : Expected.Action) (ev : value) :
  Expected.split_event a ev -> Expected.in_range a.
Proof. destruct a; [contradiction|]. now intros (_ & _ & H & _). Qed.

Lemma dividend_action_expected (a : Expected.Action) (ev : value) :
  Expected.dividend_event a ev ->
  Shape.dividend_action rt ev = Ok (Expected.record a).
Proof.
  destruct a as [date amount|]; [|contradiction].
  intros (Hnull & Hdate & Hrange & Hamount).
  unfold Shape.dividend_action. rewrite !get_ok by assumption.
  cbn [Res.bind]. unfold Shape.iso_of_seconds.
  rewrite Hdate, (seconds_to_time rt date Hrange), Hamount. reflexivity.
Qed.

Lemma split_action_expected (a : Expected.Action) (ev : value) :
  Expected.split_event a ev ->
  Shape.split_action rt ev = Ok (Expected.record a).
Proof.
  destruct a as [|date n d]; [contradiction|].
  intros (Hnull & Hdate & Hrange & Hn & Hd & _ & [Hpos _] & _).
  unfold Shape.split_action. rewrite !get_ok by assumption.
  cbn [Res.bind]. unfold Shape.iso_of_seconds.
  rewrite Hdate, (seconds_to_time rt date Hrange), Hn, Hd.
  cbn [Date.toISOString Res.bind Js.ToNumber Num.of_Z Num.div].
  unfold Num.sgn. cbn [Qnum inject_Z].
  destruct d as [|p|p]; try lia. reflexivity.
Qed.

(** On records whose dates [Date] can hold, the comparator of the program
    orders by the dates of the events. *)
Lemma by_date_ascending (a b : Expected.Action) :
  Expected.in_range a -> Expected.in_range b ->
  (Num.sign (Shape.by_date rt (Expected.record a) (Expected.record b)) <=? 0)
  = (Num.sign (Expected.ascending a b) <=? 0).
Proof.
  intros Ha Hb. unfold Shape.by_date, Expected.ascending.
  rewrite (action_time_record a Ha), (action_time_record b Hb).
  rewrite sign_sub_of_Z, sign_difference.
  destruct (Z.leb_spec (Expected.date_of a * 1000) (Expected.date_of b * 1000));
    destruct (Z.leb_spec (Expected.date_of a) (Expected.date_of b));
    try reflexivity; exfalso; lia.
Qed.

(** The whole of the shaping of [getStockActions]: the records of the
    dividends, then those of the splits, sorted by the dates of the
    events. *)
Lemma actions_expected (ticker : string) (data result : value)
      (dividends splits : list (string * value))
      (divs spls : list Expected.Action) :
  Shape.unwrap rt "chart" ticker data = Ok (inr result) ->
  Expected.events_of result "dividends" = VObj dividends ->
  Expected.events_of result "splits" = VObj splits ->
  Forall2 Expected.dividend_event divs (map snd dividends) ->
  Forall2 Expected.split_event spls (map snd splits) ->
  Shape.actions rt ticker data
  = Ok (Json (VArr (map Expected.record
                        (Sort.sort Expected.ascending (divs ++ spls))))).
Proof.
  intros Hu Hdiv Hspl Hdivs Hspls.
  pose proof (unwrap_result _ _ _ _ _ Hu) as Hr.
  unfold Shape.actions. rewrite Hu. cbn [Res.bind].
  rewrite (get_ok result "events" Hr). cbn [Res.bind].
  assert (Hev : Js.nullish (Js.or (Js.own_prop result "events") (VObj [])) = false).
  { unfold Js.or. destruct (Js.truthy (Js.own_prop result "events")) eqn:Ht;
      [now destruct (Js.own_prop result "events")|reflexivity]. }
  rewrite !(get_ok _ _ Hev). cbn [Res.bind].
  unfold Expected.events_of in Hdiv, Hspl. rewrite Hdiv, Hspl.
  cbn [Js.Object_values Js.nullish Js.own_entries Res.bind].
  rewrite (map_expected (Shape.dividend_action rt) Expected.record
             Expected.dividend_event divs (map snd dividends)
             dividend_action_expected Hdivs).
  cbn [Res.bind].
  rewrite (map_expected (Shape.split_action rt) Expected.record
             Expected.split_event spls (map snd splits)
             split_action_expected Hspls).
  cbn [Res.bind]. rewrite <- map_app. do 3 f_equal.
  apply (SortFacts.sort_map Expected.record Expected.ascending (Shape.by_date rt)
           Expected.in_range by_date_ascending).
  apply Forall_app. split.
  - clear -Hdivs. induction Hdivs; constructor; eauto using dividend_in_range.
  - clear -Hspls. induction Hspls; constructor; eauto using split_in_range.
Qed.

End Records.

End ActionFacts.

(* ================================================================== *)
(** * getRecommendations *)

Module RecommendationFacts.

Import NumFacts ActionFacts.




Section Entries.

Variables (rt : Runtime) (cut : Z).









End Entries.



End RecommendationFacts.

Section Recommendations.

Variables (c : Client) (env : Env) (w w1 : World).


End Recommendations.


(* ================================================================== *)
(** * The error channel of the tool functions *)

Ltac tool_norm :=
  cbn [fst snd tool_request tool_root Shape.financial_module Shape.holder_module
       negb Str.nonempty] in *;
  cbv beta iota zeta.

Section ErrorChannel.

Variables (c : Client) (env : Env) (w : World).

Lemma call_tool_catch (t : ToolCall) :
  call_tool c t = try_catch (tool_try c t) error_payload.
Proof. now destruct t. Qed.


(** An exception of the [try] block becomes the line [Error: <error>]. *)
Lemma tool_thrown_line (t : ToolCall) (e : JsError) (w1 : World) :
  tool_try c t env w = (Throw e, w1) ->
  call_tool c t env w = (Ok (Text ("Error: " ++ Js.error_to_string e)), w1).
Proof.
  intros H. rewrite call_tool_catch. unfold try_catch. now rewrite H.
Qed.


(** Every tool starts with one call of [fetchYahoo], whose exception is the
    exception of the [try] block. *)
Lemma tool_try_fetch_throws (t : ToolCall) (e : JsError) (w1 : World) :
  fetchYahoo c (fst (tool_request (runtime env) c t))
             (snd (tool_request (runtime env) c t)) env w = (Throw e, w1) ->
  tool_try c t env w = (Throw e, w1).
Proof.
  destruct t as [ticker period interval|ticker|ticker|ticker|ticker ft|ticker ht
                 |ticker|ticker d ot|ticker rtype mb]; intros H;
    try destruct ft; try destruct ht;
    unfold tool_try, try_getHistoricalStockPrices, try_getStockInfo,
      try_getYahooFinanceNews, try_getStockActions, try_getFinancialStatement,
      try_getHolderInfo, try_getOptionExpirationDates, try_getOptionChain,
      try_getRecommendations, fetch_json, bind, read_runtime;
    tool_norm; now rewrite H.
Qed.



End ErrorChannel.


(* ================================================================== *)
(** * The properties on the examples of the specification *)


(** The merge-and-sort example of the specification: the split of date 50,
    with ratio 2, comes before the dividend of date 100. *)
Example actions_example (c : Client) :
  fst (getStockActions c "AAPL"
         (Scenario.serving (Scenario.json_response Scenario.chart_body) 1000)
         initial_world)
  = Ok (Json (VArr [Expected.action 50000 (VNum (Fin 0)) (VNum (Fin 2));
                    Expected.action 100000 (VNum (Fin (1 # 2))) (VNum (Fin 0))])).
Proof. destruct c; vm_compute; reflexivity. Qed.


(** The dedup example of the specification: of firm [A] at 300 and 200 and
    firm [B] at 100, the output is [A] at 300, then [B] at 100. *)
Example recommendations_example (c : Client) :
  let history := [Scenario.grade "A" 200; Scenario.grade "B" 100;
                  Scenario.grade "A" 300] in
  let env := Scenario.serving
               (Scenario.json_response
                  (Scenario.summary_body (Scenario.history_of history)))
               1700000000000 in
  fst (getRecommendations c "AAPL" upgrades_downgrades (Fin 100000) env
                          initial_world)
  = Ok (Json (VArr (map Expected.graded
                        [Scenario.grade "A" 300; Scenario.grade "B" 100]))).
Proof. destruct c; vm_compute; reflexivity. Qed.


(** The crumb examples of the specification on the first client: the
    bodies [""], ["<html>error</html>"] and ["some error occurred"] are
    rejected, ["AbCdEf123"] is the crumb. *)
Example crumb_examples :
  let run body := fst (Api.getCrumb
                         (Scenario.scripted Scenario.two_cookies
                            (Scenario.text_response 200 None body)
                            Scenario.not_found 1000)
                         initial_world) in
  run "" = Ok None
  /\ run "<html>error</html>" = Ok None
  /\ run "some error occurred" = Ok None
  /\ run "AbCdEf123" = Ok (Some {| crumb := "AbCdEf123"; cookie := "a=1; b=2" |}).
Proof. repeat split; vm_compute; reflexivity. Qed.

(* ================================================================== *)
(** * The runtime functions on known values *)

Example cookies_of_example :
  Api.cookies_of "A3=d=AQAB; Path=/; Secure,  , GUC=AQE; Max-Age=31557600"
  = "A3=d=AQAB; GUC=AQE"
  /\ Api2.cookies_of "A3=d=AQAB; Path=/; Secure,  , GUC=AQE; Max-Age=31557600"
     = "A3=d=AQAB; ; GUC=AQE"
  /\ Api2.cookies_of EmptyString = EmptyString.
Proof. repeat split; reflexivity. Qed.

Example iso_of_time_examples :
  Date.iso_of_time 0 = "1970-01-01T00:00:00.000Z"
  /\ Date.iso_of_time (-1) = "1969-12-31T23:59:59.999Z"
  /\ Date.iso_of_time 1709210096789 = "2024-02-29T12:34:56.789Z"
  /\ Date.iso_of_time Date.maxTime = "+275760-09-13T00:00:00.000Z"
  /\ Date.iso_of_time (- Date.maxTime) = "-271821-04-20T00:00:00.000Z".
Proof. repeat split; vm_compute; reflexivity. Qed.

Example parse_examples :
  Date.parse_iso "2025-03-07" = Some (Some 1741305600000)
  /\ Date.parse_iso "2024-02-29T12:34:56.789Z" = Some (Some 1709210096789)
  /\ Date.parse_iso "2025-02-30" = None
  /\ Date.parse_iso "March 7, 2025" = None.
Proof. repeat split; vm_compute; reflexivity. Qed.

(** One month before March 31 is "February 31", which [setMonth] reads as
    March 3; thirty days before is March 1. *)
Example cutoff_examples :
  cutoffTs CookieCrumbClient 1743379200000 (Fin 1) = Num.of_Z 1740960000
  /\ cutoffTs CrumbClient 1743379200000 (Fin 1) = Num.of_Z 1740787200.
Proof. split; vm_compute; reflexivity. Qed.

Example extractRaw_example :
  Shape.extractRaw
    (VArr [VObj [("organization", VStr "Vanguard");
                 ("pctHeld", VObj [("raw", VNum (Fin (9 # 100))); ("fmt", VStr "9.00%")]);
                 ("reportDate", VObj [("raw", VNum (Fin 1727654400));
                                      ("fmt", VStr "2024-09-30")])]])
  = VArr [VObj [("organization", VStr "Vanguard");
                ("pctHeld", VNum (Fin (9 # 100)));
                ("reportDate", VNum (Fin 1727654400))]].
Proof. reflexivity. Qed.

(** The sort is stable: records of the same date keep their order. *)
Example sort_stable_example :
  Sort.sort (fun a b => Num.sub (Num.of_Z (fst a)) (Num.of_Z (fst b)))
            [(2, "x"); (1, "y"); (2, "z"); (1, "w")]
  = [(1, "y"); (1, "w"); (2, "x"); (2, "z")].
Proof. vm_compute. reflexivity. Qed.

(* ================================================================== *)
(** * What a call sends, and what it does to the cache *)

Module TraceFacts.

Lemma requests_event (e : Event) (w : World) :
  requests (record_event e w)
  = match e with EvFetch r => r :: requests w | _ => requests w end.
Proof. now destruct e. Qed.

Lemma obtain_crumb_trace (env : Env) (n : Z) (cookies : string) (w0 w1 : World)
      (r : Result (option Credentials)) :
  Api.obtain_crumb n cookies env w0 = (r, w1) ->
  requests w1 = Api.crumb_request cookies :: requests w0
  /\ (cache_of w1 = cache_of w0 /\ (r = Ok None \/ exists e, r = Throw e)
      \/ exists a, r = Ok (Some a) /\ cookie a = cookies
           /\ accepted_crumb (crumb a) = true
           /\ cache_of w1 = (Some (crumb a), Some cookies, n + 30 * 60 * 1000)).
Proof.
  intros H. unfold Api.obtain_crumb in H. unfold_m. simpl in H.
  repeat (case_step H; try discriminate); injection H as ? ?; subst;
    (split; [reflexivity|]); eauto.
  right. eexists. repeat split. simpl. unfold accepted_crumb. now rewrite Hb0.
Qed.

Lemma obtain_cookies_trace (env : Env) (w0 w1 : World) (r : Result string) :
  Api.obtain_cookies env w0 = (r, w1) ->
  cache_of w1 = cache_of w0
  /\ (requests w1 = Api.fc_request :: requests w0
      \/ requests w1 = Api.finance_request :: Api.fc_request :: requests w0).
Proof.
  unfold Api.obtain_cookies. unfold_m. intros H.
  repeat (case_step H; try discriminate); injection H as ? ?; subst;
    (split; [reflexivity|]); auto.
Qed.

(** The whole of a call of [getCrumb]. *)
Lemma getCrumb_trace (env : Env) (w w1 : World) (r : Result (option Credentials)) :
  Api.getCrumb env w = (r, w1) ->
  exists rs,
    requests w1 = (rs ++ requests w)%list
    /\ crumb_handshake rs
    /\ (exists o, r = Ok o)
    /\ (cache_of w1 = cache_of w
        \/ exists a, r = Ok (Some a)
             /\ cached w (clock env (events w)) = None
             /\ accepted_crumb (crumb a) = true
             /\ cache_of w1 = (Some (crumb a), Some (cookie a),
                               clock env (events w) + 30 * 60 * 1000)).
Proof.
  intros H. unfold Api.getCrumb in H.
  unfold bind at 1 2 in H. unfold Date_now, read_world in H.
  cbn [events record_event] in H. rewrite cached_record_event in H.
  destruct (cached w (clock env (events w))) as [auth|] eqn:Hcached.
  - unfold ret in H. injection H as <- <-. exists []. repeat split; eauto.
    now left.
  - unfold try_catch, Api.handshake in H. unfold bind at 1 in H.
    destruct (Api.obtain_cookies env (record_event EvNow w)) as [[cookies|e] wc]
      eqn:Hck.
    + apply obtain_cookies_trace in Hck as [Hcache Hreq].
      rewrite requests_event in Hreq.
      destruct (negb (Str.nonempty cookies)) eqn:Hne.
      * unfold_m. injection H as <- <-.
        destruct Hreq as [Hreq|Hreq];
          [exists [Api.fc_request]|exists [Api.finance_request; Api.fc_request]];
          (split; [unfold requests in *; simpl; exact Hreq|]);
          (split; [unfold crumb_handshake; tauto|]);
          (split; [eauto|]); left; exact Hcache.
      * apply negb_false_iff in Hne.
        destruct (Api.obtain_crumb (clock env (events w)) cookies env wc)
          as [[o|e] w2] eqn:Hcr.
        -- injection H as <- <-.
           apply obtain_crumb_trace in Hcr as [Hreq2 Hstore].
           assert (Hshape : exists rs, requests w2 = (rs ++ requests w)%list
                                       /\ crumb_handshake rs).
           { destruct Hreq as [Hreq|Hreq]; rewrite Hreq in Hreq2.
             - exists [Api.crumb_request cookies; Api.fc_request].
               split; [exact Hreq2|]. unfold crumb_handshake. eauto 8.
             - exists [Api.crumb_request cookies; Api.finance_request;
                       Api.fc_request].
               split; [exact Hreq2|]. unfold crumb_handshake. eauto 8. }
           destruct Hshape as (rs & Hrs & Hsh). exists rs.
           repeat split; eauto.
           destruct Hstore as [[Hc _]|(a & -> & Hck' & Hacc & Hc)].
           ++ left. rewrite Hc, Hcache. reflexivity.
           ++ right. exists a. subst cookies. repeat split; auto.
        -- apply obtain_crumb_trace in Hcr as [Hreq2 Hstore].
           unfold_m. injection H as <- <-.
           assert (Hshape : exists rs, requests w2 = (rs ++ requests w)%list
                                       /\ crumb_handshake rs).
           { destruct Hreq as [Hreq|Hreq]; rewrite Hreq in Hreq2.
             - exists [Api.crumb_request cookies; Api.fc_request].
               split; [exact Hreq2|]. unfold crumb_handshake. eauto 8.
             - exists [Api.crumb_request cookies; Api.finance_request;
                       Api.fc_request].
               split; [exact Hreq2|]. unfold crumb_handshake. eauto 8. }
           destruct Hshape as (rs & Hrs & Hsh). exists rs.
           split; [exact Hrs|]. repeat split; eauto.
           destruct Hstore as [[Hc _]|(a & [=] & _)].
           left. change (cache_of w2 = cache_of w).
           rewrite Hc, Hcache. reflexivity.
    + apply obtain_cookies_trace in Hck as [Hcache Hreq].
      rewrite requests_event in Hreq.
      unfold_m. injection H as <- <-.
      destruct Hreq as [Hreq|Hreq];
        [exists [Api.fc_request]|exists [Api.finance_request; Api.fc_request]];
        (split; [unfold requests in *; simpl; exact Hreq|]);
        (split; [unfold crumb_handshake; tauto|]);
        (split; [eauto|]); left; exact Hcache.
Qed.

(** The whole of a call of [getCookieAndCrumb]. *)
Lemma getCookieAndCrumb_trace (env : Env) (w w1 : World) (r : Result Credentials) :
  Api2.getCookieAndCrumb env w = (r, w1) ->
  exists rs,
    requests w1 = (rs ++ requests w)%list
    /\ cookie_crumb_handshake rs
    /\ (cache_of w1 = cache_of w
        \/ exists a, r = Ok a
             /\ cached w (clock env (events w)) = None
             /\ cache_of w1 = (Some (crumb a), Some (cookie a),
                               clock env (events w) + 30 * 60 * 1000)).
Proof.
  intros H. unfold Api2.getCookieAndCrumb, Api2.handshake in H.
  unfold_m. cbn [events record_event] in H. rewrite cached_record_event in H.
  destruct (cached w (clock env (events w))) as [auth|] eqn:Hcached.
  - injection H as <- <-. exists []. repeat split; [left; reflexivity|now left].
  - simpl in H.
    repeat (case_step H; try discriminate); injection H as ? ?; subst.
    + exists [Api2.home_request]. repeat split; [right; now left|now left].
    + apply negb_false_iff in Hb.
      exists [Api2.crumb_request (Api2.home_cookies resp); Api2.home_request].
      repeat split; [right; right; eauto|now left].
    + apply negb_false_iff in Hb.
      exists [Api2.crumb_request (Api2.home_cookies resp); Api2.home_request].
      repeat split; [right; right; eauto|].
      right. eexists. repeat split.
    + apply negb_false_iff in Hb.
      exists [Api2.crumb_request (Api2.home_cookies resp); Api2.home_request].
      repeat split; [right; right; eauto|now left].
    + exists [Api2.home_request]. repeat split; [right; now left|now left].
Qed.

(** The credential routine of either client. *)
Lemma acquire_trace (c : Client) (env : Env) (w w1 : World)
      (r : Result (option Credentials)) :
  acquire c env w = (r, w1) ->
  exists rs,
    requests w1 = (rs ++ requests w)%list
    /\ handshake_requests c rs
    /\ (cache_of w1 = cache_of w
        \/ exists a, r = Ok (Some a)
             /\ cached w (clock env (events w)) = None
             /\ cache_of w1 = (Some (crumb a), Some (cookie a),
                               clock env (events w) + 30 * 60 * 1000)).
Proof.
  destruct c; simpl; intros H.
  - apply getCrumb_trace in H as (rs & Hrs & Hsh & _ & Hc). exists rs.
    repeat split; auto.
    destruct Hc as [Hc|(a & -> & Hm & _ & Hc)]; [now left|right; eauto].
  - unfold bind, ret in H.
    destruct (Api2.getCookieAndCrumb env w) as [[a|e] w'] eqn:H2;
      injection H as <- <-;
      apply getCookieAndCrumb_trace in H2 as (rs & Hrs & Hsh & Hc);
      exists rs; repeat split; auto.
    + destruct Hc as [Hc|(a' & [= <-] & Hm & Hc)]; [now left|right; eauto].
    + destruct Hc as [Hc|(a' & [=] & _)]. now left.
Qed.

(** A call that misses the cache sends at least one request, and when it
    returns a pair the last request it sent is the crumb request with the
    cookies of the pair. *)
Lemma getCrumb_miss_sends (env : Env) (w w1 : World)
      (r : Result (option Credentials)) :
  cached w (clock env (events w)) = None ->
  Api.getCrumb env w = (r, w1) ->
  (List.length (requests w) < List.length (requests w1))%nat
  /\ (forall a, r = Ok (Some a) ->
                hd_error (requests w1) = Some (Api.crumb_request (cookie a))).
Proof.
  intros Hmiss H. rewrite (getCrumb_miss env w Hmiss) in H.
  unfold try_catch, Api.handshake, Api.obtain_cookies, Api.obtain_crumb in H.
  unfold_m. simpl in H.
  repeat (case_step H); injection H as <- <-;
    (split; [unfold requests; simpl; lia|]);
    intros a [=]; subst; reflexivity.
Qed.

Lemma getCookieAndCrumb_miss_sends (env : Env) (w w1 : World)
      (r : Result Credentials) :
  cached w (clock env (events w)) = None ->
  Api2.getCookieAndCrumb env w = (r, w1) ->
  (List.length (requests w) < List.length (requests w1))%nat
  /\ (forall a, r = Ok a ->
                hd_error (requests w1) = Some (Api2.crumb_request (cookie a))).
Proof.
  intros Hmiss H. rewrite (getCookieAndCrumb_miss env w Hmiss) in H.
  unfold Api2.handshake in H. unfold_m. simpl in H.
  repeat (case_step H); injection H as <- <-;
    (split; [unfold requests; simpl; lia|]);
    intros a [=]; subst; reflexivity.
Qed.

Lemma acquire_miss_sends (c : Client) (env : Env) (w w1 : World)
      (r : Result (option Credentials)) :
  cached w (clock env (events w)) = None ->
  acquire c env w = (r, w1) ->
  (List.length (requests w) < List.length (requests w1))%nat
  /\ (forall a, r = Ok (Some a) ->
                hd_error (requests w1) = Some (crumb_request_of c (cookie a))).
Proof.
  intros Hmiss. destruct c; simpl.
  - now apply getCrumb_miss_sends.
  - unfold bind, ret.
    destruct (Api2.getCookieAndCrumb env w) as [[a|e] w'] eqn:H;
      intros [= <- <-];
      apply (getCookieAndCrumb_miss_sends env w _ _ Hmiss) in H as [Hlen Hhd];
      (split; [exact Hlen|]); intros a' [=]; subst; now apply Hhd.
Qed.

End TraceFacts.

(* ================================================================== *)
(** * The requests of [fetchYahoo] and of the tool functions *)

Module FetchFacts.

Import TraceFacts.

(** What [fetchYahoo] is about to send, by the outcome of the credential
    routine. *)
Lemma outgoing_plain (c : Client) (url : string) (env : Env) (w : World) :
  outgoing c url false env w = (Ok (url, HEADERS), w).
Proof. now destruct c. Qed.

Lemma outgoing_acquire (c : Client) (url : string) (env : Env) (w w0 : World)
      (ra : Result (option Credentials)) :
  acquire c env w = (ra, w0) ->
  outgoing c url true env w
  = (match ra with
     | Ok (Some a) => Ok (with_crumb url (crumb a),
                          set_header "Cookie" (cookie a) HEADERS)
     | Ok None => Ok (url, HEADERS)
     | Throw e => Throw e
     end, w0).
Proof.
  destruct c; simpl; unfold Api.outgoing, Api2.outgoing, bind, ret.
  - intros ->. now destruct ra as [[a|]|e].
  - destruct (Api2.getCookieAndCrumb env w) as [[a|e] w']; now intros [= <- <-].
Qed.

(** [fetchYahoo] sends what [outgoing] prepared, once, and gives back the
    response when it is [ok]. *)
Lemma fetchYahoo_trace (c : Client) (url : string) (b : bool) (env : Env)
      (w w1 : World) (r : Result Response) :
  fetchYahoo c url b env w = (r, w1) ->
  (exists e, outgoing c url b env w = (Throw e, w1) /\ r = Throw e)
  \/ exists target w0,
       outgoing c url b env w = (Ok target, w0)
       /\ w1 = record_event (EvFetch (data_request target)) w0
       /\ match net env (events w0) (data_request target) with
          | Responded resp => r = if ok resp then Ok resp
                                  else Throw (http_error c resp)
          | Rejected e => r = Throw e
          end.
Proof.
  intros H.
  assert (Hf : fetchYahoo c url b env w
               = bind (outgoing c url b)
                   (fun target =>
                      bind (fetch (data_request target))
                        (fun response =>
                           if negb (ok response)
                           then throw (http_error c response)
                           else ret response)) env w) by now destruct c.
  rewrite Hf in H. clear Hf. unfold bind at 1 in H.
  destruct (outgoing c url b env w) as [[target|e] w0].
  - right. exists target, w0. split; [reflexivity|].
    unfold bind, fetch in H.
    destruct (net env (events w0) (data_request target)) as [resp|e].
    + destruct (ok resp); simpl in H; unfold throw, ret in H;
        injection H as <- <-; auto.
    + injection H as <- <-. auto.
  - left. exists e. injection H as <- <-. auto.
Qed.

(** Past its call of [fetchYahoo] a tool function sends nothing and
    leaves the cache alone. *)
Lemma tool_try_trace (c : Client) (t : ToolCall) (env : Env) (w w1 : World)
      (r : Result Payload) :
  tool_try c t env w = (r, w1) ->
  exists r0 w0,
    fetchYahoo c (fst (tool_request (runtime env) c t))
               (snd (tool_request (runtime env) c t)) env w = (r0, w0)
    /\ requests w1 = requests w0 /\ cache_of w1 = cache_of w0
    /\ (forall e, r0 = Throw e -> r = Throw e).
Proof.
  destruct t as [ticker period interval|ticker|ticker|ticker|ticker ft|ticker ht
                 |ticker|ticker d ot|ticker rtype mb]; intros H;
    try destruct ft; try destruct ht;
    unfold tool_try, try_getHistoricalStockPrices, try_getStockInfo,
      try_getYahooFinanceNews, try_getStockActions, try_getFinancialStatement,
      try_getHolderInfo, try_getOptionExpirationDates, try_getOptionChain,
      try_getRecommendations, fetch_json, bind, read_runtime, lift in H;
    tool_norm;
    match type of H with
    | context [fetchYahoo c ?u ?b env w] =>
        destruct (fetchYahoo c u b env w) as [[resp|e] w0]
    end;
    try (injection H as <- <-; eexists; eexists;
         repeat split; try reflexivity; congruence);
    try (destruct (body_json resp) as [data|e];
         [|injection H as <- <-; eexists; eexists;
           repeat split; try reflexivity; congruence]).
  all: try (injection H as <- <-; eexists; eexists;
            repeat split; try reflexivity; congruence).
  destruct (Shape.unwrap (runtime env) "quoteSummary" ticker data) as [[text|result]|e];
    try (injection H as <- <-; eexists; eexists;
         repeat split; try reflexivity; congruence).
  destruct rtype; unfold ret, Date_now in H;
    injection H as <- <-; eexists; eexists;
    repeat split; try reflexivity; congruence.
Qed.

Lemma call_tool_trace (c : Client) (t : ToolCall) (env : Env) (w w1 : World)
      (p : Result Payload) :
  call_tool c t env w = (p, w1) ->
  exists r0 w0,
    fetchYahoo c (fst (tool_request (runtime env) c t))
               (snd (tool_request (runtime env) c t)) env w = (r0, w0)
    /\ requests w1 = requests w0 /\ cache_of w1 = cache_of w0
    /\ (forall e, r0 = Throw e ->
                  p = Ok (Text ("Error: " ++ Js.error_to_string e))).
Proof.
  rewrite call_tool_catch. unfold try_catch. intros H.
  destruct (tool_try c t env w) as [[q|e] w'] eqn:Htry;
    apply tool_try_trace in Htry as (r0 & w0 & Hf & Hr & Hc & Hthrow);
    exists r0, w0; unfold error_payload, ret in H; injection H as <- <-;
    repeat split; auto; intros e' He'; specialize (Hthrow e' He');
    [discriminate|injection Hthrow as ->; reflexivity].
Qed.

(** The URL of every tool call starts with one of the two API origins,
    and so does the URL with the crumb appended. *)
Lemma tool_url_origin (rt : Runtime) (c : Client) (t : ToolCall) (more : string) :
  yahoo_origin (fst (tool_request rt c t) ++ more) = true.
Proof.
  destruct t; reflexivity.
Qed.

Lemma handshake_origin (c : Client) (rs : list Request) :
  handshake_requests c rs ->
  Forall (fun q => yahoo_origin (req_url q) = true) rs
  /\ (List.length rs <= match c with CrumbClient => 3 | CookieCrumbClient => 2 end)%nat.
Proof.
  destruct c; simpl.
  - intros [-> | [-> | [-> | (ck & _ & [-> | ->])]]]; split; simpl; try lia;
      repeat constructor.
  - intros [-> | [-> | (ck & _ & ->)]]; split; simpl; try lia; repeat constructor.
Qed.

(** The requests of a call of [fetchYahoo]: those of a handshake, then at
    most one more, to the URL asked for or to it with the crumb. *)
Lemma fetchYahoo_requests (c : Client) (url : string) (b : bool) (env : Env)
      (w w1 : World) (r : Result Response) :
  fetchYahoo c url b env w = (r, w1) ->
  exists hs,
    handshake_requests c hs
    /\ (b = false -> hs = [])
    /\ (requests w1 = (hs ++ requests w)%list /\ (exists e, r = Throw e)
        /\ c = CookieCrumbClient
        \/ exists q more,
             req_url q = url ++ more
             /\ requests w1 = (q :: hs ++ requests w)%list).
Proof.
  intros H. apply fetchYahoo_trace in H.
  assert (Hnil : handshake_requests c []) by (destruct c; now left).
  destruct b.
  - destruct (acquire c env w) as [ra wa] eqn:Hacq.
    rewrite (outgoing_acquire c url env w wa ra Hacq) in H.
    pose proof Hacq as Htr.
    apply acquire_trace in Htr as (hs & Hreq & Hsh & _).
    exists hs. split; [exact Hsh|]. split; [discriminate|].
    destruct H as [(e & Hout & ->)|(target & w0 & Hout & -> & _)].
    + left. injection Hout as Hra <-. split; [exact Hreq|]. split; [eauto|].
      destruct c; [|reflexivity].
      simpl in Hacq. apply getCrumb_trace in Hacq as (_ & _ & _ & (o & ->) & _).
      destruct o; discriminate.
    + right. injection Hout as Hra <-.
      rewrite requests_event, Hreq.
      destruct ra as [[a|]|e]; [| |discriminate]; injection Hra as <-.
      * eexists. eexists. split; [|reflexivity]. reflexivity.
      * eexists. exists EmptyString. split; [|reflexivity].
        simpl. clear. induction url; simpl; congruence.
  - rewrite outgoing_plain in H. exists []. split; [exact Hnil|]. split; [reflexivity|].
    destruct H as [(e & [=] & _)|(target & w0 & [= <- <-] & -> & _)].
    right. eexists. exists EmptyString. split; [|reflexivity].
    simpl. clear. induction url; simpl; congruence.
Qed.

End FetchFacts.

(* ================================================================== *)
(** * The credential routines and the requests of a tool call *)

(** X1. The cache changes on a successful handshake and only then: a
    call of the credential routine of either client that missed the cache
    and returns a pair leaves that pair in [cachedCrumb] and
    [cachedCookie], to expire 30 minutes after the clock value the call
    read; every other call (a cache hit, [null] from [getCrumb], an
    exception from [getCookieAndCrumb]) leaves the three variables as they
    were. *)
Theorem credential_cache_frame (c : Client) (env : Env) (w w1 : World)
        (r : Result (option Credentials)) :
  acquire c env w = (r, w1) ->
  (forall a, r = Ok (Some a) -> cached w (clock env (events w)) = None ->
             cache_of w1 = (Some (crumb a), Some (cookie a),
                            clock env (events w) + 30 * 60 * 1000))
  /\ ((forall a, r <> Ok (Some a)) \/ cached w (clock env (events w)) <> None ->
      cache_of w1 = cache_of w).
Proof.
  intros H. split.
  - intros a -> Hmiss. apply acquire_success in H as [Hhit Hexp].
    apply cached_sound in Hhit as (Hcr & Hck & _).
    unfold cache_of. now rewrite Hcr, Hck, (Hexp Hmiss).
  - intros Hother.
    apply TraceFacts.acquire_trace in H as (rs & _ & _ & [Hsame|(a & -> & Hmiss & _)]);
      [exact Hsame|].
    destruct Hother as [Hno|Hhit]; [now destruct (Hno a)|contradiction].
Qed.

Lemma credential_cache_frame_witness :
  let env := Scenario.serving Scenario.not_found 1000 in
  let out := acquire CookieCrumbClient env initial_world in
  (forall a, fst out = Ok (Some a) ->
             cached initial_world (clock env (events initial_world)) = None ->
             cache_of (snd out)
             = (Some (crumb a), Some (cookie a),
                clock env (events initial_world) + 30 * 60 * 1000))
  /\ ((forall a, fst out <> Ok (Some a))
      \/ cached initial_world (clock env (events initial_world)) <> None ->
      cache_of (snd out) = cache_of initial_world).
Proof.
  intros env out.
  apply (credential_cache_frame CookieCrumbClient env initial_world (snd out)
           (fst out)).
  vm_compute. reflexivity.
Defined.

(** X2. Order and number of the handshake requests. A call of the
    credential routine sends nothing on a cache hit. On a miss [getCrumb]
    starts with the request to fc.yahoo.com, asks finance.yahoo.com only
    after it, and sends the crumb request last and only with a non-empty
    [Cookie] header: between one and three requests; [getCookieAndCrumb]
    sends the main page request, then the crumb request if it has a
    non-empty [Cookie] header for it. A pair is returned on a miss only
    after the crumb request with the cookies of the pair. *)
Theorem handshake_request_order (c : Client) (env : Env) (w w1 : World)
        (r : Result (option Credentials)) :
  acquire c env w = (r, w1) ->
  exists rs,
    requests w1 = (rs ++ requests w)%list
    /\ (cached w (clock env (events w)) <> None -> rs = [])
    /\ (cached w (clock env (events w)) = None ->
        match c with
        | CrumbClient =>
            rs = [Api.fc_request]
            \/ rs = [Api.finance_request; Api.fc_request]
            \/ exists cookies,
                 Str.nonempty cookies = true
                 /\ (rs = [Api.crumb_request cookies; Api.fc_request]
                     \/ rs = [Api.crumb_request cookies; Api.finance_request;
                              Api.fc_request])
        | CookieCrumbClient =>
            rs = [Api2.home_request]
            \/ exists cookies,
                 Str.nonempty cookies = true
                 /\ rs = [Api2.crumb_request cookies; Api2.home_request]
        end)
    /\ (forall a, r = Ok (Some a) -> cached w (clock env (events w)) = None ->
                  exists more, rs = crumb_request_of c (cookie a) :: more).
Proof.
  intros H. pose proof H as Htrace.
  apply TraceFacts.acquire_trace in Htrace as (rs & Hrs & Hsh & _).
  exists rs. split; [exact Hrs|].
  assert (Hsent : cached w (clock env (events w)) = None -> rs <> []).
  { intros Hmiss ->.
    apply (TraceFacts.acquire_miss_sends c env w w1 r Hmiss) in H as [Hlen _].
    rewrite Hrs in Hlen. simpl in Hlen. lia. }
  split; [|split].
  - intros Hhit.
    destruct (cached w (clock env (events w))) as [a|] eqn:Hc; [|contradiction].
    rewrite (acquire_hit c env w a Hc) in H. injection H as _ <-.
    change (requests (record_event EvNow w)) with ([] ++ requests w)%list in Hrs.
    now apply app_inv_tail in Hrs.
  - intros Hmiss. specialize (Hsent Hmiss).
    destruct c; cbn [handshake_requests] in Hsh.
    + destruct Hsh as [-> | Hsh]; [contradiction|exact Hsh].
    + destruct Hsh as [-> | Hsh]; [contradiction|exact Hsh].
  - intros a Hr Hmiss. specialize (Hsent Hmiss).
    apply (TraceFacts.acquire_miss_sends c env w w1 r Hmiss) in H as [_ Hhd].
    specialize (Hhd a Hr). rewrite Hrs in Hhd.
    destruct rs as [|q more]; [contradiction|].
    injection Hhd as ->. now exists more.
Qed.

Lemma handshake_request_order_witness :
  let env := Scenario.serving Scenario.not_found 1000 in
  let out := acquire CrumbClient env initial_world in
  exists rs,
    requests (snd out) = (rs ++ requests initial_world)%list
    /\ (cached initial_world (clock env (events initial_world)) <> None -> rs = [])
    /\ (cached initial_world (clock env (events initial_world)) = None ->
        rs = [Api.fc_request]
        \/ rs = [Api.finance_request; Api.fc_request]
        \/ exists cookies,
             Str.nonempty cookies = true
             /\ (rs = [Api.crumb_request cookies; Api.fc_request]
                 \/ rs = [Api.crumb_request cookies; Api.finance_request;
                          Api.fc_request]))
    /\ (forall a, fst out = Ok (Some a) ->
                  cached initial_world (clock env (events initial_world)) = None ->
                  exists more, rs = Api.crumb_request (cookie a) :: more).
Proof.
  intros env out.
  apply (handshake_request_order CrumbClient env initial_world (snd out) (fst out)).
  vm_compute. reflexivity.
Defined.

(** X3. A tool call never retries: it only adds requests to those sent
    before, at most four with the first client (three of the handshake and
    the data request) and at most three with the second. *)
Theorem tool_request_budget (c : Client) (t : ToolCall) (env : Env) (w w1 : World)
        (p : Result Payload) :
  call_tool c t env w = (p, w1) ->
  exists rs,
    requests w1 = (rs ++ requests w)%list
    /\ (List.length rs <= match c with
                          | CrumbClient => 4
                          | CookieCrumbClient => 3
                          end)%nat.
Proof.
  intros H.
  apply FetchFacts.call_tool_trace in H as (r0 & w0 & Hf & Hr & _ & _).
  apply FetchFacts.fetchYahoo_requests in Hf as (hs & Hsh & _ & Hshape).
  apply FetchFacts.handshake_origin in Hsh as [_ Hlen].
  destruct Hshape as [(Hreq & _ & _)|(q & more & _ & Hreq)]; rewrite Hr, Hreq.
  - exists hs. split; [reflexivity|]. destruct c; lia.
  - exists (q :: hs). split; [reflexivity|]. simpl. destruct c; lia.
Qed.

Lemma tool_request_budget_witness :
  let env := Scenario.serving Scenario.not_found 1000 in
  let out := call_tool CrumbClient (get_stock_info "AAPL") env initial_world in
  exists rs,
    requests (snd out) = (rs ++ requests initial_world)%list
    /\ (List.length rs <= 4)%nat.
Proof.
  intros env out.
  apply (tool_request_budget CrumbClient (get_stock_info "AAPL") env
           initial_world (snd out) (fst out)).
  vm_compute. reflexivity.
Defined.

(** X4. A tool call talks to Yahoo only: whatever the ticker and the other
    arguments, every request it sends goes to https://fc.yahoo.com, to
    https://finance.yahoo.com or to a path of
    https://query1.finance.yahoo.com or https://query2.finance.yahoo.com. *)
Theorem tool_requests_stay_on_yahoo (c : Client) (t : ToolCall) (env : Env)
        (w w1 : World) (p : Result Payload) :
  call_tool c t env w = (p, w1) ->
  exists rs,
    requests w1 = (rs ++ requests w)%list
    /\ Forall (fun q => yahoo_origin (req_url q) = true) rs.
Proof.
  intros H.
  apply FetchFacts.call_tool_trace in H as (r0 & w0 & Hf & Hr & _ & _).
  apply FetchFacts.fetchYahoo_requests in Hf as (hs & Hsh & _ & Hshape).
  apply FetchFacts.handshake_origin in Hsh as [Hall _].
  destruct Hshape as [(Hreq & _ & _)|(q & more & Hq & Hreq)]; rewrite Hr, Hreq.
  - exists hs. split; [reflexivity|exact Hall].
  - exists (q :: hs). split; [reflexivity|]. constructor; [|exact Hall].
    rewrite Hq. apply FetchFacts.tool_url_origin.
Qed.

Lemma tool_requests_stay_on_yahoo_witness :
  let env := Scenario.serving Scenario.not_found 1000 in
  let out := call_tool CookieCrumbClient
               (get_historical_stock_prices "x/../../evil?" "1mo" "1d")
               env initial_world in
  exists rs,
    requests (snd out) = (rs ++ requests initial_world)%list
    /\ Forall (fun q => yahoo_origin (req_url q) = true) rs.
Proof.
  intros env out.
  apply (tool_requests_stay_on_yahoo CookieCrumbClient
           (get_historical_stock_prices "x/../../evil?" "1mo" "1d") env
           initial_world (snd out) (fst out)).
  vm_compute. reflexivity.
Defined.



(** X6. Without credentials the first client still asks: when [getCrumb]
    returns [null], a tool that wanted the crumb sends its data request to
    the URL as it is, without crumb parameter and without [Cookie] header,
    and the cache stays as it was. *)
Theorem unauthenticated_fallback (t : ToolCall) (env : Env) (w w0 w1 : World)
        (p : Result Payload) :
  snd (tool_request (runtime env) CrumbClient t) = true ->
  Api.getCrumb env w = (Ok None, w0) ->
  call_tool CrumbClient t env w = (p, w1) ->
  requests w1
  = plain_request (fst (tool_request (runtime env) CrumbClient t)) :: requests w0
  /\ cache_of w1 = cache_of w.
Proof.
  intros Hcrumb Hnone H.
  apply FetchFacts.call_tool_trace in H as (r0 & w' & Hf & Hr & Hc & _).
  rewrite Hcrumb in Hf. apply FetchFacts.fetchYahoo_trace in Hf.
  rewrite (FetchFacts.outgoing_acquire CrumbClient _ env w w0 (Ok None) Hnone) in Hf.
  destruct Hf as [(e & [=] & _)|(target & wa & [= <- <-] & -> & _)].
  rewrite Hr, Hc. split; [reflexivity|].
  apply TraceFacts.getCrumb_trace in Hnone as (_ & _ & _ & _ & [Hsame|(a & [=] & _)]).
  exact Hsame.
Qed.

Lemma unauthenticated_fallback_witness :
  let env := Scenario.scripted Scenario.no_cookie Scenario.not_found
               Scenario.not_found 1000 in
  let t := get_stock_info "AAPL" in
  let out := call_tool CrumbClient t env initial_world in
  requests (snd out)
  = plain_request (fst (tool_request (runtime env) CrumbClient t))
      :: requests (snd (Api.getCrumb env initial_world))
  /\ cache_of (snd out) = cache_of initial_world.
Proof.
  intros env t out.
  apply (unauthenticated_fallback t env initial_world
           (snd (Api.getCrumb env initial_world)) (snd out) (fst out));
    vm_compute; reflexivity.
Defined.

(** X7. Without credentials the second client does not ask: when
    [getCookieAndCrumb] throws, a tool that wanted the crumb sends no data
    request and returns the line [Error: <the exception>], the cache being as
    it was. *)
Theorem handshake_failure_reported (t : ToolCall) (env : Env) (w w0 : World)
        (e : JsError) :
  snd (tool_request (runtime env) CookieCrumbClient t) = true ->
  Api2.getCookieAndCrumb env w = (Throw e, w0) ->
  call_tool CookieCrumbClient t env w
  = (Ok (Text ("Error: " ++ Js.error_to_string e)), w0)
  /\ cache_of w0 = cache_of w.
Proof.
  intros Hcrumb Hthrow. split.
  - apply tool_thrown_line, tool_try_fetch_throws. rewrite Hcrumb.
    simpl. unfold Api2.fetchYahoo, Api2.outgoing. unfold bind at 1 2.
    now rewrite Hthrow.
  - apply TraceFacts.getCookieAndCrumb_trace in Hthrow
      as (_ & _ & _ & [Hsame|(a & [=] & _)]).
    exact Hsame.
Qed.

Lemma handshake_failure_reported_witness :
  let env := Scenario.scripted Scenario.no_cookie Scenario.not_found
               Scenario.not_found 1000 in
  let w0 := snd (Api2.getCookieAndCrumb env initial_world) in
  call_tool CookieCrumbClient (get_stock_info "AAPL") env initial_world
  = (Ok (Text "Error: Error: Failed to get Yahoo cookie"), w0)
  /\ cache_of w0 = cache_of initial_world.
Proof.
  intros env w0.
  apply (handshake_failure_reported (get_stock_info "AAPL") env initial_world w0
           (Js.Error "Failed to get Yahoo cookie"));
    vm_compute; reflexivity.
Defined.

(** X8. [fetchYahoo] hands back successful responses only: a response it
    returns is the answer of the network to the one data request of the
    call, and its status is between 200 and 299. *)
Theorem fetchYahoo_returns_ok (c : Client) (url : string) (needsCrumb : bool)
        (env : Env) (w w1 : World) (response : Response) :
  fetchYahoo c url needsCrumb env w = (Ok response, w1) ->
  200 <= status response <= 299
  /\ exists target w0,
       outgoing c url needsCrumb env w = (Ok target, w0)
       /\ net env (events w0) (data_request target) = Responded response
       /\ w1 = record_event (EvFetch (data_request target)) w0.
Proof.
  intros H. apply FetchFacts.fetchYahoo_trace in H.
  destruct H as [(e & _ & [=])|(target & w0 & Hout & -> & Hnet)].
  destruct (net env (events w0) (data_request target)) as [resp|e] eqn:Hn;
    [|discriminate].
  destruct (ok resp) eqn:Hok; [|discriminate].
  injection Hnet as <-. split.
  - unfold ok in Hok. apply andb_true_iff in Hok as [H1 H2].
    apply Z.leb_le in H1, H2. lia.
  - exists target, w0. auto.
Qed.

Lemma fetchYahoo_returns_ok_witness :
  let page := Scenario.json_response (VObj []) in
  let env := Scenario.serving page 1000 in
  let out := fetchYahoo CrumbClient "https://x/y" true env initial_world in
  200 <= status page <= 299
  /\ exists target w0,
       outgoing CrumbClient "https://x/y" true env initial_world = (Ok target, w0)
       /\ net env (events w0) (data_request target) = Responded page
       /\ snd out = record_event (EvFetch (data_request target)) w0.
Proof.
  intros page env out.
  apply (fetchYahoo_returns_ok CrumbClient "https://x/y" true env initial_world
           (snd out) page).
  vm_compute. reflexivity.
Defined.

Section Sessions.

Variable env : Env.

Lemma call_tool_accepted (t : ToolCall) (w w1 : World) (p : Result Payload) :
  cache_accepted w -> call_tool CrumbClient t env w = (p, w1) -> cache_accepted w1.
Proof.
  intros Hacc H.
  apply FetchFacts.call_tool_trace in H as (r0 & w0 & Hf & _ & Hc & _).
  assert (Hw0 : cache_accepted w0).
  { apply FetchFacts.fetchYahoo_trace in Hf.
    destruct (snd (tool_request (runtime env) CrumbClient t)).
    - destruct (Api.getCrumb env w) as [ra wa] eqn:Hacq.
      rewrite (FetchFacts.outgoing_acquire CrumbClient _ env w wa ra Hacq) in Hf.
      apply TraceFacts.getCrumb_trace in Hacq as (_ & _ & _ & _ & Hstore).
      assert (Hwa : cache_accepted wa).
      { destruct Hstore as [Hsame|(a & _ & _ & Ha & Hnew)].
        - intros cr Hcr. apply Hacc. unfold cache_of in Hsame. congruence.
        - intros cr Hcr. unfold cache_of in Hnew. congruence. }
      destruct Hf as [(e & [= _ <-] & _)|(target & w' & [= _ <-] & -> & _)];
        exact Hwa.
    - rewrite FetchFacts.outgoing_plain in Hf.
      destruct Hf as [(e & [=] & _)|(target & w' & [= _ <-] & -> & _)].
      exact Hacc. }
  intros cr Hcr. apply Hw0. unfold cache_of in Hc. congruence.
Qed.

End Sessions.

(** X9. What the first client caches passed its validation: if the cached
    crumb, if any, is non-empty and contains neither ["<"] nor ["error"]
    (as in a freshly loaded module, which caches nothing), then so it is
    after any sequence of tool calls served one after the other. *)
Theorem accepted_crumb_invariant (calls : list ToolCall) (env : Env) (w w1 : World)
        (r : Result (list Payload)) :
  cache_accepted w ->
  session CrumbClient calls env w = (r, w1) ->
  cache_accepted w1.
Proof.
  revert w r w1. induction calls as [|t calls IH]; intros w r w1 Hacc H.
  - unfold session, ret in H. now injection H as _ <-.
  - cbn [session] in H. unfold bind at 1 in H.
    destruct (call_tool CrumbClient t env w) as [[p|e] w'] eqn:Hcall.
    + apply (call_tool_accepted env t w w' (Ok p) Hacc) in Hcall.
      unfold bind at 1 in H.
      destruct (session CrumbClient calls env w') as [[ps|e] w''] eqn:Hrest;
        unfold ret in H; injection H as _ <-; eapply IH; eauto.
    + injection H as _ <-.
      now apply (call_tool_accepted env t w w' (Throw e) Hacc).
Qed.

Lemma accepted_crumb_invariant_witness :
  let env := Scenario.serving Scenario.not_found 1000 in
  let calls := [get_stock_info "AAPL"; get_yahoo_finance_news "AAPL";
                get_option_expiration_dates "MSFT"] in
  cache_accepted (snd (session CrumbClient calls env initial_world)).
Proof.
  intros env calls.
  apply (accepted_crumb_invariant calls env initial_world _
           (fst (session CrumbClient calls env initial_world))).
  - intros cr Hcr. discriminate.
  - vm_compute. reflexivity.
Defined.

(* ================================================================== *)
(** * Strings: searching, splitting, trimming, escaping *)

Module StringFacts.

Lemma prefix_single (c x : ascii) (s : string) :
  String.prefix (String c EmptyString) (String x s) = Ascii.eqb x c.
Proof.
  simpl. destruct (ascii_dec c x) as [->|Hne].
  - rewrite Ascii.eqb_refl. now destruct s.
  - symmetry. apply Ascii.eqb_neq. congruence.
Qed.

(** Searching for one character. *)
Lemma includes_single (c : ascii) (s : string) :
  Str.includes (String c EmptyString) s
  = negb (all_chars (fun x => negb (Ascii.eqb x c)) s).
Proof.
  induction s as [|x s IH]; [reflexivity|].
  cbn [Str.includes all_chars]. rewrite prefix_single, IH.
  now destruct (Ascii.eqb x c).
Qed.

Lemma all_chars_app (p : ascii -> bool) (a b : string) :
  all_chars p (a ++ b) = all_chars p a && all_chars p b.
Proof.
  induction a as [|x a IH]; simpl; [reflexivity|].
  now rewrite IH, andb_assoc.
Qed.

Lemma all_chars_impl (p q : ascii -> bool) (s : string) :
  (forall c, p c = true -> q c = true) ->
  all_chars p s = true -> all_chars q s = true.
Proof.
  intros Hpq. induction s as [|x s IH]; simpl; [reflexivity|].
  intros H. apply andb_true_iff in H as [H1 H2].
  now rewrite (Hpq _ H1), IH.
Qed.

Lemma includes_single_app (c : ascii) (a b : string) :
  Str.includes (String c EmptyString) (a ++ b)
  = Str.includes (String c EmptyString) a || Str.includes (String c EmptyString) b.
Proof.
  rewrite !includes_single, all_chars_app. apply negb_andb.
Qed.

(** ** [split] *)

Lemma split_not_nil (sep : ascii) (s : string) : Str.split sep s <> [].
Proof.
  induction s as [|x s IH]; simpl; [discriminate|].
  destruct (Ascii.eqb x sep); [discriminate|].
  destruct (Str.split sep s); [contradiction|discriminate].
Qed.

Lemma split_app (sep : ascii) (a b : string) :
  Str.split sep (a ++ String sep b) = (Str.split sep a ++ Str.split sep b)%list.
Proof.
  induction a as [|x a IH]; simpl.
  - now rewrite Ascii.eqb_refl.
  - destruct (Ascii.eqb x sep); [now rewrite IH|].
    rewrite IH. pose proof (split_not_nil sep a) as Hne.
    destruct (Str.split sep a); [contradiction|reflexivity].
Qed.

(** The pieces of a split hold the characters of the string, the
    separator apart. *)
Lemma split_pieces (sep : ascii) (p : ascii -> bool) (s : string) :
  all_chars p s = true ->
  Forall (fun piece => all_chars (fun c => p c && negb (Ascii.eqb c sep)) piece = true)
         (Str.split sep s).
Proof.
  induction s as [|x s IH]; simpl; intros H.
  - repeat constructor.
  - apply andb_true_iff in H as [Hx Hs]. specialize (IH Hs).
    destruct (Ascii.eqb x sep) eqn:E.
    + constructor; [reflexivity|exact IH].
    + destruct (Str.split sep s) as [|piece rest]; [repeat constructor; simpl;
        now rewrite Hx, E|].
      inversion IH as [|? ? Hpiece Hrest]; subst.
      constructor; [|exact Hrest]. simpl. now rewrite Hx, E, Hpiece.
Qed.

(** ** [trim] *)

Lemma trim_start_chars (p : ascii -> bool) (s : string) :
  all_chars p s = true -> all_chars p (Str.trim_start s) = true.
Proof.
  induction s as [|x s IH]; simpl; [reflexivity|]. intros H.
  destruct (Str.is_space x); [|exact H].
  apply andb_true_iff in H as [_ H]. now apply IH.
Qed.

Lemma trim_end_chars (p : ascii -> bool) (s : string) :
  all_chars p s = true -> all_chars p (Str.trim_end s) = true.
Proof.
  induction s as [|x s IH]; simpl; [reflexivity|]. intros H.
  apply andb_true_iff in H as [Hx H]. specialize (IH H).
  destruct (Str.trim_end s) as [|y t].
  - destruct (Str.is_space x); simpl; [reflexivity|now rewrite Hx].
  - cbn [all_chars] in *. now rewrite Hx, IH.
Qed.

Lemma trim_chars (p : ascii -> bool) (s : string) :
  all_chars p s = true -> all_chars p (Str.trim s) = true.
Proof. intros H. now apply trim_end_chars, trim_start_chars. Qed.

Lemma trim_end_idem (s : string) : Str.trim_end (Str.trim_end s) = Str.trim_end s.
Proof.
  induction s as [|x s IH]; [reflexivity|]. cbn [Str.trim_end].
  destruct (Str.trim_end s) as [|y t] eqn:E.
  - destruct (Str.is_space x) eqn:Hx; [reflexivity|]. simpl. now rewrite Hx.
  - cbn [Str.trim_end]. cbn [Str.trim_end] in IH.
    destruct (Str.trim_end t) as [|z u] eqn:Et.
    + destruct (Str.is_space y) eqn:Hy; [discriminate|]. now rewrite IH.
    + now rewrite IH.
Qed.

Lemma trim_start_clean (s : string) : starts_clean (Str.trim_start s).
Proof.
  induction s as [|x s IH]; simpl; [exact I|].
  destruct (Str.is_space x) eqn:Hx; [exact IH|exact Hx].
Qed.

Lemma trim_end_clean (s : string) : starts_clean s -> starts_clean (Str.trim_end s).
Proof.
  destruct s as [|x s]; simpl; [auto|]. intros Hx.
  destruct (Str.trim_end s); [rewrite Hx|]; exact Hx.
Qed.

Lemma trim_start_of_clean (s : string) : starts_clean s -> Str.trim_start s = s.
Proof. destruct s as [|x s]; simpl; [auto|]. now intros ->. Qed.

Lemma trim_idem (s : string) : Str.trim (Str.trim s) = Str.trim s.
Proof.
  unfold Str.trim.
  rewrite (trim_start_of_clean (Str.trim_end (Str.trim_start s))).
  - apply trim_end_idem.
  - apply trim_end_clean, trim_start_clean.
Qed.

(** ** [join] *)

Lemma join_cons (sep x : string) (rest : list string) :
  rest <> [] -> Str.join sep (x :: rest) = x ++ sep ++ Str.join sep rest.
Proof. destruct rest; [contradiction|reflexivity]. Qed.

Lemma append_assoc (a b c : string) : (a ++ b) ++ c = a ++ b ++ c.
Proof. induction a as [|x a IH]; simpl; [reflexivity|now rewrite IH]. Qed.

Lemma append_nil_r (a : string) : a ++ EmptyString = a.
Proof. induction a as [|x a IH]; simpl; [reflexivity|now rewrite IH]. Qed.

Lemma join_app (sep : string) (l1 l2 : list string) :
  l1 <> [] -> l2 <> [] ->
  Str.join sep (l1 ++ l2) = Str.join sep l1 ++ sep ++ Str.join sep l2.
Proof.
  intros H1 H2. induction l1 as [|x l1 IH]; [contradiction|].
  destruct l1 as [|y l1].
  - simpl. destruct l2; [contradiction|reflexivity].
  - change ((x :: y :: l1) ++ l2)%list with (x :: ((y :: l1) ++ l2))%list.
    rewrite join_cons by discriminate. rewrite IH by discriminate.
    rewrite (join_cons sep x (y :: l1)) by discriminate.
    now rewrite !append_assoc.
Qed.

Lemma join_nonempty (sep : string) (l : list string) :
  Forall (fun p => Str.nonempty p = true) l ->
  Str.join sep l = EmptyString -> l = [].
Proof.
  destruct l as [|x l]; [reflexivity|]. intros H. inversion H as [|? ? Hx _]; subst.
  destruct x as [|c x]; [discriminate|].
  destruct l; simpl; discriminate.
Qed.

(** ** [encodeURIComponent] *)

Lemma hex_digit_safe (n : N) : (n < 16)%N -> Uri.unreserved (Uri.hex_digit n) = true.
Proof.
  intros H. destruct n as [|p]; [reflexivity|].
  do 4 (destruct p as [p|p|]; try reflexivity); lia.
Qed.

Lemma hex_value_digit (n : N) : (n < 16)%N -> hex_value (Uri.hex_digit n) = n.
Proof.
  intros H. destruct n as [|p]; [reflexivity|].
  do 4 (destruct p as [p|p|]; try reflexivity); lia.
Qed.

Lemma ascii_bound (c : ascii) : (N_of_ascii c < 256)%N.
Proof. apply N_ascii_bounded. Qed.

Lemma percent_safe (c : ascii) : all_chars uri_safe (Uri.percent c) = true.
Proof.
  pose proof (ascii_bound c) as Hc. unfold Uri.percent. cbn [all_chars].
  unfold uri_safe at 2 3.
  rewrite !hex_digit_safe; [reflexivity| |].
  - apply N.mod_lt. discriminate.
  - apply N.Div0.div_lt_upper_bound. exact Hc.
Qed.

Lemma encode_safe (s : string) : all_chars uri_safe (Uri.encodeURIComponent s) = true.
Proof.
  induction s as [|c s IH]; [reflexivity|]. cbn [Uri.encodeURIComponent].
  rewrite all_chars_app, IH, andb_true_r.
  destruct (Uri.unreserved c) eqn:Hc; [|apply percent_safe].
  simpl. unfold uri_safe. now rewrite Hc.
Qed.

(** No character that is not [uri_safe] occurs in an encoded string. *)
Lemma encode_excludes (c : ascii) (s : string) :
  uri_safe c = false ->
  Str.includes (String c EmptyString) (Uri.encodeURIComponent s) = false.
Proof.
  intros Hc. rewrite includes_single. apply negb_false_iff.
  apply (all_chars_impl uri_safe); [|apply encode_safe].
  intros x Hx. apply negb_true_iff. apply Ascii.eqb_neq. intros ->. congruence.
Qed.

Lemma percent_inj (c c' : ascii) (s s' : string) :
  Uri.percent c ++ s = Uri.percent c' ++ s' -> c = c' /\ s = s'.
Proof.
  unfold Uri.percent. simpl. intros [= H1 H2 Hs]. split; [|exact Hs].
  pose proof (ascii_bound c) as Hc. pose proof (ascii_bound c') as Hc'.
  apply (f_equal hex_value) in H1, H2.
  rewrite !hex_value_digit in H1, H2;
    try (apply N.mod_lt; discriminate);
    try (apply N.Div0.div_lt_upper_bound; assumption).
  rewrite <- (ascii_N_embedding c), <- (ascii_N_embedding c'). f_equal.
  rewrite (N.div_mod (N_of_ascii c) 16), (N.div_mod (N_of_ascii c') 16)
    by discriminate.
  now rewrite H1, H2.
Qed.

Lemma encode_inj (a b : string) :
  Uri.encodeURIComponent a = Uri.encodeURIComponent b -> a = b.
Proof.
  revert b. induction a as [|c a IH]; intros [|c' b]; simpl; intros H.
  - reflexivity.
  - destruct (Uri.unreserved c'); discriminate.
  - destruct (Uri.unreserved c); discriminate.
  - destruct (Uri.unreserved c) eqn:Hc, (Uri.unreserved c') eqn:Hc'.
    + injection H as -> H. now rewrite (IH _ H).
    + simpl in H. injection H as -> _. discriminate.
    + simpl in H. injection H as <- _. discriminate.
    + apply percent_inj in H as [-> H]. now rewrite (IH _ H).
Qed.

End StringFacts.

(* ================================================================== *)
(** * URLs and the [Cookie] header *)

Module UrlFacts.

Import StringFacts.

Lemma includes_here (c : ascii) (s : string) :
  Str.includes (String c EmptyString) (String c s) = true.
Proof. cbn [Str.includes]. now rewrite prefix_single, Ascii.eqb_refl. Qed.

Lemma append_inv_head (a x y : string) : a ++ x = a ++ y -> x = y.
Proof. induction a as [|c a IH]; simpl; [auto|]. intros [= H]. auto. Qed.

(** Two escaped strings followed by the same delimiter. *)
Lemma encode_cut (c : ascii) (a b x y : string) :
  uri_safe c = false ->
  Uri.encodeURIComponent a ++ String c x = Uri.encodeURIComponent b ++ String c y ->
  a = b.
Proof.
  intros Hc.
  assert (Hgen : forall u v : string,
             all_chars uri_safe u = true -> all_chars uri_safe v = true ->
             u ++ String c x = v ++ String c y -> u = v).
  { induction u as [|p u IH]; intros [|q v] Hu Hv H; simpl in *.
    - reflexivity.
    - injection H as <- _. apply andb_true_iff in Hv as [Hq _]. congruence.
    - injection H as -> _. apply andb_true_iff in Hu as [Hp _]. congruence.
    - injection H as -> H.
      apply andb_true_iff in Hu as [_ Hu]. apply andb_true_iff in Hv as [_ Hv].
      now rewrite (IH v Hu Hv H). }
  intros H. apply encode_inj. apply Hgen; auto using encode_safe.
Qed.

(** An escaped string is not an escaped string followed by a delimiter. *)
Lemma encode_stop (c : ascii) (a b y : string) :
  uri_safe c = false ->
  Uri.encodeURIComponent a <> Uri.encodeURIComponent b ++ String c y.
Proof.
  intros Hc H.
  pose proof (encode_excludes c a Hc) as Hex.
  rewrite H, includes_single_app, includes_here, orb_true_r in Hex.
  discriminate.
Qed.

End UrlFacts.

(** X10. The separator of the crumb parameter, tool by tool: the URL of
    [getOptionExpirationDates] has no query, whatever the ticker, so the
    crumb is appended to it with ["?"]; the URL of every other tool has one,
    so the crumb is appended with ["&"]. *)
Theorem crumb_separator (rt : Runtime) (c : Client) (t : ToolCall) (cr : string) :
  with_crumb (fst (tool_request rt c t)) cr
  = fst (tool_request rt c t)
    ++ match t with
       | get_option_expiration_dates _ => "?"
       | _ => "&"
       end
    ++ "crumb=" ++ Uri.encodeURIComponent cr.
Proof.
  unfold with_crumb.
  assert (Hq : Str.includes "?" (fst (tool_request rt c t))
               = match t with
                 | get_option_expiration_dates _ => false
                 | _ => true
                 end).
  { destruct t; cbn [fst tool_request];
      unfold Url.prices, Url.stock_info, Url.quote_summary, Url.news, Url.actions,
        Url.options, Url.option_chain;
      rewrite ?StringFacts.includes_single_app;
      rewrite ?StringFacts.encode_excludes by reflexivity;
      try reflexivity;
      rewrite ?UrlFacts.includes_here; rewrite ?orb_true_r; reflexivity. }
  rewrite Hq. now destruct t.
Qed.

(** X11. The ticker stays in its place: in the URL of every tool call
    the ticker appears escaped by [encodeURIComponent], right after the
    fixed text of the template, and what follows it is nothing or starts
    with the ["?"] or ["&"] of the template; the escaped ticker consists of
    letters, digits, the marks [- _ . ! ~ * ' ( )] and the percent sign, so
    none of [/ ? # & = + : ; , @] nor the space occurs in it, and it can
    add neither a path segment nor a parameter. *)
Theorem ticker_is_escaped (rt : Runtime) (c : Client) (t : ToolCall) :
  let escaped := Uri.encodeURIComponent (tool_ticker t) in
  (exists rest,
      fst (tool_request rt c t) = ticker_slot t ++ escaped ++ rest
      /\ (rest = EmptyString
          \/ exists more, rest = String "?" more \/ rest = String "&" more))
  /\ all_chars uri_safe escaped = true
  /\ Forall (fun d => Str.includes (String d EmptyString) escaped = false)
            url_delimiters.
Proof.
  intros escaped. split; [|split].
  - destruct t; cbn [fst tool_request ticker_slot];
      unfold Url.prices, Url.stock_info, Url.quote_summary, Url.news, Url.actions,
        Url.options, Url.option_chain;
      first [ eexists; (split; [reflexivity|]);
              first [right; eexists; left; reflexivity
                    |right; eexists; right; reflexivity]
            | exists EmptyString; subst escaped; cbn [tool_ticker];
              rewrite StringFacts.append_nil_r; split; [reflexivity|now left] ].
  - apply StringFacts.encode_safe.
  - unfold url_delimiters.
    repeat (constructor; [now apply StringFacts.encode_excludes|]). constructor.
Qed.

(** X12. The URL tells the ticker: two tool calls, of the same tool or
    not, that ask for the same URL are about the same ticker. *)
Theorem url_determines_ticker (rt : Runtime) (c : Client) (t1 t2 : ToolCall) :
  fst (tool_request rt c t1) = fst (tool_request rt c t2) ->
  tool_ticker t1 = tool_ticker t2.
Proof.
  destruct t1, t2; cbn [fst tool_request tool_ticker];
    unfold Url.prices, Url.stock_info, Url.quote_summary, Url.news, Url.actions,
      Url.options, Url.option_chain, BASE_URL, BASE_URL_V2;
    intros H;
    try (apply (UrlFacts.append_inv_head "https://query") in H);
    try (simpl in H; discriminate H);
    try (apply (UrlFacts.append_inv_head "1.finance.yahoo.com") in H);
    try (apply (UrlFacts.append_inv_head "2.finance.yahoo.com") in H);
    try (simpl in H; discriminate H);
    try (apply (UrlFacts.append_inv_head "/v8/finance/chart/") in H);
    try (apply (UrlFacts.append_inv_head "/v10/finance/quoteSummary/") in H);
    try (apply (UrlFacts.append_inv_head "/v1/finance/search?q=") in H);
    try (apply (UrlFacts.append_inv_head "/v7/finance/options/") in H);
    try (now apply StringFacts.encode_inj);
    try (now apply (UrlFacts.encode_cut "?"%char) in H);
    try (now apply (UrlFacts.encode_cut "&"%char) in H);
    try (now apply UrlFacts.encode_stop in H);
    try (symmetry in H; now apply UrlFacts.encode_stop in H).
Qed.

Lemma url_determines_ticker_witness :
  tool_ticker (get_option_chain "AAPL" "2024-01-19" calls)
  = tool_ticker (get_option_chain "AAPL" "2024-01-19" puts).
Proof.
  apply (url_determines_ticker Scenario.plain_runtime CrumbClient
           (get_option_chain "AAPL" "2024-01-19" calls)
           (get_option_chain "AAPL" "2024-01-19" puts)).
  vm_compute. reflexivity.
Defined.

(** X13. The [Cookie] header of the first client is well formed: the
    value [getCrumb] computes from a [Set-Cookie] header is the join
    by ["; "] of pairs that are not empty, hold no comma and no semicolon
    and have no white space around them; and it is the empty string, which
    [getCrumb] reads as "no cookie", exactly when the header has no such
    pair. *)
Theorem cookie_header_well_formed (setCookie : string) :
  Api.cookies_of setCookie = Str.join "; " (cookie_pairs setCookie)
  /\ Forall (fun p => cookie_pair p = true) (cookie_pairs setCookie)
  /\ (Api.cookies_of setCookie = EmptyString <-> cookie_pairs setCookie = []).
Proof.
  split; [reflexivity|].
  assert (Hall : Forall (fun p => cookie_pair p = true) (cookie_pairs setCookie)).
  { apply Forall_forall. intros p Hp. unfold cookie_pairs in Hp.
    apply filter_In in Hp as [Hp Hne]. apply in_map_iff in Hp as (piece & <- & Hin).
    unfold cookie_pair. rewrite Hne, StringFacts.trim_idem, String.eqb_refl.
    rewrite andb_true_r. simpl. apply StringFacts.trim_chars.
    pose proof (StringFacts.split_pieces "," (fun _ => true) setCookie) as Hsplit.
    assert (Htrue : all_chars (fun _ => true) setCookie = true)
      by (clear; induction setCookie; simpl; auto).
    specialize (Hsplit Htrue). rewrite Forall_forall in Hsplit.
    specialize (Hsplit piece Hin).
    pose proof (StringFacts.split_pieces ";" _ piece Hsplit) as Hsemi.
    pose proof (StringFacts.split_not_nil ";" piece) as Hnil.
    destruct (Str.split ";" piece) as [|first rest]; [contradiction|].
    inversion Hsemi as [|? ? Hfirst _]; subst. cbn [hd].
    revert Hfirst. apply StringFacts.all_chars_impl.
    intros ch Hch. unfold none_of. cbn [existsb].
    apply andb_true_iff in Hch as [Hc1 Hc2].
    apply andb_true_iff in Hc1 as [_ Hc1].
    apply negb_true_iff in Hc1, Hc2. now rewrite Hc1, Hc2. }
  split; [exact Hall|]. split.
  - apply StringFacts.join_nonempty.
    revert Hall. apply Forall_impl. intros p Hp. unfold cookie_pair in Hp.
    apply andb_true_iff in Hp as [Hp _]. now apply andb_true_iff in Hp as [Hp _].
  - unfold Api.cookies_of. fold (cookie_pairs setCookie). now intros ->.
Qed.

(** X14. The cookies of a [Set-Cookie] header are read part by part: the
    pairs [getCrumb] keeps of [a + "," + b] are those of [a] followed by
    those of [b], and the value [getCookieAndCrumb] computes for
    [a + "," + b] is the value for [a], then ["; "], then the value for
    [b]. *)
Theorem cookies_part_by_part (a b : string) :
  cookie_pairs (a ++ "," ++ b) = (cookie_pairs a ++ cookie_pairs b)%list
  /\ Api2.cookies_of (a ++ "," ++ b)
     = Api2.cookies_of a ++ "; " ++ Api2.cookies_of b.
Proof.
  unfold cookie_pairs, Api2.cookies_of.
  change (a ++ "," ++ b) with (a ++ String "," b).
  rewrite StringFacts.split_app, map_app, filter_app. split; [reflexivity|].
  apply StringFacts.join_app.
  - pose proof (StringFacts.split_not_nil "," a).
    destruct (Str.split "," a); [contradiction|discriminate].
  - pose proof (StringFacts.split_not_nil "," b).
    destruct (Str.split "," b); [contradiction|discriminate].
Qed.

(* ================================================================== *)
(** * The shaped data *)

Module ShapeFacts.

Import ActionFacts RecommendationFacts.

Lemma mapi_Forall2 {A B : Type} (f : A -> nat -> Result B) (items : list A) :
  forall i out,
    Res.mapi f i items = Ok out ->
    Forall2 (fun x y => exists j, f x j = Ok y) items out.
Proof.
  induction items as [|x items IH]; intros i out H; simpl in H.
  - injection H as <-. constructor.
  - destruct (f x i) as [y|e] eqn:Hx; simpl in H; [|discriminate].
    destruct (Res.mapi f (S i) items) as [ys|e] eqn:Hrest; simpl in H;
      [|discriminate].
    injection H as <-. constructor; eauto.
Qed.

Lemma mapi_total {A B : Type} (f : A -> nat -> Result B) (items : list A) :
  (forall x j, In x items -> exists y, f x j = Ok y) ->
  forall i, exists out, Res.mapi f i items = Ok out.
Proof.
  induction items as [|x items IH]; intros Hok i; simpl; [eauto|].
  destruct (Hok x i (or_introl eq_refl)) as (y & ->). simpl.
  destruct (IH (fun x' j H => Hok x' j (or_intror H)) (S i)) as (ys & ->).
  simpl. eauto.
Qed.


Lemma or_object_not_nullish (v : value) (fields : list (string * value)) :
  Js.nullish (Js.or v (VObj fields)) = false.
Proof. unfold Js.or. destruct (Js.truthy v) eqn:H; [now destruct v|reflexivity]. Qed.

(** The record of one timestamp, the columns being an object. *)
Lemma price_record_eq (rt : Runtime) (quotes adjClose ts : value) (i : nat) :
  Js.nullish quotes = false ->
  Shape.price_record rt quotes adjClose ts i
  = match Shape.iso_of_seconds rt ts with
    | Ok date =>
        let at_i column := Js.opt_get (Js.own_prop quotes column) (Js.index_key i) in
        Ok (VObj [("Date", VStr date);
                  ("Open", Js.coalesce (at_i "open") VNull);
                  ("High", Js.coalesce (at_i "high") VNull);
                  ("Low", Js.coalesce (at_i "low") VNull);
                  ("Close", Js.coalesce (at_i "close") VNull);
                  ("Volume", Js.coalesce (at_i "volume") VNull);
                  ("Adj Close",
                   Js.coalesce (Js.coalesce (Js.opt_get adjClose (Js.index_key i))
                                            (at_i "close")) VNull)])
    | Throw e => Throw e
    end.
Proof.
  intros Hq. unfold Shape.price_record.
  destruct (Shape.iso_of_seconds rt ts) as [date|e]; [|reflexivity].
  cbn [Res.bind]. rewrite !(get_ok quotes _ Hq). reflexivity.
Qed.

Lemma iso_of_seconds_datable (rt : Runtime) (ts : value) :
  Shape.iso_of_seconds rt ts
  = match Date.of_number (Num.mul (Js.ToNumber rt ts) (Fin 1000)) with
    | Some t => Ok (Date.iso_of_time t)
    | None => Throw (Js.RangeError "Invalid time value")
    end.
Proof. reflexivity. Qed.

(** The first lines of [getHistoricalStockPrices] past the unwrapping. *)
Lemma prices_eq (rt : Runtime) (ticker : string) (data result : value) :
  Shape.unwrap rt "chart" ticker data = Ok (inr result) ->
  Shape.prices rt ticker data
  = Res.bind (Shape.array_items "timestamps.map"
                (Js.or (Js.own_prop result "timestamp") (VArr [])))
      (fun items =>
         Res.bind
           (Res.mapi (Shape.price_record rt
                        (Js.or (Js.opt_get (Js.opt_get (Js.own_prop result "indicators")
                                                       "quote") "0") (VObj []))
                        (adjclose_series result)) 0 items)
           (fun records => Ok (Json (VArr records)))).
Proof.
  intros Hu. pose proof (unwrap_result _ _ _ _ _ Hu) as Hr.
  unfold Shape.prices. rewrite Hu. cbn [Res.bind].
  rewrite !(get_ok result _ Hr). reflexivity.
Qed.


End ShapeFacts.

(** X15. The price history has one record per timestamp: when
    [result.timestamp] is an array of integers, each a number of seconds
    that [Date] can hold, [getHistoricalStockPrices] returns an array with,
    for each timestamp and in the same order, a record whose [Date] is the
    ISO text of that instant and whose keys are [Date], [Open], [High],
    [Low], [Close], [Volume] and [Adj Close]. *)
Theorem price_history_records (rt : Runtime) (ticker : string)
        (data result : value) (seconds : list Z) :
  Shape.unwrap rt "chart" ticker data = Ok (inr result) ->
  Js.own_prop result "timestamp" = VArr (map (fun z => VNum (Num.of_Z z)) seconds) ->
  Forall (fun z => Z.abs (z * 1000) <= Date.maxTime) seconds ->
  exists records,
    Shape.prices rt ticker data = Ok (Json (VArr records))
    /\ Forall2
         (fun z record =>
            Js.own_prop record "Date" = VStr (Date.iso_of_time (z * 1000))
            /\ map fst (Js.own_entries record) = price_keys)
         seconds records.
Proof.
  intros Hu Hts Hall.
  rewrite (ShapeFacts.prices_eq _ _ _ _ Hu), Hts.
  assert (Hitems : forall z more,
             Shape.array_items "timestamps.map"
               (Js.or (VArr (VNum (Num.of_Z z) :: more)) (VArr []))
             = Ok (VNum (Num.of_Z z) :: more)) by reflexivity.
  assert (Harr : Shape.array_items "timestamps.map"
                   (Js.or (VArr (map (fun z => VNum (Num.of_Z z)) seconds)) (VArr []))
                 = Ok (map (fun z => VNum (Num.of_Z z)) seconds))
    by (destruct seconds; reflexivity).
  rewrite Harr. cbn [Res.bind]. clear Hitems Harr Hts.
  set (quotes := Js.or _ (VObj [])).
  assert (Hq : Js.nullish quotes = false) by apply ShapeFacts.or_object_not_nullish.
  assert (Hrecord : forall z j,
             Z.abs (z * 1000) <= Date.maxTime ->
             exists record,
               Shape.price_record rt quotes (adjclose_series result)
                                  (VNum (Num.of_Z z)) j = Ok record
               /\ Js.own_prop record "Date" = VStr (Date.iso_of_time (z * 1000))
               /\ map fst (Js.own_entries record) = price_keys).
  { intros z j Hz. rewrite (ShapeFacts.price_record_eq _ _ _ _ _ Hq).
    rewrite ShapeFacts.iso_of_seconds_datable, (NumFacts.seconds_to_time rt z Hz).
    eexists. split; [reflexivity|]. split; reflexivity. }
  generalize 0%nat.
  induction Hall as [|z seconds Hz _ IH]; intros i.
  - exists []. split; [reflexivity|constructor].
  - destruct (Hrecord z i Hz) as (record & Hrun & Hdate & Hkeys).
    destruct (IH (S i)) as (records & Hrest & Hall).
    exists (record :: records). split.
    + cbn [map Res.mapi]. rewrite Hrun. cbn [Res.bind].
      destruct (Res.mapi _ (S i) _) as [out|e]; [|discriminate].
      cbn [Res.bind] in *. now injection Hrest as <-.
    + constructor; [now split|exact Hall].
Qed.

Lemma price_history_records_witness :
  let result := VObj [("timestamp", VArr [Scenario.num 86400; Scenario.num 172800]);
                      ("indicators",
                       VObj [("quote", VArr [VObj [("close", VArr [Scenario.num 5])]])])] in
  let data := VObj [("chart", VObj [("result", VArr [result])])] in
  exists records,
    Shape.prices Scenario.plain_runtime "AAPL" data = Ok (Json (VArr records))
    /\ Forall2
         (fun z record =>
            Js.own_prop record "Date" = VStr (Date.iso_of_time (z * 1000))
            /\ map fst (Js.own_entries record) = price_keys)
         [86400; 172800] records.
Proof.
  intros result data.
  apply (price_history_records Scenario.plain_runtime "AAPL" data result
           [86400; 172800]).
  - reflexivity.
  - reflexivity.
  - repeat constructor; vm_compute; discriminate.
Defined.



(** X17. [Adj Close] defaults to [Close]: when the result has no adjusted
    close series ([result.indicators?.adjclose?.[0]?.adjclose] is [null] or
    [undefined]), every record of the price history has the value of its
    [Close] as its [Adj Close]. *)
Theorem adj_close_defaults_to_close (rt : Runtime) (ticker : string)
        (data result : value) (records : list value) :
  Shape.unwrap rt "chart" ticker data = Ok (inr result) ->
  Js.nullish (adjclose_series result) = true ->
  Shape.prices rt ticker data = Ok (Json (VArr records)) ->
  Forall (fun record => Js.own_prop record "Adj Close" = Js.own_prop record "Close")
         records.
Proof.
  intros Hu Hadj H.
  rewrite (ShapeFacts.prices_eq _ _ _ _ Hu) in H.
  destruct (Shape.array_items _ _) as [items|e]; [|discriminate].
  cbn [Res.bind] in H.
  set (quotes := Js.or _ (VObj [])) in H.
  assert (Hq : Js.nullish quotes = false) by apply ShapeFacts.or_object_not_nullish.
  destruct (Res.mapi _ 0 items) as [out|e] eqn:Hrec; [|discriminate].
  cbn [Res.bind] in H. injection H as <-.
  apply ShapeFacts.mapi_Forall2 in Hrec.
  induction Hrec as [|ts record items out (j & Hj) _ IH]; constructor; [|exact IH].
  rewrite (ShapeFacts.price_record_eq _ _ _ _ _ Hq) in Hj.
  destruct (Shape.iso_of_seconds rt ts); [|discriminate].
  injection Hj as <-. cbn.
  unfold Js.opt_get at 1. now rewrite Hadj.
Qed.

Lemma adj_close_defaults_to_close_witness :
  let result := VObj [("timestamp", VArr [Scenario.num 86400; Scenario.num 172800]);
                      ("indicators",
                       VObj [("quote",
                              VArr [VObj [("close", VArr [Scenario.num 5; VNull])]])])] in
  let data := VObj [("chart", VObj [("result", VArr [result])])] in
  let records :=
    match Shape.prices Scenario.plain_runtime "AAPL" data with
    | Ok (Json (VArr records)) => records
    | _ => []
    end in
  Forall (fun record => Js.own_prop record "Adj Close" = Js.own_prop record "Close")
         records.
Proof.
  intros result data records.
  apply (adj_close_defaults_to_close Scenario.plain_runtime "AAPL" data result
           records); reflexivity.
Defined.

Module MoreShapeFacts.

Import ObjectFacts ActionFacts.

(** What [Object.assign] leaves under a key comes from the target or from
    the source. *)
Lemma assign_step_provenance (k : string) (v : value) (t : Js.Target)
      (kv : string * value) :
  Js.lookup k (Js.own (Js.assign t kv)) = Some v ->
  Js.lookup k (Js.own t) = Some v \/ kv = (k, v).
Proof.
  destruct kv as [k0 v0]. unfold Js.assign. cbn [fst snd].
  destruct (String.eqb k0 "__proto__" && negb (Js.has_key k0 (Js.own t))
            && Js.proto_accessor t).
  - intros H. left. now destruct v0.
  - cbn [Js.own]. rewrite lookup_define.
    destruct (String.eqb k k0) eqn:E; [|now left].
    apply String.eqb_eq in E. subst k0. intros [= ->]. now right.
Qed.

Lemma assign_provenance (k : string) (v : value) (source : list (string * value))
      (info : Js.Target) :
  Js.lookup k (Js.own (fold_left Js.assign source info)) = Some v ->
  Js.lookup k (Js.own info) = Some v \/ In (k, v) source.
Proof.
  revert info. induction source as [|kv source IH]; intros info H; simpl in H.
  - now left.
  - apply IH in H as [H|H]; [|right; now right].
    apply assign_step_provenance in H as [H| ->]; [now left|right; now left].
Qed.

Lemma merge_provenance (k : string) (v : value) (entries : list (string * value))
      (info : Js.Target) :
  Js.lookup k (Js.own (fold_left Shape.merge_step entries info)) = Some v ->
  Js.lookup k (Js.own info) = Some v
  \/ exists m, In m entries /\ Wf.module_value (snd m) = true
               /\ In (k, v) (Js.own_entries (snd m)).
Proof.
  revert info. induction entries as [|m entries IH]; intros info H; simpl in H.
  - now left.
  - apply IH in H as [H|(m' & Hin & Hm)]; [|right; exists m'; split; [now right|exact Hm]].
    unfold Shape.merge_step in H.
    destruct (Js.truthy (snd m) && Js.typeof_object (snd m)) eqn:Hmod; [|now left].
    unfold Js.Object_assign in H. apply assign_provenance in H as [H|H]; [now left|].
    right. exists m. split; [now left|]. split; [exact Hmod|exact H].
Qed.

Lemma raw_test (v : value) :
  Js.truthy v && Js.typeof_object v && Js.has_in "raw" v = Wf.object_with "raw" v.
Proof.
  destruct v as [| |b|n|s|items|fields]; simpl; rewrite ?andb_false_r;
    reflexivity.
Qed.

Lemma fmt_test (v : value) :
  Js.truthy v && Js.typeof_object v && Js.has_in "fmt" v = Wf.object_with "fmt" v.
Proof.
  destruct v as [| |b|n|s|items|fields]; simpl; rewrite ?andb_false_r;
    reflexivity.
Qed.

Lemma flatten_entry_unwrapped (obj : list (string * value)) (kv : string * value) :
  renamed kv = false ->
  Shape.flatten_entry obj kv = Js.set (fst kv) (snd (unwrapped kv)) obj.
Proof.
  intros Hren. unfold Shape.flatten_entry, unwrapped. cbv zeta. cbn [fst snd].
  rewrite raw_test.
  destruct (Wf.object_with "raw" (snd kv)) eqn:Hraw; [reflexivity|].
  rewrite <- !andb_assoc.
  replace (Js.truthy (snd kv) && (Js.typeof_object (snd kv) && Js.has_in "fmt" (snd kv)))
    with (Wf.object_with "fmt" (snd kv)) by (now rewrite andb_assoc, fmt_test).
  unfold renamed in Hren. rewrite Hraw, andb_true_r in Hren. now rewrite Hren.
Qed.

Lemma flatten_loop_unwrapped (acc rest : list (string * value)) :
  Wf.own_order (map fst acc ++ map fst rest) = true ->
  existsb renamed rest = false ->
  Wf.plain_keys rest = true ->
  fold_left Shape.flatten_entry rest acc = (acc ++ map unwrapped rest)%list.
Proof.
  revert acc. induction rest as [|kv rest IH]; intros acc Hwf Hren Hplain; simpl.
  - now rewrite app_nil_r.
  - simpl in Hren. apply orb_false_iff in Hren as [Hkv Hren].
    cbn [Wf.plain_keys forallb] in Hplain.
    apply andb_true_iff in Hplain as [Hk Hplain]. apply negb_true_iff in Hk.
    rewrite (flatten_entry_unwrapped _ _ Hkv).
    cbn [map] in Hwf.
    replace (map fst acc ++ fst kv :: map fst rest)%list
      with ((map fst acc ++ [fst kv]) ++ map fst rest)%list in Hwf
      by (now rewrite <- app_assoc).
    rewrite set_last.
    + rewrite IH; [now rewrite <- app_assoc| |exact Hren|exact Hplain].
      now rewrite map_app.
    + exact Hk.
    + apply own_order_app_l in Hwf. now apply own_order_app in Hwf.
Qed.

End MoreShapeFacts.

(** X18. [getStockInfo] invents no field: every field of the object it
    returns is a field of one of the modules of the result that are objects,
    with the value it has there. *)
Theorem stock_info_fields_come_from_modules (rt : Runtime) (ticker : string)
        (data result : value) (info : list (string * value))
        (k : string) (v : value) :
  Shape.unwrap rt "quoteSummary" ticker data = Ok (inr result) ->
  Shape.stock_info rt ticker data = Ok (Json (VObj info)) ->
  Js.lookup k info = Some v ->
  exists name module,
    In (name, module) (Js.own_entries result)
    /\ Wf.module_value module = true
    /\ In (k, v) (Js.own_entries module).
Proof.
  intros Hu H Hk. unfold Shape.stock_info in H. rewrite Hu in H. cbn [Res.bind] in H.
  unfold Js.Object_entries in H.
  rewrite (ActionFacts.unwrap_result _ _ _ _ _ Hu) in H.
  cbn [Res.bind] in H. injection H as <-.
  unfold Shape.merge_modules in Hk.
  apply MoreShapeFacts.merge_provenance in Hk as [Hk|([name module] & Hin & Hm & Hkv)];
    [discriminate|].
  exists name, module. auto.
Qed.

Lemma stock_info_fields_come_from_modules_witness :
  let price := VObj [("currency", VStr "USD")] in
  let result := VObj [("price", price); ("maxAge", Scenario.num 1)] in
  exists name module,
    In (name, module) (Js.own_entries result)
    /\ Wf.module_value module = true
    /\ In ("currency", VStr "USD") (Js.own_entries module).
Proof.
  intros price result.
  apply (stock_info_fields_come_from_modules Scenario.plain_runtime "AAPL"
           (Scenario.summary_body result) result [("currency", VStr "USD")]
           "currency" (VStr "USD")); reflexivity.
Defined.





(** X21. The section read is the module asked for: for each financial
    type, the [if] chain of [getFinancialStatement] reads the statements in
    the member of the result named like the module that [moduleMap] put in
    the URL, and for each holder type the [switch] of [getHolderInfo] reads
    the member named like its module; a list that is missing reads as the
    empty array. *)
Theorem requested_module_is_read (result : value) :
  Js.nullish result = false ->
  (forall t : FinancialType,
      Shape.statements_of (Shape.financial_type_name t) result
      = Ok (Js.or (Js.opt_get (Js.own_prop result (Shape.financial_module t))
                              (statement_list t))
                  (VArr [])))
  /\ (forall t : HolderType,
         Shape.holders_of t result
         = Ok (match holder_list t with
               | None => Js.own_prop result (Shape.holder_module t)
               | Some list =>
                   Js.or (Js.opt_get (Js.own_prop result (Shape.holder_module t)) list)
                         (VArr [])
               end)).
Proof.
  intros Hr. split; intros t; destruct t;
    unfold Shape.statements_of, Shape.holders_of; cbn -[Js.get Js.or Js.opt_get Js.own_prop];
    rewrite (ActionFacts.get_ok result _ Hr); reflexivity.
Qed.

Lemma requested_module_is_read_witness :
  let result := VObj [("balanceSheetHistoryQuarterly",
                       VObj [("balanceSheetStatements", VArr [VObj []])])] in
  (forall t : FinancialType,
      Shape.statements_of (Shape.financial_type_name t) result
      = Ok (Js.or (Js.opt_get (Js.own_prop result (Shape.financial_module t))
                              (statement_list t))
                  (VArr [])))
  /\ (forall t : HolderType,
         Shape.holders_of t result
         = Ok (match holder_list t with
               | None => Js.own_prop result (Shape.holder_module t)
               | Some list =>
                   Js.or (Js.opt_get (Js.own_prop result (Shape.holder_module t)) list)
                         (VArr [])
               end)).
Proof.
  intros result. apply (requested_module_is_read result). reflexivity.
Defined.

(** X22. Flattening works field by field: on a statement that has no
    field named [__proto__] and none of whose fields is an [endDate]
    holding an object with [fmt] and without [raw], the callback of
    [statements.map] keeps the keys and their order, puts the [raw] member
    in the place of every object that has one and leaves every other value
    as it is. *)
Theorem flatten_statement_pointwise (fields : list (string * value)) :
  Wf.object fields = true ->
  Wf.plain_keys fields = true ->
  existsb renamed fields = false ->
  Shape.flatten_statement (VObj fields) = Ok (VObj (map unwrapped fields)).
Proof.
  intros Hwf Hplain Hren. unfold Shape.flatten_statement. simpl.
  now rewrite (MoreShapeFacts.flatten_loop_unwrapped [] fields).
Qed.

Lemma flatten_statement_pointwise_witness :
  Shape.flatten_statement
    (VObj [("maxAge", VNum (Fin 1));
           ("endDate", VObj [("raw", VNum (Fin 1727481600)); ("fmt", VStr "2024-09-28")]);
           ("totalRevenue", VObj [("raw", VNum (Fin 391035000000));
                                  ("fmt", VStr "391.04B")]);
           ("netIncome", VNull)])
  = Ok (VObj [("maxAge", VNum (Fin 1));
              ("endDate", VNum (Fin 1727481600));
              ("totalRevenue", VNum (Fin 391035000000));
              ("netIncome", VNull)]).
Proof.
  apply (flatten_statement_pointwise
           [("maxAge", VNum (Fin 1));
            ("endDate", VObj [("raw", VNum (Fin 1727481600)); ("fmt", VStr "2024-09-28")]);
            ("totalRevenue", VObj [("raw", VNum (Fin 391035000000));
                                   ("fmt", VStr "391.04B")]);
            ("netIncome", VNull)]); reflexivity.
Defined.

(* ================================================================== *)
(** * Sorting, dates and cutoffs *)

Module StableFacts.

Section Stable.

Context {A : Type}.
Variables (compare : A -> A -> number) (dom : A -> Prop) (key : A -> Z) (k : Z).

Hypothesis compare_key :
  forall a b, dom a -> dom b ->
              (Num.sign (compare a b) <=? 0) = (key a <=? key b).

Let at_k (a : A) : bool := key a =? k.

Lemma insert_stable (x : A) (l : list A) :
  dom x -> Forall dom l ->
  filter at_k (Sort.insert compare x l)
  = if at_k x then x :: filter at_k l else filter at_k l.
Proof.
  intros Hx Hl. induction l as [|y l IH]; [reflexivity|].
  inversion Hl as [|? ? Hy Hl']; subst. cbn [Sort.insert].
  rewrite (compare_key x y Hx Hy).
  destruct (Z.leb_spec (key x) (key y)) as [Hle|Hgt]; [reflexivity|].
  cbn [filter]. rewrite (IH Hl'). unfold at_k.
  destruct (Z.eqb_spec (key x) k) as [Hxk|Hxk]; [|reflexivity].
  destruct (Z.eqb_spec (key y) k) as [Hyk|Hyk]; [lia|reflexivity].
Qed.

Lemma sort_stable (l : list A) :
  Forall dom l -> filter at_k (Sort.sort compare l) = filter at_k l.
Proof.
  induction l as [|x l IH]; intros H; [reflexivity|].
  inversion H as [|? ? Hx Hl]; subst. cbn [Sort.sort].
  rewrite insert_stable; auto using SortFacts.sort_dom.
  cbn [filter]. now rewrite (IH Hl).
Qed.

End Stable.

End StableFacts.

(** X23. The sort of [getStockActions] is stable: on a chart response
    as in the merge-and-sort property, the records of any one date come out
    in the order in which the loops collected them, the dividends of that
    date before its splits and each group in the order in which
    [Object.values] listed it. *)
Theorem actions_sort_is_stable (rt : Runtime) (ticker : string)
        (data result : value) (dividends splits : list (string * value))
        (divs spls : list Expected.Action) :
  Shape.unwrap rt "chart" ticker data = Ok (inr result) ->
  Expected.events_of result "dividends" = VObj dividends ->
  Expected.events_of result "splits" = VObj splits ->
  Forall2 Expected.dividend_event divs (map snd dividends) ->
  Forall2 Expected.split_event spls (map snd splits) ->
  exists out,
    Shape.actions rt ticker data = Ok (Json (VArr (map Expected.record out)))
    /\ forall date,
         filter (fun a => Expected.date_of a =? date) out
         = (filter (fun a => Expected.date_of a =? date) divs
            ++ filter (fun a => Expected.date_of a =? date) spls)%list.
Proof.
  intros Hu Hdiv Hspl Hdivs Hspls.
  exists (Sort.sort Expected.ascending (divs ++ spls)). split.
  - now apply (ActionFacts.actions_expected rt ticker data result dividends splits).
  - intros date. rewrite <- filter_app.
    apply (StableFacts.sort_stable Expected.ascending (fun _ => True)
             Expected.date_of date).
    + intros a b _ _. apply NumFacts.sign_difference.
    + now apply Forall_forall.
Qed.

Lemma actions_sort_is_stable_witness :
  let early := VObj [("date", Scenario.num 50); ("amount", Scenario.num 2)] in
  let late := VObj [("date", Scenario.num 100); ("amount", Scenario.num 1)] in
  let split := VObj [("date", Scenario.num 50); ("numerator", Scenario.num 3);
                     ("denominator", Scenario.num 2)] in
  let result := VObj [("events",
                       VObj [("dividends", VObj [("50", early); ("100", late)]);
                             ("splits", VObj [("50", split)])])] in
  let data := VObj [("chart", VObj [("result", VArr [result])])] in
  let divs := [Expected.Dividend 50 (Scenario.num 2);
               Expected.Dividend 100 (Scenario.num 1)] in
  let spls := [Expected.Split 50 3 2] in
  exists out,
    Shape.actions Scenario.plain_runtime "AAPL" data
      = Ok (Json (VArr (map Expected.record out)))
    /\ forall date,
         filter (fun a => Expected.date_of a =? date) out
         = (filter (fun a => Expected.date_of a =? date) divs
            ++ filter (fun a => Expected.date_of a =? date) spls)%list.
Proof.
  intros early late split result data divs spls.
  apply (actions_sort_is_stable Scenario.plain_runtime "AAPL" data result
           [("50", early); ("100", late)] [("50", split)] divs spls).
  - reflexivity.
  - reflexivity.
  - reflexivity.
  - repeat constructor; vm_compute; discriminate.
  - repeat constructor; try (vm_compute; discriminate); reflexivity.
Defined.

(** The example above, computed: the dividend and the split of date 50, in
    that order, then the dividend of date 100. *)
Example actions_stable_example :
  let early := VObj [("date", Scenario.num 50); ("amount", Scenario.num 2)] in
  let late := VObj [("date", Scenario.num 100); ("amount", Scenario.num 1)] in
  let split := VObj [("date", Scenario.num 50); ("numerator", Scenario.num 3);
                     ("denominator", Scenario.num 2)] in
  let result := VObj [("events",
                       VObj [("dividends", VObj [("50", early); ("100", late)]);
                             ("splits", VObj [("50", split)])])] in
  Shape.actions Scenario.plain_runtime "AAPL"
                (VObj [("chart", VObj [("result", VArr [result])])])
  = Ok (Json (VArr [Expected.action 50000 (Scenario.num 2) (VNum (Fin 0));
                    Expected.action 50000 (VNum (Fin 0)) (VNum (Fin (3 # 2)));
                    Expected.action 100000 (Scenario.num 1) (VNum (Fin 0))])).
Proof. vm_compute. reflexivity. Qed.

Module RoundTripFacts.

Import StringFacts NumFacts.

Lemma pad_plain (c : ascii) (width : nat) (n : Z) :
  (N_of_ascii c < 48 \/ 57 < N_of_ascii c)%N ->
  all_chars (fun x => negb (Ascii.eqb x c)) (Date.pad width n) = true.
Proof.
  intros Hc. induction width as [|w IH]; [reflexivity|].
  cbn [Date.pad all_chars]. rewrite IH, andb_true_r.
  apply negb_true_iff, Ascii.eqb_neq. intros Heq.
  assert (Hd : 0 <= (n / 10 ^ Z.of_nat w) mod 10 < 10)
    by (apply Z.mod_pos_bound; lia).
  unfold Date.digit_char in Heq. rewrite <- Heq in Hc.
  rewrite N_ascii_embedding in Hc by lia. lia.
Qed.

Lemma year_string_plain (y : Z) :
  all_chars (fun x => negb (Ascii.eqb x "T")) (Date.year_string y) = true.
Proof.
  unfold Date.year_string.
  destruct ((0 <=? y) && (y <=? 9999));
    [|destruct (y <? 0); rewrite all_chars_app; cbn [all_chars];
      rewrite andb_true_l];
    apply pad_plain; right; reflexivity.
Qed.

(** The first piece of a split, past a stretch without separator. *)
Lemma hd_split_app (c : ascii) (a b : string) :
  all_chars (fun x => negb (Ascii.eqb x c)) a = true ->
  hd EmptyString (Str.split c (a ++ b)) = a ++ hd EmptyString (Str.split c b).
Proof.
  induction a as [|x a IH]; [reflexivity|]. cbn [all_chars append Str.split].
  intros H. apply andb_true_iff in H as [Hx Ha]. apply negb_true_iff in Hx.
  rewrite Hx. specialize (IH Ha).
  pose proof (split_not_nil c (a ++ b)) as Hne.
  destruct (Str.split c (a ++ b)) as [|p ps]; [contradiction|].
  cbn [hd] in *. now rewrite IH.
Qed.

(** The date part of what [toISOString] writes. *)
Lemma iso_date_part (t : Z) :
  hd EmptyString (Str.split "T" (Date.iso_of_time t))
  = match Date.civil_from_days (t / Date.msPerDay) with
    | (y, m, d) =>
        Date.year_string y ++ "-" ++ Date.pad 2 m ++ "-" ++ Date.pad 2 d
        ++ EmptyString
    end.
Proof.
  unfold Date.iso_of_time.
  destruct (Date.civil_from_days (t / Date.msPerDay)) as [[y m] d].
  rewrite hd_split_app by apply year_string_plain. f_equal.
  rewrite (hd_split_app "T" "-") by reflexivity. f_equal.
  rewrite hd_split_app by (apply pad_plain; right; reflexivity). f_equal.
  rewrite (hd_split_app "T" "-") by reflexivity. f_equal.
  rewrite hd_split_app by (apply pad_plain; right; reflexivity). f_equal.
Qed.

(** [Date.parse] of the date part of an instant: the midnight before. *)
Lemma parse_date_part (rt : Runtime) (t : Z) :
  Z.abs t <= Date.maxTime ->
  Date.parse rt (hd EmptyString (Str.split "T" (Date.iso_of_time t)))
  = Some (t / Date.msPerDay * Date.msPerDay).
Proof.
  intros Ht. rewrite iso_date_part.
  assert (Hday : Z.abs (t / Date.msPerDay) <= 100000000).
  { unfold Date.msPerDay, Date.maxTime in *.
    assert (-100000000 <= t / 86400000 <= 100000000)
      by (Z.div_mod_to_equations; lia).
    lia. }
  pose proof (DateFacts.take_date_of_day (t / Date.msPerDay) EmptyString Hday) as Hd.
  destruct (Date.civil_from_days (t / Date.msPerDay)) as [[y m] d].
  unfold Date.parse, Date.parse_iso. rewrite Hd. unfold Date.in_range.
  replace (Z.abs (t / Date.msPerDay * Date.msPerDay) <=? Date.maxTime) with true;
    [reflexivity|].
  symmetry. apply Z.leb_le. unfold Date.msPerDay, Date.maxTime in *. lia.
Qed.

(** [String(n)] for an integer of moderate size. *)
Lemma number_to_string_integer (rt : Runtime) (z : Z) :
  Z.abs z < 10 ^ 21 -> Js.number_to_string rt (Num.of_Z z) = Str.of_Z z.
Proof.
  intros H. unfold Js.number_to_string, Num.of_Z. rewrite Qred_integer.
  cbn [Qden Qnum inject_Z]. rewrite Pos.eqb_refl.
  apply Z.ltb_lt in H. now rewrite H.
Qed.

(** [Math.floor(n / 1000)] for an integer [n]. *)
Lemma floor_div_1000 (z : Z) :
  Num.floor (Num.div (Num.of_Z z) (Fin 1000)) = Num.of_Z (z / 1000).
Proof.
  unfold Num.of_Z, Num.div. cbn [Num.sgn Qnum Z.sgn]. unfold Num.floor, Num.of_Z.
  f_equal. f_equal.
  rewrite (Qfloor_comp _ _ (Qred_correct _)).
  unfold Qfloor, Qdiv, Qmult, Qinv, inject_Z. cbn [Qnum Qden].
  now rewrite Z.mul_1_r.
Qed.

End RoundTripFacts.

(** X24. The dates listed by [getOptionExpirationDates] work as arguments
    of [getOptionChain]: for an expiration of [ts] seconds that [Date] can
    hold, the listed text is the date part of its ISO form, and a call of
    [getOptionChain] with that text asks for [?date=] the midnight (UTC) at
    or before [ts], which is [ts] itself when [ts] is a midnight. *)
Theorem expiration_date_round_trip (rt : Runtime) (c : Client) (ticker : string)
        (option_type : OptionType) (ts : Z) :
  Z.abs (ts * 1000) <= Date.maxTime ->
  exists day,
    Shape.expiration_day rt (VNum (Num.of_Z ts)) = Ok (VStr day)
    /\ fst (tool_request rt c (get_option_chain ticker day option_type))
       = Url.option_chain ticker (Str.of_Z (ts - ts mod 86400)).
Proof.
  intros Hts.
  exists (hd EmptyString (Str.split "T" (Date.iso_of_time (ts * 1000)))).
  split.
  - unfold Shape.expiration_day, Shape.iso_of_seconds.
    now rewrite (NumFacts.seconds_to_time rt ts Hts).
  - cbn [fst tool_request]. f_equal.
    rewrite (RoundTripFacts.parse_date_part rt _ Hts). cbn [Date.getTime].
    rewrite RoundTripFacts.floor_div_1000.
    assert (Hmid : ts * 1000 / Date.msPerDay * Date.msPerDay / 1000
                   = ts - ts mod 86400).
    { unfold Date.msPerDay. Z.div_mod_to_equations. lia. }
    rewrite Hmid. apply RoundTripFacts.number_to_string_integer.
    unfold Date.maxTime in Hts.
    assert (Z.abs (ts - ts mod 86400) <= 10 ^ 16)
      by (Z.div_mod_to_equations; lia).
    lia.
Qed.

Lemma expiration_date_round_trip_witness :
  exists day,
    Shape.expiration_day Scenario.plain_runtime (VNum (Num.of_Z 1705622400))
    = Ok (VStr day)
    /\ fst (tool_request Scenario.plain_runtime CrumbClient
              (get_option_chain "AAPL" day calls))
       = Url.option_chain "AAPL" (Str.of_Z (1705622400 - 1705622400 mod 86400)).
Proof.
  apply (expiration_date_round_trip Scenario.plain_runtime CrumbClient "AAPL"
           calls 1705622400).
  vm_compute. discriminate.
Defined.

Module CutoffFacts.




End CutoffFacts.



(* ================================================================== *)
(** * [extractRaw] *)

Module RawFacts.

Import ObjectFacts.

(** Induction on values, through the arrays and the objects. *)
Lemma value_ind_nested (P : value -> Prop) :
  P VUndefined -> P VNull -> (forall b, P (VBool b)) -> (forall n, P (VNum n)) ->
  (forall s, P (VStr s)) ->
  (forall items, Forall P items -> P (VArr items)) ->
  (forall fields, Forall (fun kv => P (snd kv)) fields -> P (VObj fields)) ->
  forall v, P v.
Proof.
  intros H1 H2 H3 H4 H5 H6 H7.
  fix IH 1. intros [| |b|n|s|items|fields].
  - exact H1.
  - exact H2.
  - apply H3.
  - apply H4.
  - apply H5.
  - apply H6. induction items as [|x items IHl]; constructor; [apply IH|exact IHl].
  - apply H7. induction fields as [|[k x] fields IHl]; constructor;
      [apply IH|exact IHl].
Qed.

Lemma extractRaw_object (fields : list (string * value)) :
  Js.has_key "raw" fields = false ->
  Shape.extractRaw (VObj fields) = VObj (rebuild Shape.extractRaw fields []).
Proof. intros H. cbn [Shape.extractRaw]. now rewrite H. Qed.

Lemma rebuild_ordered (f : value -> value) (rest acc : list (string * value)) :
  Wf.own_order (map fst acc ++ map fst rest) = true ->
  Wf.plain_keys rest = true ->
  rebuild f rest acc = (acc ++ map (fun kv => (fst kv, f (snd kv))) rest)%list.
Proof.
  revert acc. induction rest as [|[k v] rest IH]; intros acc Hwf Hplain;
    cbn [rebuild fold_left map fst snd].
  - now rewrite app_nil_r.
  - cbn [map fst] in Hwf.
    cbn [Wf.plain_keys forallb fst] in Hplain.
    apply andb_true_iff in Hplain as [Hk Hplain]. apply negb_true_iff in Hk.
    replace (map fst acc ++ k :: map fst rest)%list
      with ((map fst acc ++ [k]) ++ map fst rest)%list in Hwf
      by (now rewrite <- app_assoc).
    rewrite set_last.
    + fold (rebuild f rest (acc ++ [(k, f v)])). rewrite IH.
      * now rewrite <- app_assoc.
      * now rewrite map_app.
      * exact Hplain.
    + exact Hk.
    + apply own_order_app_l in Hwf. now apply own_order_app in Hwf.
Qed.

Lemma rebuild_lookup_none (f : value -> value) (k : string)
      (rest acc : list (string * value)) :
  Js.lookup k rest = None -> Js.lookup k acc = None ->
  Js.lookup k (rebuild f rest acc) = None.
Proof.
  revert acc. induction rest as [|[k0 v0] rest IH]; intros acc Hr Ha;
    cbn [rebuild fold_left]; [exact Ha|].
  simpl in Hr. destruct (String.eqb k k0) eqn:E; [discriminate|].
  apply IH; [exact Hr|]. rewrite lookup_set, E.
  now destruct (String.eqb k0 "__proto__").
Qed.

(** ** What an assignment does to the list of fields *)

Lemma replace_In (k : string) (v : value) (fields : list (string * value))
      (e : string * value) :
  In e (Js.replace k v fields) -> e = (k, v) \/ In e fields.
Proof.
  induction fields as [|[k0 v0] fields IH]; simpl; [auto|].
  destruct (String.eqb k k0); simpl; intros [H|H]; auto.
  apply IH in H as [H|H]; auto.
Qed.

Lemma insert_index_In (n : N) (k : string) (v : value)
      (fields : list (string * value)) (e : string * value) :
  In e (Js.insert_index n k v fields) -> e = (k, v) \/ In e fields.
Proof.
  induction fields as [|[k0 v0] fields IH]; simpl.
  - intros [H|[]]; auto.
  - destruct (Js.array_index k0) as [n0|]; [destruct (n <? n0)%N|]; simpl;
      intuition auto.
Qed.

Lemma define_In (k : string) (v : value) (fields : list (string * value))
      (e : string * value) :
  In e (Js.define k v fields) -> e = (k, v) \/ In e fields.
Proof.
  unfold Js.define. destruct (Js.has_key k fields).
  - apply replace_In.
  - destruct (Js.array_index k) as [n|]; [apply insert_index_In|].
    intros H. apply in_app_or in H as [H|[H|[]]]; auto.
Qed.

(** An assignment adds the field it names, unless the name is
    ["__proto__"]. *)
Lemma set_In (k : string) (v : value) (fields : list (string * value))
      (e : string * value) :
  In e (Js.set k v fields) ->
  (e = (k, v) /\ String.eqb k "__proto__" = false) \/ In e fields.
Proof.
  unfold Js.set. destruct (String.eqb k "__proto__") eqn:Hk; [now right|].
  intros H. apply define_In in H as [H|H]; auto.
Qed.

Lemma set_plain (k : string) (v : value) (fields : list (string * value)) :
  Wf.plain_keys fields = true -> Wf.plain_keys (Js.set k v fields) = true.
Proof.
  unfold Wf.plain_keys. intros H. apply forallb_forall. intros e He.
  apply set_In in He as [[-> Hk]|He].
  - cbn [fst]. now rewrite Hk.
  - rewrite forallb_forall in H. now apply H.
Qed.

Lemma rebuild_In (f : value -> value) (rest acc : list (string * value))
      (e : string * value) :
  In e (rebuild f rest acc) ->
  In e acc \/ exists x, In (fst e, x) rest /\ snd e = f x.
Proof.
  revert acc. induction rest as [|[k0 v0] rest IH]; intros acc H;
    cbn [rebuild fold_left] in H; [now left|].
  apply IH in H as [H|(x & Hx & He)].
  - apply set_In in H as [[-> _]|H]; [|now left].
    right. exists v0. split; [now left|reflexivity].
  - right. exists x. split; [now right|exact He].
Qed.

(** ** Assignments keep the keys in enumeration order *)

Lemma array_index_canonical (k : string) (n : N) :
  Js.array_index k = Some n -> k = Str.of_Z (Z.of_N n).
Proof.
  unfold Js.array_index. destruct k as [|c k]; [discriminate|].
  destruct (Js.digits_value 0 (String c k)) as [m|]; [|discriminate].
  destruct (String.eqb (Str.of_Z (Z.of_N m)) (String c k)) eqn:E; [|discriminate].
  simpl. destruct (m <? 4294967295)%N; [|discriminate].
  intros [= <-]. apply String.eqb_eq in E. now symmetry.
Qed.

Lemma replace_keys (k : string) (v : value) (fields : list (string * value)) :
  map fst (Js.replace k v fields) = map fst fields.
Proof.
  induction fields as [|[k0 v0] fields IH]; simpl; [reflexivity|].
  destruct (String.eqb k k0) eqn:E; simpl; [|now rewrite IH].
  apply String.eqb_eq in E. now subst.
Qed.

Lemma key_before_index_trans (k k1 k2 : string) (n n1 : N) :
  Js.array_index k = Some n -> Js.array_index k1 = Some n1 -> (n < n1)%N ->
  Wf.key_before k1 k2 = true -> Wf.key_before k k2 = true.
Proof.
  intros Hk Hk1 Hlt H. unfold Wf.key_before in *. rewrite Hk. rewrite Hk1 in H.
  apply andb_true_iff in H as [_ H].
  destruct (Js.array_index k2) as [n2|] eqn:Hk2.
  - apply N.ltb_lt in H. apply andb_true_iff. split.
    + apply negb_true_iff, String.eqb_neq. intros ->. rewrite Hk in Hk2.
      injection Hk2 as <-. lia.
    + apply N.ltb_lt. lia.
  - apply andb_true_iff. split; [|reflexivity].
    apply negb_true_iff, String.eqb_neq. intros ->. congruence.
Qed.

Lemma insert_index_keys (n : N) (k : string) (v : value)
      (fields : list (string * value)) (p : string -> bool) :
  forallb p (map fst fields) = true -> p k = true ->
  forallb p (map fst (Js.insert_index n k v fields)) = true.
Proof.
  induction fields as [|[k0 v0] fields IH]; simpl; intros H Hk.
  - now rewrite Hk.
  - apply andb_true_iff in H as [H0 H].
    destruct (Js.array_index k0) as [n0|]; [destruct (n <? n0)%N|]; simpl;
      rewrite ?Hk, ?H0, ?H; auto.
Qed.

Lemma insert_index_order (n : N) (k : string) (v : value)
      (fields : list (string * value)) :
  Js.array_index k = Some n -> Js.lookup k fields = None ->
  Wf.object fields = true -> Wf.object (Js.insert_index n k v fields) = true.
Proof.
  intros Hk. unfold Wf.object.
  induction fields as [|[k0 v0] fields IH]; intros Hnone Hwf; [reflexivity|].
  simpl in Hnone. destruct (String.eqb k k0) eqn:E; [discriminate|].
  apply String.eqb_neq in E.
  cbn [map fst Wf.own_order] in Hwf. apply andb_true_iff in Hwf as [Hfirst Hrest].
  cbn [Js.insert_index].
  assert (Hnew : forall n0, Js.array_index k0 = Some n0 -> (n < n0)%N ->
                            Wf.own_order (k :: k0 :: map fst fields) = true).
  { intros n0 Hk0 Hlt. cbn [Wf.own_order]. rewrite Hfirst, Hrest, !andb_true_r.
    cbn [forallb]. apply andb_true_iff. split.
    - unfold Wf.key_before. rewrite Hk, Hk0.
      apply andb_true_iff. split; [|now apply N.ltb_lt].
      now apply negb_true_iff, String.eqb_neq.
    - rewrite forallb_forall in *. intros k2 Hk2.
      apply (key_before_index_trans k k0 k2 n n0); auto. }
  destruct (Js.array_index k0) as [n0|] eqn:Hk0.
  - destruct (N.ltb_spec n n0) as [Hlt|Hge].
    + now apply (Hnew n0).
    + cbn [map fst Wf.own_order]. rewrite (IH Hnone Hrest), andb_true_r.
      apply insert_index_keys; [exact Hfirst|].
      unfold Wf.key_before. rewrite Hk0, Hk.
      apply andb_true_iff. split.
      * apply negb_true_iff, String.eqb_neq. congruence.
      * apply N.ltb_lt.
        assert (n <> n0).
        { intros ->. apply E.
          now rewrite (array_index_canonical _ _ Hk), (array_index_canonical _ _ Hk0). }
        lia.
  - cbn [map fst Wf.own_order]. rewrite Hfirst, Hrest, !andb_true_r.
    cbn [forallb]. apply andb_true_iff. split.
    + unfold Wf.key_before. rewrite Hk, Hk0.
      apply andb_true_iff. split; [|reflexivity].
      now apply negb_true_iff, String.eqb_neq.
    + rewrite forallb_forall in *. intros k2 Hk2. specialize (Hfirst k2 Hk2).
      unfold Wf.key_before in *. rewrite Hk0 in Hfirst. rewrite Hk.
      apply andb_true_iff in Hfirst as [_ Hfirst].
      destruct (Js.array_index k2) eqn:Hk2i; [discriminate|].
      apply andb_true_iff. split; [|reflexivity].
      apply negb_true_iff, String.eqb_neq. intros ->. congruence.
Qed.

Lemma append_order (k : string) (v : value) (fields : list (string * value)) :
  Js.array_index k = None -> Js.lookup k fields = None ->
  Wf.object fields = true -> Wf.object (fields ++ [(k, v)]) = true.
Proof.
  intros Hk. unfold Wf.object.
  induction fields as [|[k0 v0] fields IH]; intros Hnone Hwf; [reflexivity|].
  simpl in Hnone. destruct (String.eqb k k0) eqn:E; [discriminate|].
  cbn [map fst Wf.own_order app] in *. apply andb_true_iff in Hwf as [Hfirst Hrest].
  rewrite (IH Hnone Hrest), andb_true_r, map_app, forallb_app, Hfirst.
  cbn [map fst forallb]. rewrite andb_true_r.
  unfold Wf.key_before. rewrite Hk, String.eqb_sym, E.
  now destruct (Js.array_index k0).
Qed.

Lemma set_order (k : string) (v : value) (fields : list (string * value)) :
  Wf.object fields = true -> Wf.object (Js.set k v fields) = true.
Proof.
  intros Hwf. unfold Js.set. destruct (String.eqb k "__proto__"); [exact Hwf|].
  unfold Js.define. destruct (Js.has_key k fields) eqn:Hhas.
  - unfold Wf.object. now rewrite replace_keys.
  - apply has_key_lookup in Hhas.
    destruct (Js.array_index k) as [n|] eqn:Hk.
    + now apply insert_index_order.
    + now apply append_order.
Qed.

Lemma rebuild_order (f : value -> value) (rest acc : list (string * value)) :
  Wf.object acc = true -> Wf.object (rebuild f rest acc) = true.
Proof.
  revert acc. induction rest as [|[k v] rest IH]; intros acc H;
    cbn [rebuild fold_left]; [exact H|].
  apply IH. now apply set_order.
Qed.

Lemma rebuild_plain (f : value -> value) (rest acc : list (string * value)) :
  Wf.plain_keys acc = true -> Wf.plain_keys (rebuild f rest acc) = true.
Proof.
  revert acc. induction rest as [|[k v] rest IH]; intros acc H;
    cbn [rebuild fold_left]; [exact H|].
  apply IH. now apply set_plain.
Qed.

(** ** The two halves of idempotence *)

Lemma extractRaw_clean_id (v : value) : clean v -> Shape.extractRaw v = v.
Proof.
  induction v as [| |b|n|s|items IH|fields IH] using value_ind_nested;
    intros (Hord & Hfree & Hproto); try reflexivity.
  - cbn [Shape.extractRaw]. f_equal.
    cbn [ordered raw_free proto_free] in *.
    rewrite forallb_forall in Hord, Hfree, Hproto.
    rewrite Forall_forall in IH.
    rewrite <- (map_id items) at 2. apply map_ext_in.
    intros x Hx. apply IH; [exact Hx|]. repeat split; auto.
  - cbn [ordered raw_free proto_free] in *.
    apply andb_true_iff in Hord as [Hwf Hord].
    apply andb_true_iff in Hfree as [Hraw Hfree].
    apply andb_true_iff in Hproto as [Hplain Hproto].
    apply negb_true_iff in Hraw.
    rewrite (extractRaw_object _ Hraw). f_equal.
    rewrite rebuild_ordered by assumption. cbn [app].
    rewrite forallb_forall in Hord, Hfree, Hproto. rewrite Forall_forall in IH.
    rewrite <- (map_id fields) at 2. apply map_ext_in.
    intros [k x] Hx. cbn [fst snd]. f_equal.
    apply (IH (k, x) Hx). split; [exact (Hord (k, x) Hx)|].
    split; [exact (Hfree (k, x) Hx)|exact (Hproto (k, x) Hx)].
Qed.

Lemma primitive_clean (v : value) : primitive v = true -> clean v.
Proof. destruct v; try discriminate; intros _; repeat split; reflexivity. Qed.

Lemma extractRaw_cleans (v : value) : raw_leaves v = true -> clean (Shape.extractRaw v).
Proof.
  induction v as [| |b|n|s|items IH|fields IH] using value_ind_nested;
    intros Hleaves; try (repeat split; reflexivity).
  - cbn [Shape.extractRaw raw_leaves] in *.
    rewrite forallb_forall in Hleaves. rewrite Forall_forall in IH.
    repeat split; cbn [ordered raw_free proto_free]; apply forallb_forall;
      intros y Hy; apply in_map_iff in Hy as (x & <- & Hx);
      now apply IH; auto.
  - cbn [raw_leaves] in Hleaves.
    destruct (Js.lookup "raw" fields) as [r|] eqn:Hraw.
    + cbn [Shape.extractRaw]. unfold Js.has_key. rewrite Hraw.
      cbn [Js.own_prop]. rewrite Hraw. now apply primitive_clean.
    + assert (Hhas : Js.has_key "raw" fields = false) by now apply has_key_lookup.
      rewrite (extractRaw_object _ Hhas).
      rewrite forallb_forall in Hleaves. rewrite Forall_forall in IH.
      assert (Hvalues : forall e, In e (rebuild Shape.extractRaw fields []) ->
                                  clean (snd e)).
      { intros e He. apply rebuild_In in He as [[]|(x & Hx & ->)].
        apply (IH (fst e, x) Hx). exact (Hleaves (fst e, x) Hx). }
      split; [|split]; cbn [ordered raw_free proto_free].
      * rewrite (rebuild_order _ fields []) by reflexivity. cbn [andb].
        apply forallb_forall. intros [k y] He. exact (proj1 (Hvalues (k, y) He)).
      * assert (Hnone : Js.has_key "raw" (rebuild Shape.extractRaw fields []) = false).
        { apply has_key_lookup. now apply rebuild_lookup_none. }
        rewrite Hnone. cbn [negb andb].
        apply forallb_forall. intros [k y] He.
        exact (proj1 (proj2 (Hvalues (k, y) He))).
      * rewrite (rebuild_plain _ fields []) by reflexivity. cbn [andb].
        apply forallb_forall. intros [k y] He.
        exact (proj2 (proj2 (Hvalues (k, y) He))).
Qed.

End RawFacts.

(** X26. [extractRaw] is idempotent on the data of the API: on a value in
    which every object that has a [raw] member holds a primitive value under
    it, applying [extractRaw] to what [extractRaw] returned changes
    nothing. *)
Theorem extractRaw_idempotent (v : value) :
  raw_leaves v = true ->
  Shape.extractRaw (Shape.extractRaw v) = Shape.extractRaw v.
Proof.
  intros H. now apply RawFacts.extractRaw_clean_id, RawFacts.extractRaw_cleans.
Qed.

Lemma extractRaw_idempotent_witness :
  let v := VArr [VObj [("organization", VStr "Vanguard");
                       ("pctHeld", VObj [("raw", VNum (Fin (9 # 100)));
                                         ("fmt", VStr "9.00%")]);
                       ("position", VObj [("raw", Scenario.num 1300000000);
                                          ("fmt", VStr "1.3B");
                                          ("longFmt", VStr "1,300,000,000")])]] in
  Shape.extractRaw (Shape.extractRaw v) = Shape.extractRaw v.
Proof.
  intros v. apply (extractRaw_idempotent v). reflexivity.
Defined.

(** X27. [extractRaw] leaves alone what has no wrapper: a value none of
    whose objects, at any depth, has a [raw] member or a field named
    [__proto__] comes out as it went in. *)
Theorem extractRaw_without_wrappers (v : value) :
  ordered v = true -> raw_free v = true -> proto_free v = true ->
  Shape.extractRaw v = v.
Proof.
  intros Hord Hfree Hproto. apply RawFacts.extractRaw_clean_id.
  repeat split; assumption.
Qed.

Lemma extractRaw_without_wrappers_witness :
  let v := VObj [("maxAge", Scenario.num 1);
                 ("insidersPercentHeld", VNum (Fin (7 # 1000)));
                 ("holders", VArr [VObj [("name", VStr "A")]; VNull])] in
  Shape.extractRaw v = v.
Proof.
  intros v. apply (extractRaw_without_wrappers v); reflexivity.
Defined.

(** A field named [__proto__] does not come out of [extractRaw]: the
    assignment [newObj["__proto__"] = ...] gives [newObj] no field. *)
Example extractRaw_proto_example :
  Shape.extractRaw (VObj [("__proto__", VObj [("x", VNum (Fin 1))]);
                          ("name", VStr "A")])
  = VObj [("name", VStr "A")].
Proof. reflexivity. Qed.

(* ================================================================== *)
(** * A tool call on a fresh cache; the tool table *)



(** X29. The tool table is consistent. The listing that the server
    answers on [/] and [/health] names the same nine tools, in the same
    order, as the agent registers, with the same parameters, each
    enumeration being advertised with exactly the values of its schema; the
    defaults of the schemas are values of their enumerations; and the
    enumerations of the financial and holder types are exactly the keys of
    the two [moduleMap]s, so that for a call that passed its schema
    [moduleMap] has a module and the [Invalid ... type] return is not
    taken. *)
Theorem tool_table_consistent :
  Forall2
    (fun listed registered =>
       fst listed = fst registered
       /\ Forall2 (fun a r => fst a = fst r /\ advertises (snd a) (snd r) = true)
                  (snd listed) (snd registered))
    Server.tools Mcp.tools
  /\ Forall (fun tool => Forall (fun prm => default_allowed (snd prm) = true)
                                (snd tool))
            Mcp.tools
  /\ (forall t : ToolCall, In (tool_name t) (map fst Mcp.tools))
  /\ (forall t : FinancialType,
         In (Shape.financial_type_name t) Mcp.FINANCIAL_TYPES
         /\ Str.nonempty (Shape.financial_module t) = true)
  /\ (forall name, In name Mcp.FINANCIAL_TYPES ->
                   exists t, Shape.financial_type_name t = name)
  /\ (forall t : HolderType,
         In (Shape.holder_type_name t) Mcp.HOLDER_TYPES
         /\ Str.nonempty (Shape.holder_module t) = true)
  /\ (forall name, In name Mcp.HOLDER_TYPES ->
                   exists t, Shape.holder_type_name t = name).
Proof.
  split; [repeat (constructor; [split; [reflexivity|repeat constructor]|]);
          constructor|].
  split; [repeat constructor|].
  split; [intros t; destruct t; simpl; tauto|].
  split; [intros t; destruct t; simpl; tauto|].
  split.
  { intros name H. simpl in H.
    repeat (destruct H as [<-|H];
            [first [now exists income_stmt|now exists quarterly_income_stmt
                   |now exists balance_sheet|now exists quarterly_balance_sheet
                   |now exists cashflow|now exists quarterly_cashflow]|]).
    contradiction. }
  split; [intros t; destruct t; simpl; tauto|].
  intros name H. simpl in H.
  repeat (destruct H as [<-|H];
          [first [now exists major_holders|now exists institutional_holders
                 |now exists mutualfund_holders|now exists insider_transactions
                 |now exists insider_purchases|now exists insider_roster_holders]|]).
  contradiction.
Qed.

(* ================================================================== *)
(** * Failure of the cookie step of the handshake *)

Module CookieFacts.






End CookieFacts.




(** A main page whose [Set-Cookie] header is a lone comma yields no cookie
    either; [getCrumb] returns [null], and [getCookieAndCrumb] takes the
    separator ["; "] for the cookies, asks for the crumb with it and caches
    the pair. *)
Example lone_comma_example :
  let env := Scenario.scripted (Scenario.text_response 200 (Some ",") EmptyString)
               (Scenario.text_response 200 None "AbCdEf123")
               Scenario.not_found 1000 in
  no_cookie (Some ",") = true
  /\ fst (Api.getCrumb env initial_world) = Ok None
  /\ fst (Api2.getCookieAndCrumb env initial_world)
     = Ok {| crumb := "AbCdEf123"; cookie := "; " |}
  /\ cache_of (snd (Api2.getCookieAndCrumb env initial_world))
     = (Some "AbCdEf123", Some "; ", 1000 + 30 * 60 * 1000).
Proof. repeat split; vm_compute; reflexivity. Qed.

(* ================================================================== *)
(** * The expiry at the moment of return *)

(** C5 as stated fails after a handshake that takes more than 30 minutes:
    the expiry is the clock value read before the handshake plus 30
    minutes, and the pair is returned when the clock is past it. The clock
    here reads 1000 at the start of the call and 10000000 once a request
    was sent. *)
Lemma never_expired_counterexample :
  let env := {| runtime := Scenario.plain_runtime;
                net := Scenario.scripted_net Scenario.two_cookies
                         (Scenario.text_response 200 None "AbCdEf123")
                         Scenario.not_found;
                clock := fun history =>
                           match history with [] => 1000 | _ => 10000000 end |} in
  let out := acquire CrumbClient env initial_world in
  fst out = Ok (Some {| crumb := "AbCdEf123"; cookie := "a=1; b=2" |})
  /\ cacheExpiry (snd out) = 1801000
  /\ clock env (events (snd out)) = 10000000
  /\ ~ (clock env (events (snd out)) < cacheExpiry (snd out)).
Proof.
  intros env out. repeat split; try (vm_compute; reflexivity).
  vm_compute. discriminate.
Qed.

(* ================================================================== *)
(** * The error channel of the tool functions *)

Module ErrorFacts.







End ErrorFacts.




(** The body quoted by the first client is cut by UTF-16 code units: of a
    body of 199 letters and an emoji, which is two code units, the error
    keeps the letters and the first half of the emoji, a lone surrogate. *)
Example http_error_slice_example :
  let letters := String.concat EmptyString (repeat "a" 199) in
  let emoji := String "240" (String "159" (String "152" (String "128" EmptyString))) in
  Str.slice0 200 (letters ++ emoji ++ "tail")
  = letters ++ String "237" (String "160" (String "189" EmptyString))
  /\ Str.slice0 200 ("ab" ++ emoji ++ "cd") = "ab" ++ emoji ++ "cd"
  /\ Str.slice0 3 ("ab" ++ emoji ++ "cd") = "ab" ++ String "237" (String "160" (String "189" EmptyString)).
Proof. repeat split; vm_compute; reflexivity. Qed.
